(** * Soulbound identity: hashing, registration documents, verify and update

    A shallow embedding of the identity anchoring subsystem of the
    repository:

    - [lib/hash-identity.mjs]        (hashing engine),
    - [lib/registration-builder.mjs] (registration document builder),
    - [lib/chain-client.mjs]         (chain client, read path and builders),
    - [scripts/verify-identity.mjs]  (verification command),
    - [scripts/update-identity.mjs]  (update command).

    JavaScript strings are sequences of UTF-16 code units, modelled as
    [list Z]; buffers are [list byte]. *)

From Stdlib Require Import Ascii String.
From Stdlib.Strings Require Import Byte.
From Stdlib Require Import ZArith List Lia Bool.
Import ListNotations.
Local Open Scope Z_scope.

(* ------------------------------------------------------------------ *)
(** ** JavaScript strings and buffers *)

Definition jsstring := list Z.
Definition buffer := list byte.

(** An ASCII literal of the source as a JavaScript string. *)
Definition str (s : string) : jsstring :=
  map (fun a => Z.of_N (N_of_ascii a)) (list_ascii_of_string s).

Definition Z_of_byte (b : byte) : Z := Z.of_N (Byte.to_N b).

Definition byte_of_Z (z : Z) : byte :=
  match Byte.of_N (Z.to_N (z mod 256)) with
  | Some b => b
  | None => x00
  end.

Fixpoint jsstring_eqb (a b : jsstring) : bool :=
  match a, b with
  | [], [] => true
  | x :: a', y :: b' => (x =? y) && jsstring_eqb a' b'
  | _, _ => false
  end.

(** [String.prototype.repeat]. *)
Definition repeat_str (s : jsstring) (n : nat) : jsstring :=
  List.concat (List.repeat s n).

(* ------------------------------------------------------------------ *)
(** ** The Keccak sponge

    [createHash("sha3-256")] is the FIPS 202 instance of the Keccak sponge
    (rate 136 bytes, domain byte 0x06); Ethereum's keccak-256 is the same
    sponge with the original padding (domain byte 0x01).  Both are built
    here from one permutation. *)

Module Keccak.

Definition mask64 : Z := 0xFFFFFFFFFFFFFFFF.

(** Rotation of a 64-bit lane to the left. *)
Definition rotl64 (x n : Z) : Z :=
  Z.lor (Z.land (Z.shiftl x n) mask64) (Z.shiftr x (64 - n)).

Definition lane (st : list Z) (x y : nat) : Z :=
  nth ((x mod 5) + 5 * (y mod 5))%nat st 0.

Definition column (st : list Z) (x : nat) : Z :=
  Z.lxor (lane st x 0)
    (Z.lxor (lane st x 1)
      (Z.lxor (lane st x 2) (Z.lxor (lane st x 3) (lane st x 4)))).

Definition theta (st : list Z) : list Z :=
  let c := map (column st) (seq 0 5) in
  let cx x := nth (x mod 5)%nat c 0 in
  map (fun i => Z.lxor (nth i st 0)
                  (Z.lxor (cx (i + 4)%nat) (rotl64 (cx (i + 1)%nat) 1)))
      (seq 0 25).

(** Rotation offsets, at index [x + 5 * y]. *)
Definition rho_offsets : list Z :=
  [ 0;  1; 62; 28; 27;
   36; 44;  6; 55; 20;
    3; 10; 43; 25; 39;
   41; 45; 15; 21;  8;
   18;  2; 61; 56; 14].

(** rho and pi together: lane (x, y) moves to (y, 2x + 3y), rotated. *)
Definition rho_pi (st : list Z) : list Z :=
  map (fun i =>
         let X := (i mod 5)%nat in
         let Y := (i / 5)%nat in
         let x := ((X + 3 * Y) mod 5)%nat in
         let y := X in
         let src := (x + 5 * y)%nat in
         rotl64 (nth src st 0) (nth src rho_offsets 0))
      (seq 0 25).

Definition chi (st : list Z) : list Z :=
  map (fun i =>
         let x := (i mod 5)%nat in
         let y := (i / 5)%nat in
         Z.lxor (lane st x y)
                (Z.ldiff (lane st (x + 2) y) (lane st (x + 1) y)))
      (seq 0 25).

Definition iota (rc : Z) (st : list Z) : list Z :=
  match st with
  | [] => []
  | a :: rest => Z.lxor a rc :: rest
  end.

Definition round_constants : list Z :=
  [0x0000000000000001; 0x0000000000008082; 0x800000000000808A;
   0x8000000080008000; 0x000000000000808B; 0x0000000080000001;
   0x8000000080008081; 0x8000000000008009; 0x000000000000008A;
   0x0000000000000088; 0x0000000080008009; 0x000000008000000A;
   0x000000008000808B; 0x800000000000008B; 0x8000000000008089;
   0x8000000000008003; 0x8000000000008002; 0x8000000000000080;
   0x000000000000800A; 0x800000008000000A; 0x8000000080008081;
   0x8000000000008080; 0x0000000080000001; 0x8000000080008008].

Definition round (st : list Z) (rc : Z) : list Z :=
  iota rc (chi (rho_pi (theta st))).

Definition keccak_f (st : list Z) : list Z :=
  fold_left round round_constants st.

Definition rate : nat := 136.

(** Little-endian lane of eight bytes. *)
Fixpoint le_lane (bs : list Z) : Z :=
  match bs with
  | [] => 0
  | b :: rest => b + 256 * le_lane rest
  end.

Fixpoint lanes_of_bytes (n : nat) (bs : list Z) : list Z :=
  match n with
  | O => []
  | S n' => le_lane (firstn 8 bs) :: lanes_of_bytes n' (skipn 8 bs)
  end.

Definition xor_block (st : list Z) (block : list Z) : list Z :=
  let ls := lanes_of_bytes 17 block in
  map (fun i => Z.lxor (nth i st 0) (nth i ls 0)) (seq 0 25).

Fixpoint absorb (fuel : nat) (st : list Z) (msg : list Z) : list Z :=
  match fuel with
  | O => st
  | S fuel' =>
      match msg with
      | [] => st
      | _ => absorb fuel' (keccak_f (xor_block st (firstn rate msg)))
                    (skipn rate msg)
      end
  end.

(** Multi-rate padding with domain byte [d]: [d], zeros, and the top bit of
    the last byte of the block. *)
Definition pad (d : Z) (len : nat) : list Z :=
  let q := (rate - len mod rate)%nat in
  match q with
  | 1%nat => [Z.lor d 0x80]
  | _ => d :: repeat 0 (q - 2) ++ [0x80]
  end.

Definition bytes_of_lane (l : Z) : list Z :=
  map (fun k => Z.shiftr l (8 * Z.of_nat k) mod 256) (seq 0 8).

Definition squeeze32 (st : list Z) : list Z :=
  flat_map (fun i => bytes_of_lane (nth i st 0)) (seq 0 4).

Definition sponge256 (d : Z) (data : buffer) : list Z :=
  let msg := map Z_of_byte data ++ pad d (length data) in
  squeeze32 (absorb (length msg) (repeat 0 25) msg).

(** FIPS 202 SHA3-256. *)
Definition sha3_256 (data : buffer) : list Z := sponge256 0x06 data.

(** The original Keccak-256, the hash the EVM and viem's [keccak256] use. *)
Definition keccak_256 (data : buffer) : list Z := sponge256 0x01 data.

End Keccak.

(* ------------------------------------------------------------------ *)
(** ** Hex rendering, [digest("hex")] *)

Definition hex_digit (n : Z) : Z :=
  if n <? 10 then 48 + n else 87 + n.

Definition hex_of_byte (b : Z) : jsstring :=
  [hex_digit (b / 16); hex_digit (b mod 16)].

Definition hex_of_bytes (bs : list Z) : jsstring :=
  flat_map hex_of_byte bs.

(* ------------------------------------------------------------------ *)
(** ** Control flow: return, throw, [process.exit] *)

(** A thrown JavaScript error: its [code] property (system errors carry one)
    and its message. *)
Record js_error := mkError {
  err_code : option jsstring;
  err_message : jsstring
}.

(** How a call ends: with a value, with a thrown error, or by
    [process.exit(code)], which no [catch] intercepts. *)
Inductive outcome (A : Type) : Type :=
| Ret (a : A)
| Throw (e : js_error)
| Exit (code : Z).
Arguments Ret {A} a.
Arguments Throw {A} e.
Arguments Exit {A} code.

Definition bind {A B : Type} (m : outcome A) (k : A -> outcome B) : outcome B :=
  match m with
  | Ret a => k a
  | Throw e => Throw e
  | Exit c => Exit c
  end.

Notation "x <- m ;; k" := (bind m (fun x => k))
  (at level 61, m at next level, right associativity).

(** [try { body } catch (err) { handler }]. *)
Definition try_catch {A : Type} (body : outcome A)
    (handler : js_error -> outcome A) : outcome A :=
  match body with
  | Throw e => handler e
  | other => other
  end.

(** A [for ... of] loop whose body may throw or exit. *)
Fixpoint for_of {A S : Type} (xs : list A) (body : S -> A -> outcome S)
    (s : S) : outcome S :=
  match xs with
  | [] => Ret s
  | x :: rest => s' <- body s x ;; for_of rest body s'
  end.

Definition type_error (msg : string) : js_error := mkError None (str msg).

(** The exit status of a script run as [main().catch(err => process.exit(3))]:
    a run that ends without [process.exit] exits with 0. *)
Definition exit_status {A : Type} (m : outcome A) : Z :=
  match m with
  | Ret _ => 0
  | Throw _ => 3
  | Exit c => c
  end.


(* ------------------------------------------------------------------ *)
(** ** JavaScript values

    The values that [JSON.parse] produces and that the sources build, with
    [undefined] and [NaN] added.  A Number is a double: [VNum n] is an
    integer of magnitude below 2^53, which is a double as it is; every
    other double is a [VFloat], a finite one written [m * 2^e] with [m]
    odd.  The two zeros are one value here: no operation of the sources
    tells them apart.  The properties of an object are listed in the order
    the object enumerates them. *)

Inductive float64 : Type :=
| Dyadic (m e : Z)
| Infinite (negative : bool).

#[warnings="-register-all"]
Inductive jsval : Type :=
| VUndef
| VNull
| VBool (b : bool)
| VNum (n : Z)
| VNaN
| VStr (s : jsstring)
| VArr (items : list jsval)
| VObj (props : list (jsstring * jsval))
| VFloat (x : float64).

(** ToBoolean. *)
Definition truthy (v : jsval) : bool :=
  match v with
  | VUndef | VNull | VNaN => false
  | VBool b => b
  | VNum n => negb (n =? 0)
  | VStr s => match s with [] => false | _ => true end
  | VArr _ | VObj _ | VFloat _ => true
  end.

(** [a || b]. *)
Definition js_or (a b : jsval) : jsval := if truthy a then a else b.

Fixpoint lookup {A : Type} (k : jsstring) (kvs : list (jsstring * A)) : option A :=
  match kvs with
  | [] => None
  | (k', v) :: rest => if jsstring_eqb k k' then Some v else lookup k rest
  end.

(** [obj[key]], for the property names the sources use ("SOUL.md",
    "identityFiles", "agentId", ...): none of them is an index, "length" or
    an inherited property, so only a plain object can answer with something
    other than [undefined]; reading a property of [null] or [undefined] is a
    TypeError. *)
Definition get_prop (obj : jsval) (key : jsstring) : outcome jsval :=
  match obj with
  | VUndef | VNull => Throw (type_error "Cannot read properties of null or undefined")
  | VObj props => Ret (match lookup key props with Some v => v | None => VUndef end)
  | _ => Ret VUndef
  end.

(** [obj?.[key]]. *)
Definition get_prop_opt (obj : jsval) (key : jsstring) : jsval :=
  match obj with
  | VObj props => match lookup key props with Some v => v | None => VUndef end
  | _ => VUndef
  end.

(** [string === value]. *)
Definition str_strict_eq (s : jsstring) (v : jsval) : bool :=
  match v with
  | VStr t => jsstring_eqb s t
  | _ => false
  end.

(** [obj[key] = value] on the properties of an object. *)
Fixpoint set_prop {A : Type} (k : jsstring) (v : A) (kvs : list (jsstring * A))
    : list (jsstring * A) :=
  match kvs with
  | [] => [(k, v)]
  | (k', v') :: rest =>
      if jsstring_eqb k k' then (k, v) :: rest else (k', v') :: set_prop k v rest
  end.


(* ------------------------------------------------------------------ *)
(** ** UTF-8, [Buffer.from(string)] and [buffer.toString("utf-8")] *)

Definition is_high_surrogate (c : Z) : bool := (0xD800 <=? c) && (c <=? 0xDBFF).
Definition is_low_surrogate (c : Z) : bool := (0xDC00 <=? c) && (c <=? 0xDFFF).

Definition replacement_bytes : buffer := [xef; xbf; xbd].

(** The bytes of one code point. *)
Definition utf8_bytes (cp : Z) : buffer :=
  if cp <? 0x80 then [byte_of_Z cp]
  else if cp <? 0x800 then
    [byte_of_Z (0xC0 + cp / 64); byte_of_Z (0x80 + cp mod 64)]
  else if cp <? 0x10000 then
    [byte_of_Z (0xE0 + cp / 4096); byte_of_Z (0x80 + (cp / 64) mod 64);
     byte_of_Z (0x80 + cp mod 64)]
  else
    [byte_of_Z (0xF0 + cp / 262144); byte_of_Z (0x80 + (cp / 4096) mod 64);
     byte_of_Z (0x80 + (cp / 64) mod 64); byte_of_Z (0x80 + cp mod 64)].

Definition pair_code_point (hi lo : Z) : Z :=
  0x10000 + (hi - 0xD800) * 1024 + (lo - 0xDC00).

(** [Buffer.from(s)]: a surrogate pair is one code point, a lone surrogate
    becomes U+FFFD. *)
Fixpoint utf8_encode (s : jsstring) : buffer :=
  match s with
  | [] => []
  | c :: rest =>
      if is_high_surrogate c then
        match rest with
        | d :: rest' =>
            if is_low_surrogate d
            then utf8_bytes (pair_code_point c d) ++ utf8_encode rest'
            else replacement_bytes ++ utf8_encode rest
        | [] => replacement_bytes
        end
      else if is_low_surrogate c then replacement_bytes ++ utf8_encode rest
      else utf8_bytes c ++ utf8_encode rest
  end.

(** The code units of one code point. *)
Definition code_units (cp : Z) : jsstring :=
  if cp <? 0x10000 then [cp]
  else [0xD800 + (cp - 0x10000) / 1024; 0xDC00 + (cp - 0x10000) mod 1024].

Definition in_range (lo hi b : Z) : bool := (lo <=? b) && (b <=? hi).

(** [buffer.toString("utf-8")]: every maximal ill-formed prefix decodes to
    one U+FFFD and decoding resumes at the offending byte. *)
Fixpoint utf8_decode (bs : buffer) : jsstring :=
  match bs with
  | [] => []
  | b1 :: r1 =>
      let z1 := Z_of_byte b1 in
      if z1 <? 0x80 then z1 :: utf8_decode r1
      else if in_range 0xC2 0xDF z1 then
        match r1 with
        | [] => [0xFFFD]
        | b2 :: r2 =>
            let z2 := Z_of_byte b2 in
            if in_range 0x80 0xBF z2
            then ((z1 - 0xC0) * 64 + (z2 - 0x80)) :: utf8_decode r2
            else 0xFFFD :: utf8_decode r1
        end
      else if in_range 0xE0 0xEF z1 then
        let lo := if z1 =? 0xE0 then 0xA0 else 0x80 in
        let hi := if z1 =? 0xED then 0x9F else 0xBF in
        match r1 with
        | [] => [0xFFFD]
        | b2 :: r2 =>
            let z2 := Z_of_byte b2 in
            if in_range lo hi z2 then
              match r2 with
              | [] => [0xFFFD]
              | b3 :: r3 =>
                  let z3 := Z_of_byte b3 in
                  if in_range 0x80 0xBF z3
                  then ((z1 - 0xE0) * 4096 + (z2 - 0x80) * 64 + (z3 - 0x80))
                         :: utf8_decode r3
                  else 0xFFFD :: utf8_decode r2
              end
            else 0xFFFD :: utf8_decode r1
        end
      else if in_range 0xF0 0xF4 z1 then
        let lo := if z1 =? 0xF0 then 0x90 else 0x80 in
        let hi := if z1 =? 0xF4 then 0x8F else 0xBF in
        match r1 with
        | [] => [0xFFFD]
        | b2 :: r2 =>
            let z2 := Z_of_byte b2 in
            if in_range lo hi z2 then
              match r2 with
              | [] => [0xFFFD]
              | b3 :: r3 =>
                  let z3 := Z_of_byte b3 in
                  if in_range 0x80 0xBF z3 then
                    match r3 with
                    | [] => [0xFFFD]
                    | b4 :: r4 =>
                        let z4 := Z_of_byte b4 in
                        if in_range 0x80 0xBF z4
                        then code_units ((z1 - 0xF0) * 262144 + (z2 - 0x80) * 4096
                                         + (z3 - 0x80) * 64 + (z4 - 0x80))
                               ++ utf8_decode r4
                        else 0xFFFD :: utf8_decode r3
                    end
                  else 0xFFFD :: utf8_decode r2
              end
            else 0xFFFD :: utf8_decode r1
        end
      else 0xFFFD :: utf8_decode r1
  end.

(* ------------------------------------------------------------------ *)
(** ** String helpers *)

Fixpoint startsWith (s prefix : jsstring) {struct prefix} : bool :=
  match prefix with
  | [] => true
  | p :: prefix' =>
      match s with
      | c :: s' => (c =? p) && startsWith s' prefix'
      | [] => false
      end
  end.

(** [s.replace(pattern, replacement)] with a string pattern: the first
    occurrence only. *)
Fixpoint replace_first (s pattern replacement : jsstring) : jsstring :=
  if startsWith s pattern then replacement ++ skipn (length pattern) s
  else match s with
       | [] => []
       | c :: s' => c :: replace_first s' pattern replacement
       end.

(** [parts.join(sep)]. *)
Fixpoint join (sep : jsstring) (parts : list jsstring) : jsstring :=
  match parts with
  | [] => []
  | [p] => p
  | p :: rest => p ++ sep ++ join sep rest
  end.

Fixpoint drop_until (stop : Z) (s : jsstring) : jsstring :=
  match s with
  | [] => []
  | c :: s' => if c =? stop then s else drop_until stop s'
  end.

(** Decimal digits of a non-negative integer, most significant first. *)
Fixpoint digits_acc (fuel : nat) (n : Z) (acc : jsstring) : jsstring :=
  match fuel with
  | O => acc
  | S fuel' =>
      let acc' := (48 + n mod 10) :: acc in
      if n <? 10 then acc' else digits_acc fuel' (n / 10) acc'
  end.

Definition digits (n : Z) : jsstring :=
  digits_acc (S (Z.to_nat (Z.log2 n))) n [].

(** Number to string, for integers below 2^53. *)
Definition decimal (n : Z) : jsstring :=
  if n <? 0 then 45 :: digits (- n) else digits n.

(** *** Doubles

    A decimal numeral denotes the double nearest to it, ties to even. *)

(** [p / q] rounded to an integer, ties to even. *)
Definition round_half_even (p q : Z) : Z :=
  let m := p / q in
  let r := p mod q in
  if (q <? 2 * r) || ((2 * r =? q) && Z.odd m) then m + 1 else m.

(** [floor (log2 (p / q))] for positive [p] and [q]. *)
Definition log2_ratio (p q : Z) : Z :=
  let d := Z.log2 p - Z.log2 q in
  if (if 0 <=? d then q * 2 ^ d <=? p else q <=? p * 2 ^ (- d)) then d else d - 1.

(** The double nearest to the positive rational [p / q], as mantissa and
    exponent: 53 bits, fewer below 2^-1022; [None] from 2^1024 on, where it
    is an infinity. *)
Definition round_to_double (p q : Z) : option (Z * Z) :=
  let e := Z.max (log2_ratio p q - 52) (- 1074) in
  let m := if 0 <=? e then round_half_even p (q * 2 ^ e)
           else round_half_even (p * 2 ^ (- e)) q in
  if (971 <? e) || ((e =? 971) && (m =? 2 ^ 53)) then None else Some (m, e).

Fixpoint odd_part (fuel : nat) (m e : Z) : Z * Z :=
  match fuel with
  | O => (m, e)
  | S fuel' => if Z.even m then odd_part fuel' (m / 2) (e + 1) else (m, e)
  end.

Definition signed (negative : bool) (n : Z) : Z := if negative then - n else n.

(** The Number nearest to [p / q], for [p >= 0] and [q > 0], with its
    sign.  An integer below 2^53 needs no rounding. *)
Definition number_of (negative : bool) (p q : Z) : jsval :=
  if (p mod q =? 0) && (p / q <? 2 ^ 53) then VNum (signed negative (p / q))
  else
    match round_to_double p q with
    | None => VFloat (Infinite negative)
    | Some (m, e) =>
        if m =? 0 then VNum 0
        else
          let (m', e') := odd_part 54 m e in
          if (0 <=? e') && (m' * 2 ^ e' <? 2 ^ 53)
          then VNum (signed negative (m' * 2 ^ e'))
          else VFloat (Dyadic (signed negative m') e')
    end.

(** The Number a decimal numeral denotes, [mantissa * 10^exponent]; far
    above the largest double it is an infinity, far below the smallest it
    is zero. *)
Definition number_of_decimal (negative : bool) (mantissa exponent : Z) : jsval :=
  if mantissa =? 0 then VNum 0
  else if 0 <=? exponent then
    if 1100 <? Z.log2 mantissa + 3 * exponent then VFloat (Infinite negative)
    else number_of negative (mantissa * 10 ^ exponent) 1
  else
    if Z.log2 mantissa + 1 + 3 * exponent <? - 1100 then VNum 0
    else number_of negative mantissa (10 ^ (- exponent)).

(** *** Number to string

    The digits are the shortest that denote the double; they are written
    plainly when the decimal point falls within 21 places before them or 6
    after, with an exponent otherwise. *)

(** Whether the positive double [m * 2^e] is the one nearest to
    [s * 10^x]. *)
Definition denotes (s x m e : Z) : bool :=
  match (if 0 <=? x then round_to_double (s * 10 ^ x) 1
         else round_to_double s (10 ^ (- x))) with
  | Some (m', e') =>
      if e <=? e' then m' * 2 ^ (e' - e) =? m else m' =? m * 2 ^ (e - e')
  | None => false
  end.

(** [p / q < 10^n]. *)
Definition below_power (p q n : Z) : bool :=
  if 0 <=? n then p <? q * 10 ^ n else p * 10 ^ (- n) <? q.

(** The [n] with [10^(n-1) <= p / q < 10^n], from an estimate above it. *)
Fixpoint lower_magnitude (fuel : nat) (p q n : Z) : Z :=
  match fuel with
  | O => n
  | S fuel' => if below_power p q (n - 1) then lower_magnitude fuel' p q (n - 1) else n
  end.

Definition magnitude (p q : Z) : Z :=
  lower_magnitude 4 p q ((Z.log2 p - Z.log2 q) * 30103 / 100000 + 2).

(** The least [k], from the given one on, and an integer [s] such that
    [s * 10^(n-k)] denotes the double [m * 2^e = p / q]; of two such [s] the
    one nearest to it. *)
Fixpoint shortest (fuel : nat) (k : Z) (p q n m e : Z) : Z * Z :=
  let x := n - k in
  let (sp, sq) := if 0 <=? x then (p, q * 10 ^ x) else (p * 10 ^ (- x), q) in
  let lo := sp / sq in
  let hi := lo + 1 in
  match fuel with
  | O => (lo, k)
  | S fuel' =>
      let lo_ok := denotes lo x m e in
      let hi_ok := denotes hi x m e in
      if lo_ok && hi_ok then
        let r := sp mod sq in
        if (2 * r <? sq) || ((2 * r =? sq) && Z.even lo) then (lo, k) else (hi, k)
      else if lo_ok then (lo, k)
      else if hi_ok then (hi, k)
      else shortest fuel' (k + 1) p q n m e
  end.

Definition zeros (n : Z) : jsstring := repeat 48 (Z.to_nat n).

(** Number::toString of the positive double [m * 2^e]. *)
Definition positive_to_string (m e : Z) : jsstring :=
  let (p, q) := if 0 <=? e then (m * 2 ^ e, 1) else (m, 2 ^ (- e)) in
  let n0 := magnitude p q in
  let (s0, k0) := shortest 17 1 p q n0 m e in
  let (s, n) := if s0 =? 10 ^ k0 then (1, n0 + 1) else (s0, n0) in
  let ds := digits s in
  let k := Z.of_nat (length ds) in
  if (-5 <=? n) && (n <=? 21) then
    if k <=? n then ds ++ zeros (n - k)
    else if 0 <? n then firstn (Z.to_nat n) ds ++ [46] ++ skipn (Z.to_nat n) ds
    else str "0." ++ zeros (- n) ++ ds
  else
    let x := n - 1 in
    let exponent := (if x <? 0 then [101; 45] else [101; 43]) ++ digits (Z.abs x) in
    match ds with
    | [d] => d :: exponent
    | d :: rest => d :: 46 :: rest ++ exponent
    | [] => exponent
    end.

Definition float_to_string (x : float64) : jsstring :=
  match x with
  | Dyadic m e =>
      if m <? 0 then 45 :: positive_to_string (- m) e else positive_to_string m e
  | Infinite false => str "Infinity"
  | Infinite true => str "-Infinity"
  end.

(** ToString, as a template literal applies it.  An array is its elements
    joined by commas, [null] and [undefined] elements being empty. *)
Fixpoint to_string (v : jsval) : jsstring :=
  match v with
  | VUndef => str "undefined"
  | VNull => str "null"
  | VBool true => str "true"
  | VBool false => str "false"
  | VNum n => decimal n
  | VNaN => str "NaN"
  | VFloat x => float_to_string x
  | VStr s => s
  | VArr items =>
      join [44] (map (fun i => match i with
                               | VUndef | VNull => []
                               | _ => to_string i
                               end) items)
  | VObj _ => str "[object Object]"
  end.


(** [parseInt(text)]: white space, a sign, an optional "0x", then the
    longest run of digits of the radix, as the nearest double; [NaN] when
    there is none. *)
Definition is_js_space (c : Z) : bool :=
  in_range 9 13 c || (c =? 32) || (c =? 160) || (c =? 0x1680)
  || in_range 0x2000 0x200A c || (c =? 0x2028) || (c =? 0x2029)
  || (c =? 0x202F) || (c =? 0x205F) || (c =? 0x3000) || (c =? 0xFEFF).

Fixpoint trim_start (s : jsstring) : jsstring :=
  match s with
  | [] => []
  | c :: rest => if is_js_space c then trim_start rest else s
  end.

Definition digit_of (radix c : Z) : option Z :=
  let v := if in_range 48 57 c then c - 48
           else if in_range 97 122 c then c - 87
           else if in_range 65 90 c then c - 55
           else radix in
  if v <? radix then Some v else None.

Fixpoint radix_digits (radix : Z) (s : jsstring) (acc : option Z) : option Z :=
  match s with
  | [] => acc
  | c :: rest =>
      match digit_of radix c with
      | Some d =>
          radix_digits radix rest
            (Some (match acc with Some a => a * radix + d | None => d end))
      | None => acc
      end
  end.

Definition parseInt_unsigned (s : jsstring) : option Z :=
  match s with
  | 48 :: x :: rest =>
      if (x =? 120) || (x =? 88) then radix_digits 16 rest None
      else radix_digits 10 s None
  | _ => radix_digits 10 s None
  end.

Definition parseInt_text (s : jsstring) : jsval :=
  let t := trim_start s in
  let (negative, digits) :=
    match t with
    | 45 :: rest => (true, rest)
    | 43 :: rest => (false, rest)
    | _ => (false, t)
    end in
  match parseInt_unsigned digits with
  | Some n => number_of negative n 1
  | None => VNaN
  end.

(** The argument is converted to a string first. *)
Definition parseInt (text : jsval) : jsval :=
  match text with
  | VStr s => parseInt_text s
  | v => parseInt_text (to_string v)
  end.

(* ------------------------------------------------------------------ *)
(** ** Base64, [buffer.toString("base64")] and [Buffer.from(s, "base64")] *)

Definition b64_char (v : Z) : Z :=
  if v <? 26 then 65 + v
  else if v <? 52 then 97 + (v - 26)
  else if v <? 62 then 48 + (v - 52)
  else if v =? 62 then 43
  else 47.

(** The value of a character of the alphabet; the decoder also takes the
    URL-safe "-" and "_". *)
Definition b64_value (c : Z) : option Z :=
  if in_range 65 90 c then Some (c - 65)
  else if in_range 97 122 c then Some (c - 97 + 26)
  else if in_range 48 57 c then Some (c - 48 + 52)
  else if (c =? 43) || (c =? 45) then Some 62
  else if (c =? 47) || (c =? 95) then Some 63
  else None.

Fixpoint b64_encode_groups (bs : buffer) : jsstring :=
  match bs with
  | [] => []
  | [x] =>
      let x := Z_of_byte x in
      [b64_char (x / 4); b64_char ((x mod 4) * 16); 61; 61]
  | [x; y] =>
      let x := Z_of_byte x in
      let y := Z_of_byte y in
      [b64_char (x / 4); b64_char ((x mod 4) * 16 + y / 16);
       b64_char ((y mod 16) * 4); 61]
  | x :: y :: z :: rest =>
      let x := Z_of_byte x in
      let y := Z_of_byte y in
      let z := Z_of_byte z in
      b64_char (x / 4) :: b64_char ((x mod 4) * 16 + y / 16)
        :: b64_char ((y mod 16) * 4 + z / 64) :: b64_char (z mod 64)
        :: b64_encode_groups rest
  end.

Definition base64_encode (bs : buffer) : jsstring := b64_encode_groups bs.

(** The decoder is lenient: characters outside the alphabet are skipped and
    "=" ends the input. *)
Fixpoint b64_sextets (s : jsstring) : list Z :=
  match s with
  | [] => []
  | c :: s' =>
      match b64_value c with
      | Some v => v :: b64_sextets s'
      | None => if c =? 61 then [] else b64_sextets s'
      end
  end.

Fixpoint b64_bytes (vs : list Z) : buffer :=
  match vs with
  | a :: b :: c :: d :: rest =>
      byte_of_Z (a * 4 + b / 16) :: byte_of_Z ((b mod 16) * 16 + c / 4)
        :: byte_of_Z ((c mod 4) * 64 + d) :: b64_bytes rest
  | [a; b; c] =>
      [byte_of_Z (a * 4 + b / 16); byte_of_Z ((b mod 16) * 16 + c / 4)]
  | [a; b] => [byte_of_Z (a * 4 + b / 16)]
  | _ => []
  end.

Definition base64_decode (s : jsstring) : buffer := b64_bytes (b64_sextets s).

(* ------------------------------------------------------------------ *)
(** ** [JSON.stringify] *)

Definition hex4 (c : Z) : jsstring :=
  [hex_digit (c / 4096); hex_digit ((c / 256) mod 16);
   hex_digit ((c / 16) mod 16); hex_digit (c mod 16)].

Definition unicode_escape (c : Z) : jsstring := [92; 117] ++ hex4 c.

(** The escape of one code unit that is not part of a surrogate pair. *)
Definition quote_unit (c : Z) : jsstring :=
  if c =? 8 then [92; 98]
  else if c =? 9 then [92; 116]
  else if c =? 10 then [92; 110]
  else if c =? 12 then [92; 102]
  else if c =? 13 then [92; 114]
  else if c =? 34 then [92; 34]
  else if c =? 92 then [92; 92]
  else if c <? 32 then unicode_escape c
  else if is_high_surrogate c || is_low_surrogate c then unicode_escape c
  else [c].

(** QuoteJSONString without the surrounding quotes: a surrogate pair is
    copied, a lone surrogate is escaped. *)
Fixpoint quote_body (s : jsstring) : jsstring :=
  match s with
  | [] => []
  | c :: rest =>
      if is_high_surrogate c then
        match rest with
        | d :: rest' =>
            if is_low_surrogate d then c :: d :: quote_body rest'
            else unicode_escape c ++ quote_body rest
        | [] => unicode_escape c
        end
      else quote_unit c ++ quote_body rest
  end.

Definition quote (s : jsstring) : jsstring := [34] ++ quote_body s ++ [34].

(** [JSON.stringify(v)]; [None] is the [undefined] it returns for
    [undefined].  A property whose value is [undefined] is left out, an
    [undefined] array element is written [null], and so are [NaN] and the
    infinities. *)
Fixpoint stringify (v : jsval) : option jsstring :=
  match v with
  | VUndef => None
  | VNull => Some (str "null")
  | VNaN | VFloat (Infinite _) => Some (str "null")
  | VBool true => Some (str "true")
  | VBool false => Some (str "false")
  | VNum n => Some (decimal n)
  | VFloat x => Some (float_to_string x)
  | VStr s => Some (quote s)
  | VArr items =>
      Some ([91] ++
            join [44] (map (fun i => match stringify i with
                                     | Some t => t
                                     | None => str "null"
                                     end) items)
            ++ [93])
  | VObj props =>
      Some ([123] ++
            join [44]
              (flat_map (fun kv => match stringify (snd kv) with
                                   | Some t => [quote (fst kv) ++ [58] ++ t]
                                   | None => []
                                   end) props)
            ++ [125])
  end.

(* ------------------------------------------------------------------ *)
(** ** [JSON.parse]

    A recursive-descent parser of the JSON grammar.  A property is set as
    an assignment sets it: a name that occurs again keeps its place and
    takes the later value.  The properties are listed in the order of the
    text, which is the order the object enumerates them in unless a name is
    an array index ("0", "1", ...): an object moves those to the front. *)

Definition syntax_error : js_error := mkError None (str "Unexpected token in JSON").

Definition is_ws (c : Z) : bool :=
  (c =? 32) || (c =? 9) || (c =? 10) || (c =? 13).

Fixpoint skip_ws (s : jsstring) : jsstring :=
  match s with
  | [] => []
  | c :: r => if is_ws c then skip_ws r else s
  end.

Definition is_digit (c : Z) : bool := in_range 48 57 c.

Definition hex_value (c : Z) : option Z :=
  if in_range 48 57 c then Some (c - 48)
  else if in_range 97 102 c then Some (c - 87)
  else if in_range 65 70 c then Some (c - 55)
  else None.

(** The character a one-letter escape stands for. *)
Definition unescape (e : Z) : option Z :=
  if e =? 34 then Some 34
  else if e =? 92 then Some 92
  else if e =? 47 then Some 47
  else if e =? 98 then Some 8
  else if e =? 102 then Some 12
  else if e =? 110 then Some 10
  else if e =? 114 then Some 13
  else if e =? 116 then Some 9
  else None.

Definition prepend (c : Z) (r : option (jsstring * jsstring))
    : option (jsstring * jsstring) :=
  match r with
  | Some (cs, rest) => Some (c :: cs, rest)
  | None => None
  end.

(** The characters of a string literal after its opening quote, and what
    follows the closing quote. *)
Fixpoint parse_chars (s : jsstring) : option (jsstring * jsstring) :=
  match s with
  | [] => None
  | c :: r =>
      if c =? 34 then Some ([], r)
      else if c =? 92 then
        match r with
        | [] => None
        | e :: r' =>
            if e =? 117 then
              match r' with
              | h1 :: h2 :: h3 :: h4 :: r'' =>
                  match hex_value h1, hex_value h2, hex_value h3, hex_value h4 with
                  | Some a, Some b, Some c', Some d =>
                      prepend (a * 4096 + b * 256 + c' * 16 + d) (parse_chars r'')
                  | _, _, _, _ => None
                  end
              | _ => None
              end
            else
              match unescape e with
              | Some u => prepend u (parse_chars r')
              | None => None
              end
        end
      else if c <? 32 then None
      else prepend c (parse_chars r)
  end.

Fixpoint parse_digits (s : jsstring) (acc : Z) : Z * jsstring :=
  match s with
  | [] => (acc, [])
  | c :: r => if is_digit c then parse_digits r (acc * 10 + (c - 48)) else (acc, s)
  end.

(** The digits of a fraction: the integer they extend the digits before
    them to, and their number. *)
Fixpoint parse_fraction (s : jsstring) (acc count : Z) : Z * Z * jsstring :=
  match s with
  | [] => (acc, count, [])
  | c :: r =>
      if is_digit c then parse_fraction r (acc * 10 + (c - 48)) (count + 1)
      else (acc, count, s)
  end.

Definition starts_with_digit (s : jsstring) : bool :=
  match s with
  | c :: _ => is_digit c
  | [] => false
  end.

(** After the digits: an exponent, [e] or [E], a sign and digits; the
    numeral is [mantissa * 10^(-count)] before it. *)
Definition finish_exponent (negative : bool) (mantissa count : Z) (r : jsstring)
    : option (jsval * jsstring) :=
  match r with
  | c :: r1 =>
      if (c =? 101) || (c =? 69) then
        let (minus, r2) :=
          match r1 with
          | 43 :: t => (false, t)
          | 45 :: t => (true, t)
          | _ => (false, r1)
          end in
        if starts_with_digit r2 then
          let (x, r3) := parse_digits r2 0 in
          Some (number_of_decimal negative mantissa (signed minus x - count), r3)
        else None
      else Some (number_of_decimal negative mantissa (- count), r)
  | [] => Some (number_of_decimal negative mantissa (- count), [])
  end.

(** After the integer part: a fraction, a point and digits, then an
    exponent. *)
Definition finish_number (negative : bool) (n : Z) (r : jsstring)
    : option (jsval * jsstring) :=
  match r with
  | c :: r1 =>
      if c =? 46 then
        if starts_with_digit r1 then
          let '(mantissa, count, r2) := parse_fraction r1 n 0 in
          finish_exponent negative mantissa count r2
        else None
      else finish_exponent negative n 0 r
  | [] => finish_exponent negative n 0 r
  end.

Definition parse_unsigned (negative : bool) (s : jsstring)
    : option (jsval * jsstring) :=
  match s with
  | [] => None
  | c :: r =>
      if c =? 48 then finish_number negative 0 r
      else if in_range 49 57 c then
        let (n, r') := parse_digits r (c - 48) in finish_number negative n r'
      else None
  end.

Definition parse_number (s : jsstring) : option (jsval * jsstring) :=
  match s with
  | [] => None
  | c :: r => if c =? 45 then parse_unsigned true r else parse_unsigned false s
  end.

Fixpoint parse_value (fuel : nat) (s : jsstring) : option (jsval * jsstring) :=
  match fuel with
  | O => None
  | S fuel' =>
      match skip_ws s with
      | [] => None
      | c :: r =>
          if c =? 123 then
            match skip_ws r with
            | [] => None
            | c' :: r' =>
                if c' =? 125 then Some (VObj [], r')
                else parse_members fuel' (c' :: r') []
            end
          else if c =? 91 then
            match skip_ws r with
            | [] => None
            | c' :: r' =>
                if c' =? 93 then Some (VArr [], r')
                else parse_elements fuel' (c' :: r') []
            end
          else if c =? 34 then
            match parse_chars r with
            | Some (cs, r') => Some (VStr cs, r')
            | None => None
            end
          else if startsWith (c :: r) (str "true") then
            Some (VBool true, skipn 4 (c :: r))
          else if startsWith (c :: r) (str "false") then
            Some (VBool false, skipn 5 (c :: r))
          else if startsWith (c :: r) (str "null") then
            Some (VNull, skipn 4 (c :: r))
          else parse_number (c :: r)
      end
  end

with parse_elements (fuel : nat) (s : jsstring) (acc : list jsval)
    : option (jsval * jsstring) :=
  match fuel with
  | O => None
  | S fuel' =>
      match parse_value fuel' s with
      | None => None
      | Some (v, r) =>
          match skip_ws r with
          | [] => None
          | c :: r' =>
              if c =? 44 then parse_elements fuel' r' (acc ++ [v])
              else if c =? 93 then Some (VArr (acc ++ [v]), r')
              else None
          end
      end
  end

with parse_members (fuel : nat) (s : jsstring) (acc : list (jsstring * jsval))
    : option (jsval * jsstring) :=
  match fuel with
  | O => None
  | S fuel' =>
      match skip_ws s with
      | [] => None
      | q :: r =>
          if q =? 34 then
            match parse_chars r with
            | None => None
            | Some (k, r1) =>
                match skip_ws r1 with
                | [] => None
                | colon :: r2 =>
                    if colon =? 58 then
                      match parse_value fuel' r2 with
                      | None => None
                      | Some (v, r3) =>
                          match skip_ws r3 with
                          | [] => None
                          | c :: r4 =>
                              if c =? 44 then parse_members fuel' r4 (set_prop k v acc)
                              else if c =? 125 then Some (VObj (set_prop k v acc), r4)
                              else None
                          end
                      end
                    else None
                end
            end
          else None
      end
  end.

(** [JSON.parse(text)]: one value, then only white space. *)
Definition JSON_parse (text : jsstring) : outcome jsval :=
  match parse_value (S (length text)) text with
  | Some (v, rest) =>
      match skip_ws rest with
      | [] => Ret v
      | _ :: _ => Throw syntax_error
      end
  | None => Throw syntax_error
  end.

(* ------------------------------------------------------------------ *)
(** ** The environment

    What the subsystem reads from outside: the file system, the clock, the
    chain and the network.  An operation of the environment either answers
    or fails with an error. *)

Inductive result (A : Type) : Type :=
| Ok (a : A)
| Err (e : js_error).
Arguments Ok {A} a.
Arguments Err {A} e.

Definition lift {A : Type} (r : result A) : outcome A :=
  match r with
  | Ok a => Ret a
  | Err e => Throw e
  end.

(** The answer of [fetch(url, { signal })]: a rejection (network failure,
    unsupported scheme, abort after the timeout) or a response with its
    [ok] flag and what [res.json()] gives. *)
Inductive fetch_answer : Type :=
| FetchRejects (e : js_error)
| FetchResponse (ok : bool) (json : result jsval).

Record world := mkWorld {
  path_join : jsstring -> jsstring -> jsstring;
  readFile : jsstring -> result buffer;
  writeFile : jsstring -> result unit;
  verify_time : jsstring;
  hash_date : jsstring;
  generated_at : jsstring;
  output_time : jsstring;
  ownerOf : Z -> result jsstring;
  tokenURI : Z -> result jsstring;
  getAgentWallet : Z -> result jsstring;
  fetch : jsstring -> fetch_answer;
  decodeURIComponent : jsstring -> result jsstring;
  bigint_of_string : jsstring -> result Z
}.

(** [readFile(path, "utf-8")]. *)
Definition read_text (w : world) (p : jsval) : outcome jsstring :=
  match p with
  | VStr s => content <- lift (readFile w s) ;; Ret (utf8_decode content)
  | _ => Throw (type_error "The path argument must be of type string")
  end.


(** [BigInt(agentId)]. *)
Definition BigInt (w : world) (v : jsval) : outcome Z :=
  match v with
  | VNum n => Ret n
  | VBool b => Ret (if b then 1 else 0)
  | VStr s => lift (bigint_of_string w s)
  | VArr _ | VObj _ => lift (bigint_of_string w (to_string v))
  | VFloat (Dyadic m e) =>
      if 0 <=? e then Ret (m * 2 ^ e)
      else Throw (type_error "The number cannot be converted to a BigInt because it is not an integer")
  | VUndef | VNull | VNaN | VFloat (Infinite _) =>
      Throw (type_error "Cannot convert to a BigInt")
  end.


(* ------------------------------------------------------------------ *)
(** ** Chain client, [lib/chain-client.mjs] *)

Module ChainClient.

Definition IDENTITY_REGISTRY : jsstring :=
  str "0x8004A169FB4a3325136EB29fA0ceB6D2e539a432".

(** [.] of a regular expression: any code unit but a line terminator. *)
Definition is_line_terminator (c : Z) : bool :=
  (c =? 10) || (c =? 13) || (c =? 0x2028) || (c =? 0x2029).

(** [(.+)$]: the rest of the input, non-empty and on one line. *)
Definition rest_of_line (s : jsstring) : option jsstring :=
  match s with
  | [] => None
  | _ :: _ => if forallb (fun c => negb (is_line_terminator c)) s then Some s else None
  end.

(** [uri.match(/^data:[^;]*;base64,(.+)$/)], the captured group. *)
Definition match_base64 (uri : jsstring) : option jsstring :=
  if startsWith uri (str "data:") then
    let after := drop_until 59 (skipn 5 uri) in
    if startsWith after (str ";base64,") then rest_of_line (skipn 8 after)
    else None
  else None.

(** [uri.match(/^data:[^,]*,(.+)$/)], the captured group. *)
Definition match_plain (uri : jsstring) : option jsstring :=
  if startsWith uri (str "data:") then
    let after := drop_until 44 (skipn 5 uri) in
    match after with
    | [] => None
    | _ :: payload => rest_of_line payload
    end
  else None.

(** The URL that is fetched: an [ipfs://] URI goes through the gateway. *)
Definition gateway_url (uri : jsstring) : jsstring :=
  if startsWith uri (str "ipfs://")
  then str "https://ipfs.io/ipfs/" ++ replace_first uri (str "ipfs://") []
  else uri.

Definition fetchRegistrationFile (w : world) (uri : jsstring) : outcome jsval :=
  if negb (truthy (VStr uri)) then Ret VNull
  else
    try_catch
      (if startsWith uri (str "data:") then
         match match_base64 uri with
         | Some payload => JSON_parse (utf8_decode (base64_decode payload))
         | None =>
             match match_plain uri with
             | Some payload =>
                 text <- lift (decodeURIComponent w payload) ;;
                 JSON_parse text
             | None => Ret VNull
             end
         end
       else
         let url := gateway_url uri in
         match fetch w url with
         | FetchRejects e => Throw e
         | FetchResponse ok body => if negb ok then Ret VNull else lift body
         end)
      (fun _ => Ret VNull).

Record chain_agent := mkAgent {
  ca_agentId : jsval;
  ca_owner : jsstring;
  ca_tokenURI : jsstring;
  ca_agentWallet : option jsstring;
  ca_registration : jsval
}.

(** [lookupAgent(agentId)].  The two reads of [Promise.all] are independent;
    when both fail the error of the first is the one kept here. *)
Definition lookupAgent (w : world) (agentId : jsval) : outcome chain_agent :=
  id <- BigInt w agentId ;;
  owner <- lift (ownerOf w id) ;;
  uri <- lift (tokenURI w id) ;;
  let agentWallet :=
    match getAgentWallet w id with
    | Ok a => Some a
    | Err _ => None
    end in
  registration <- fetchRegistrationFile w uri ;;
  Ret (mkAgent agentId owner uri agentWallet registration).

(** The call an unsigned transaction encodes; [encodeFunctionData] itself
    is the ABI library's. *)
Inductive contract_call : Type :=
| CallRegister (agentURI : jsstring)
| CallSetAgentURI (agentId : Z) (newURI : jsstring).

Record unsigned_tx := mkTx {
  tx_to : jsstring;
  tx_data : contract_call;
  tx_description : jsstring
}.

Definition buildRegisterTx (agentURI : jsstring) : unsigned_tx :=
  mkTx IDENTITY_REGISTRY (CallRegister agentURI)
       (str "Register new agent with URI: " ++ firstn 80 agentURI ++ str "...").

(** The integers a [uint256] argument takes; the ABI encoder throws on any
    other. *)
Definition is_uint256 (n : Z) : bool := (0 <=? n) && (n <? 2 ^ 256).

Definition integer_out_of_range : js_error :=
  mkError None (str "Number is not in safe 256-bit unsigned integer range").

Definition buildUpdateURITx (w : world) (agentId : jsval) (newURI : jsstring)
    : outcome unsigned_tx :=
  id <- BigInt w agentId ;;
  if is_uint256 id then
    Ret (mkTx IDENTITY_REGISTRY (CallSetAgentURI id newURI)
              (str "Update URI for agent #" ++ to_string agentId))
  else Throw integer_out_of_range.

(** *** [keccak256], through viem *)

(** viem's [keccak256] of a byte array: Ethereum's Keccak-256, rendered as
    "0x" and lowercase hex. *)
Definition viemKeccak256 (bytes : buffer) : jsstring :=
  str "0x" ++ hex_of_bytes (Keccak.keccak_256 bytes).

(** viem's [isHex]: "0x" followed by hex digits. *)
Definition isHex (s : jsstring) : bool :=
  startsWith s (str "0x")
  && forallb (fun c => match hex_value c with Some _ => true | None => false end)
             (skipn 2 s).

Fixpoint hex_pairs (s : jsstring) : buffer :=
  match s with
  | a :: b :: rest =>
      match hex_value a, hex_value b with
      | Some x, Some y => byte_of_Z (x * 16 + y) :: hex_pairs rest
      | _, _ => []
      end
  | _ => []
  end.

(** viem's [toBytes] of a string: the bytes a hex string writes (an odd
    number of digits is padded on the left), the UTF-8 of any other. *)
Definition toBytes (s : jsstring) : buffer :=
  if isHex s then
    let digits := skipn 2 s in
    hex_pairs (if Nat.even (length digits) then digits else 48 :: digits)
  else utf8_encode s.

(** The argument of [keccak256]: a string or a byte array. *)
Inductive hash_input : Type :=
| OfString (s : jsstring)
| OfBytes (bytes : buffer).

Definition keccak256 (data : hash_input) : jsstring :=
  match data with
  | OfString s => viemKeccak256 (toBytes s)
  | OfBytes bytes => viemKeccak256 bytes
  end.

End ChainClient.
Import ChainClient.

(* ------------------------------------------------------------------ *)
(** ** Hashing engine, [lib/hash-identity.mjs] *)

Module HashIdentity.

Definition IDENTITY_FILES : list jsstring :=
  [str "SOUL.md"; str "USER.md"; str "IDENTITY.md"].

(** [keccak256(data)]: ["0x" + createHash("sha3-256").update(data).digest("hex")]. *)
Definition keccak256 (data : buffer) : jsstring :=
  str "0x" ++ hex_of_bytes (Keccak.sha3_256 data).
Arguments keccak256 : simpl never.

(** One entry of the result, [{ hash, size, exists, path }]; [hash] is
    [null] for a missing file. *)
Record file_entry := mkEntry {
  fe_hash : option jsstring;
  fe_size : Z;
  fe_exists : bool;
  fe_path : jsstring
}.

Record composite_entry := mkComposite {
  ce_hash : jsstring;
  ce_files : list jsstring
}.

(** The object [hashIdentityFiles] returns: an entry per file name, in
    insertion order, and [_composite]. *)
Record hash_results := mkResults {
  hr_files : list (jsstring * file_entry);
  hr_composite : composite_entry
}.

Definition code_is (e : js_error) (c : jsstring) : bool :=
  match err_code e with
  | Some c' => jsstring_eqb c' c
  | None => false
  end.

(** The placeholder of a missing file, ["0x" + "0".repeat(64)]. *)
Definition ZERO_HASH : jsstring := str "0x" ++ repeat_str (str "0") 64.

(** [results[f]?.hash || "0x" + "0".repeat(64)]. *)
Definition hash_or_zero (files : list (jsstring * file_entry)) (f : jsstring)
    : jsstring :=
  match lookup f files with
  | Some e =>
      match fe_hash e with
      | Some (c :: h) => c :: h
      | Some [] => ZERO_HASH
      | None => ZERO_HASH
      end
  | None => ZERO_HASH
  end.

Definition hash_one (w : world) (workspacePath : jsstring)
    (results : list (jsstring * file_entry)) (filename : jsstring)
    : outcome (list (jsstring * file_entry)) :=
  let filepath := path_join w workspacePath filename in
  try_catch
    (content <- lift (readFile w filepath) ;;
     Ret (set_prop filename
            (mkEntry (Some (keccak256 content)) (Z.of_nat (length content))
                     true filepath)
            results))
    (fun err =>
       if code_is err (str "ENOENT")
       then Ret (set_prop filename (mkEntry None 0 false filepath) results)
       else Throw err).

Definition hashIdentityFiles (w : world) (workspacePath : jsstring)
    : outcome hash_results :=
  results <- for_of IDENTITY_FILES (hash_one w workspacePath) [] ;;
  let compositeInput :=
    List.concat (map (hash_or_zero results) IDENTITY_FILES) in
  Ret (mkResults results
         (mkComposite (keccak256 (utf8_encode compositeInput)) IDENTITY_FILES)).

(** *** Verification *)

Inductive status : Type := VERIFIED | MISMATCH | MISSING | NO_CHAIN_HASH.

(** One entry of [results.files], with the fields each status carries. *)
Inductive file_result : Type :=
| FileMissing (expected : jsval)
| FileNoChainHash (actual : option jsstring)
| FileVerified (hash : option jsstring)
| FileMismatch (expected : jsval) (actual : option jsstring).

Definition file_status (r : file_result) : status :=
  match r with
  | FileMissing _ => MISSING
  | FileNoChainHash _ => NO_CHAIN_HASH
  | FileVerified _ => VERIFIED
  | FileMismatch _ _ => MISMATCH
  end.

Inductive composite_result : Type :=
| CompositeVerified (hash : jsstring)
| CompositeMismatch (expected : jsval) (actual : jsstring).

Definition composite_status (r : composite_result) : status :=
  match r with
  | CompositeVerified _ => VERIFIED
  | CompositeMismatch _ _ => MISMATCH
  end.

Record verify_result := mkVerify {
  vr_verified : bool;
  vr_files : list (jsstring * file_result);
  vr_composite : option composite_result;
  vr_timestamp : jsstring
}.

(** [local.hash === expected], [local.hash] being a string or [null]. *)
Definition hash_strict_eq (h : option jsstring) (v : jsval) : bool :=
  match h with
  | Some s => str_strict_eq s v
  | None => match v with VNull => true | _ => false end
  end.

(** [localHashes[filename]] followed by a property read on it. *)
Definition local_entry (localHashes : hash_results) (filename : jsstring)
    : outcome file_entry :=
  match lookup filename (hr_files localHashes) with
  | Some e => Ret e
  | None => Throw (type_error "Cannot read properties of undefined")
  end.

Definition verify_one (localHashes : hash_results) (expectedHashes : jsval)
    (results : verify_result) (filename : jsstring) : outcome verify_result :=
  local <- local_entry localHashes filename ;;
  expected <- get_prop expectedHashes filename ;;
  if negb (fe_exists local) then
    Ret (mkVerify false
           (set_prop filename (FileMissing expected) (vr_files results))
           (vr_composite results) (vr_timestamp results))
  else if negb (truthy expected) then
    Ret (mkVerify (vr_verified results)
           (set_prop filename (FileNoChainHash (fe_hash local)) (vr_files results))
           (vr_composite results) (vr_timestamp results))
  else if hash_strict_eq (fe_hash local) expected then
    Ret (mkVerify (vr_verified results)
           (set_prop filename (FileVerified (fe_hash local)) (vr_files results))
           (vr_composite results) (vr_timestamp results))
  else
    Ret (mkVerify false
           (set_prop filename (FileMismatch expected (fe_hash local)) (vr_files results))
           (vr_composite results) (vr_timestamp results)).

Definition verifyIdentityFiles (w : world) (workspacePath : jsstring)
    (expectedHashes : jsval) : outcome verify_result :=
  localHashes <- hashIdentityFiles w workspacePath ;;
  let results := mkVerify true [] None (verify_time w) in
  results <- for_of IDENTITY_FILES (verify_one localHashes expectedHashes) results ;;
  expectedComposite <- get_prop expectedHashes (str "_composite") ;;
  if truthy expectedComposite then
    if str_strict_eq (ce_hash (hr_composite localHashes)) expectedComposite then
      Ret (mkVerify (vr_verified results) (vr_files results)
             (Some (CompositeVerified (ce_hash (hr_composite localHashes))))
             (vr_timestamp results))
    else
      Ret (mkVerify false (vr_files results)
             (Some (CompositeMismatch expectedComposite
                      (ce_hash (hr_composite localHashes))))
             (vr_timestamp results))
  else Ret results.

(** [hashIdentityFiles(p)] for an argument that may not be a string:
    [path.join] rejects anything else. *)
Definition hashIdentityFiles_of (w : world) (p : jsval) : outcome hash_results :=
  match p with
  | VStr s => hashIdentityFiles w s
  | _ => Throw (type_error "The path argument must be of type string")
  end.


Definition verifyIdentityFiles_of (w : world) (p : jsval) (expectedHashes : jsval)
    : outcome verify_result :=
  match p with
  | VStr s => verifyIdentityFiles w s expectedHashes
  | _ => Throw (type_error "The path argument must be of type string")
  end.


End HashIdentity.
Import HashIdentity.

(* ------------------------------------------------------------------ *)
(** ** Registration document builder, [lib/registration-builder.mjs] *)

Module RegistrationBuilder.

(** A destructured property with its default: the default stands in for
    [undefined] only. *)
Definition field (config : jsval) (key : string) (default : jsval) : jsval :=
  match get_prop_opt config (str key) with
  | VUndef => default
  | v => v
  end.

(** [[...services]]: an array is copied, a string spreads into its
    characters, anything else is not iterable. *)
Fixpoint string_chars (s : jsstring) : list jsval :=
  match s with
  | [] => []
  | c :: rest =>
      if is_high_surrogate c then
        match rest with
        | d :: rest' =>
            if is_low_surrogate d then VStr [c; d] :: string_chars rest'
            else VStr [c] :: string_chars rest
        | [] => [VStr [c]]
        end
      else VStr [c] :: string_chars rest
  end.

Definition spread (v : jsval) : outcome (list jsval) :=
  match v with
  | VArr items => Ret items
  | VStr s => Ret (string_chars s)
  | _ => Throw (type_error "services is not iterable")
  end.

Definition opt_str (h : option jsstring) : jsval :=
  match h with
  | Some s => VStr s
  | None => VNull
  end.

(** [identityHashes[f]?.hash || null]. *)
Definition hash_or_null (r : hash_results) (f : jsstring) : jsval :=
  match lookup f (hr_files r) with
  | Some e => js_or (opt_str (fe_hash e)) VNull
  | None => VNull
  end.

Definition DEFAULT_REGISTRY : jsstring :=
  str "0x8004A169FB4a3325136EB29fA0ceB6D2e539a432".

Definition buildRegistration (w : world) (config : jsval) : outcome jsval :=
  match config with
  | VUndef | VNull => Throw (type_error "Cannot destructure config")
  | _ =>
      let name := get_prop_opt config (str "name") in
      let description := get_prop_opt config (str "description") in
      let image := field config "image" (VStr []) in
      let workspacePath := get_prop_opt config (str "workspacePath") in
      let ownerAddress := get_prop_opt config (str "ownerAddress") in
      let agentId := field config "agentId" VNull in
      let chainId := field config "chainId" (VStr (str "8453")) in
      let identityRegistry := field config "identityRegistry" (VStr DEFAULT_REGISTRY) in
      let services := field config "services" (VArr []) in
      let supportedTrust := field config "supportedTrust" (VArr [VStr (str "reputation")]) in
      let soulbound :=
        field config "soulbound"
          (VObj [(str "locked", VBool true); (str "standard", VStr (str "ERC-5192"))]) in
      identityHashes <-
        (if truthy workspacePath then
           match workspacePath with
           | VStr p => h <- hashIdentityFiles w p ;; Ret (Some h)
           | _ => Throw (type_error "The path argument must be of type string")
           end
         else Ret None) ;;
      services' <- spread services ;;
      Ret (VObj
        [ (str "type", VStr (str "https://eips.ethereum.org/EIPS/eip-8004#registration-v1"));
          (str "name", name);
          (str "description", description);
          (str "image", image);
          (str "services", VArr services');
          (str "x402Support", VBool true);
          (str "active", VBool true);
          (str "registrations",
             if truthy agentId then
               VArr [VObj [ (str "agentId", agentId);
                            (str "agentRegistry",
                               VStr (str "eip155:" ++ to_string chainId ++ str ":"
                                     ++ to_string identityRegistry)) ]]
             else VArr []);
          (str "supportedTrust", supportedTrust);
          (str "soulbound", soulbound);
          (str "identityFiles",
             match identityHashes with
             | Some h =>
                 VObj [ (str "SOUL.md", hash_or_null h (str "SOUL.md"));
                        (str "USER.md", hash_or_null h (str "USER.md"));
                        (str "IDENTITY.md", hash_or_null h (str "IDENTITY.md"));
                        (str "_composite",
                           js_or (VStr (ce_hash (hr_composite h))) VNull);
                        (str "_algorithm", VStr (str "keccak256"));
                        (str "_hashDate", VStr (hash_date w)) ]
             | None => VNull
             end);
          (str "owner",
             VObj [ (str "address", ownerAddress);
                    (str "chain", VStr (str "eip155:" ++ to_string chainId)) ]);
          (str "_generatedAt", VStr (generated_at w));
          (str "_generator", VStr (str "soulbound-identity/registration-builder v1.0.0")) ])
  end.

(** [toBase64DataURI(registration)].  [Buffer.from] rejects the [undefined]
    that [JSON.stringify] returns for [undefined]. *)
Definition toBase64DataURI (registration : jsval) : outcome jsstring :=
  match stringify registration with
  | Some json =>
      Ret (str "data:application/json;base64," ++ base64_encode (utf8_encode json))
  | None => Throw (type_error "The first argument must be of type string")
  end.

Record cost_estimate := mkCost {
  jsonBytes : Z;
  base64URIBytes : Z;
  estimatedGas : Z
}.

(** [estimateOnChainCost(registration)]; the data URI is ASCII, so its
    buffer is as long as the string. *)
Definition estimateOnChainCost (registration : jsval) : outcome cost_estimate :=
  base64URI <- toBase64DataURI registration ;;
  match stringify registration with
  | None => Throw (type_error "Cannot read properties of undefined")
  | Some json =>
      let calldataBytes := Z.of_nat (length (utf8_encode base64URI)) in
      let calldataGas := calldataBytes * 16 in
      let baseGas := 50000 in
      let storageGas := ((calldataBytes + 31) / 32) * 20000 in
      Ret (mkCost (Z.of_nat (length json)) (Z.of_nat (length base64URI))
                  (baseGas + calldataGas + storageGas))
  end.

End RegistrationBuilder.
Import RegistrationBuilder.

(* ------------------------------------------------------------------ *)
(** ** The verification command, [scripts/verify-identity.mjs] *)

Module VerifyIdentity.

(** The options [parseArgs] returns. *)
Record verify_opts := mkVerifyOpts {
  vo_workspace : jsval;
  vo_agentId : jsval;
  vo_config : jsval;
  vo_offline : bool;
  vo_expectedHashes : jsval;
  vo_verbose : bool;
  vo_strict : bool;
  vo_json : bool
}.

(** [parseArgs]: the options, read from the arguments after the script's
    name.  [args[++i]] past the end is [undefined]. *)
Definition is_flag (a : jsstring) (long short : string) : bool :=
  jsstring_eqb a (str long) || jsstring_eqb a (str short).

Definition initial_opts : verify_opts :=
  mkVerifyOpts VNull VNull VNull false VNull false false false.

Definition next_arg (rest : list jsstring) : jsval :=
  match rest with
  | [] => VUndef
  | v :: _ => VStr v
  end.

Definition with_value (a : jsstring) (v : jsval) (o : verify_opts) : verify_opts :=
  if is_flag a "--workspace" "-w" then
    mkVerifyOpts v (vo_agentId o) (vo_config o) (vo_offline o)
      (vo_expectedHashes o) (vo_verbose o) (vo_strict o) (vo_json o)
  else if is_flag a "--agent-id" "-a" then
    mkVerifyOpts (vo_workspace o) (parseInt v) (vo_config o) (vo_offline o)
      (vo_expectedHashes o) (vo_verbose o) (vo_strict o) (vo_json o)
  else if is_flag a "--config" "-c" then
    mkVerifyOpts (vo_workspace o) (vo_agentId o) v (vo_offline o)
      (vo_expectedHashes o) (vo_verbose o) (vo_strict o) (vo_json o)
  else
    mkVerifyOpts (vo_workspace o) (vo_agentId o) (vo_config o) (vo_offline o)
      v (vo_verbose o) (vo_strict o) (vo_json o).

Definition takes_value (a : jsstring) : bool :=
  is_flag a "--workspace" "-w" || is_flag a "--agent-id" "-a"
  || is_flag a "--config" "-c"
  || is_flag a "--expected-hashes" "--expected-hashes".

Definition without_value (a : jsstring) (o : verify_opts) : verify_opts :=
  if is_flag a "--offline" "--offline" then
    mkVerifyOpts (vo_workspace o) (vo_agentId o) (vo_config o) true
      (vo_expectedHashes o) (vo_verbose o) (vo_strict o) (vo_json o)
  else if is_flag a "--verbose" "-v" then
    mkVerifyOpts (vo_workspace o) (vo_agentId o) (vo_config o) (vo_offline o)
      (vo_expectedHashes o) true (vo_strict o) (vo_json o)
  else if is_flag a "--strict" "--strict" then
    mkVerifyOpts (vo_workspace o) (vo_agentId o) (vo_config o) (vo_offline o)
      (vo_expectedHashes o) (vo_verbose o) true (vo_json o)
  else if is_flag a "--json" "--json" then
    mkVerifyOpts (vo_workspace o) (vo_agentId o) (vo_config o) (vo_offline o)
      (vo_expectedHashes o) (vo_verbose o) (vo_strict o) true
  else if negb (truthy (vo_workspace o)) && negb (startsWith a (str "-")) then
    mkVerifyOpts (VStr a) (vo_agentId o) (vo_config o) (vo_offline o)
      (vo_expectedHashes o) (vo_verbose o) (vo_strict o) (vo_json o)
  else o.

Fixpoint parse_from (args : list jsstring) (o : verify_opts) : verify_opts :=
  match args with
  | [] => o
  | a :: rest =>
      if takes_value a then
        match rest with
        | [] => with_value a VUndef o
        | v :: rest' => parse_from rest' (with_value a (VStr v) o)
        end
      else parse_from rest (without_value a o)
  end.

Definition parseArgs (args : list jsstring) : verify_opts :=
  parse_from args initial_opts.

(** Step 2 of [main], on-chain mode. *)
Definition expected_from_chain (w : world) (agentId : jsval) : outcome jsval :=
  try_catch
    (agent <- lookupAgent w agentId ;;
     if negb (truthy (ca_registration agent)) then Exit 2
     else
       identityFiles <- get_prop (ca_registration agent) (str "identityFiles") ;;
       if negb (truthy identityFiles) then Exit 2
       else Ret identityFiles)
    (fun _ => Exit 3).

(** The start of [main]: the options, completed from the configuration
    file when one is given; the workspace and the agent identifier. *)
Definition merge_config (w : world) (opts : verify_opts) : outcome (jsval * jsval) :=
  if truthy (vo_config opts) then
    configRaw <- read_text w (vo_config opts) ;;
    config <- JSON_parse configRaw ;;
    workspace <-
      (if truthy (vo_workspace opts) then Ret (vo_workspace opts)
       else get_prop config (str "workspacePath")) ;;
    agentId <-
      (if truthy (vo_agentId opts) then Ret (vo_agentId opts)
       else get_prop config (str "agentId")) ;;
    Ret (workspace, agentId)
  else Ret (vo_workspace opts, vo_agentId opts).

Definition offline_mode (opts : verify_opts) : bool :=
  vo_offline opts && truthy (vo_expectedHashes opts).

(** Step 2 of [main]: the expected hashes. *)
Definition expected_hashes (w : world) (opts : verify_opts) (agentId : jsval)
    : outcome jsval :=
  if offline_mode opts then
    raw <- read_text w (vo_expectedHashes opts) ;;
    JSON_parse raw
  else if truthy agentId then expected_from_chain w agentId
  else Exit 2.

Definition main (w : world) (opts : verify_opts) : outcome unit :=
  merged <- merge_config w opts ;;
  let workspace := fst merged in
  let agentId := snd merged in
  if negb (truthy workspace) then Exit 3
  else
    localHashes <- hashIdentityFiles_of w workspace ;;
    expectedHashes <- expected_hashes w opts agentId ;;
    result <- verifyIdentityFiles_of w workspace expectedHashes ;;
    Exit (if vr_verified result then 0 else 1).

Definition verify_cli (w : world) (opts : verify_opts) : Z :=
  exit_status (main w opts).

(** The script on its command line. *)
Definition verify_identity (w : world) (argv : list jsstring) : Z :=
  verify_cli w (parseArgs argv).

End VerifyIdentity.
Import VerifyIdentity.

(* ------------------------------------------------------------------ *)
(** ** The update command, [scripts/update-identity.mjs] *)

Module UpdateIdentity.

(** One entry of [changes]. *)
Record change := mkChange {
  ch_file : jsstring;
  ch_from : jsval;
  ch_to : jsval
}.

(** What a run of the command shows and does, in order. *)
Inductive event : Type :=
| LogUsage
| LogNoUpdateNeeded
| LogChangesDetected (changes : list change)
| LogNoIdentityHashes
| LogChainReadFailed (e : js_error)
| LogInitialRegistration
| LogIpfsNotImplemented
| LogCost (c : cost_estimate)
| LogTransaction (tx : unsigned_tx)
| LogDryRun
| Wrote (path : jsstring) (document : jsval)
| LogSignerNotImplemented
| LogUsageHint.

(** A command: an outcome and the events so far. *)
Definition cmd (A : Type) : Type := list event -> list event * outcome A.

Definition cret {A : Type} (a : A) : cmd A := fun log => (log, Ret a).

Definition cbind {A B : Type} (m : cmd A) (k : A -> cmd B) : cmd B :=
  fun log =>
    match m log with
    | (log', Ret a) => k a log'
    | (log', Throw e) => (log', Throw e)
    | (log', Exit c) => (log', Exit c)
    end.

Notation "x <-- m ;;; k" := (cbind m (fun x => k))
  (at level 61, m at next level, right associativity).
Notation "m ;;; k" := (cbind m (fun _ => k))
  (at level 61, right associativity).

Definition emit (e : event) : cmd unit := fun log => (log ++ [e], Ret tt).
Definition cexit {A : Type} (code : Z) : cmd A := fun log => (log, Exit code).
Definition cthrow {A : Type} (e : js_error) : cmd A := fun log => (log, Throw e).
Definition run_outcome {A : Type} (o : outcome A) : cmd A := fun log => (log, o).

Definition ctry {A : Type} (body : cmd A) (handler : js_error -> cmd A) : cmd A :=
  fun log =>
    match body log with
    | (log', Throw e) => handler e log'
    | other => other
    end.

(** Strict equality with a primitive on the left ([undefined], [null] or a
    string, here). *)
Definition prim_strict_eq (a b : jsval) : bool :=
  match a, b with
  | VUndef, VUndef => true
  | VNull, VNull => true
  | VStr s, VStr t => jsstring_eqb s t
  | _, _ => false
  end.

(** [newHashes[file]?.hash]. *)
Definition local_hash (newHashes : hash_results) (file : jsstring) : jsval :=
  match lookup file (hr_files newHashes) with
  | Some e => opt_str (fe_hash e)
  | None => VUndef
  end.

(** The body of the diff loop: a file whose local hash is not the on-chain
    one is pushed on [changes]. *)
Definition diff_one (newHashes : hash_results) (onChain : jsval)
    (changes : list change) (file : jsstring) : list change :=
  let localHash := local_hash newHashes file in
  let chainHash := get_prop_opt onChain file in
  if negb (prim_strict_eq localHash chainHash) then
    changes ++ [mkChange file (js_or chainHash (VStr (str "(not set)")))
                              (js_or localHash (VStr (str "(missing)")))]
  else changes.

Definition first_time_changes (newHashes : hash_results) : list change :=
  map (fun f => mkChange f (VStr (str "(not set)"))
                           (js_or (local_hash newHashes f) (VStr (str "(missing)"))))
      IDENTITY_FILES.

Record update_opts := mkUpdateOpts {
  uo_config : jsval;
  uo_dryRun : bool;
  uo_sign : bool;
  uo_output : jsval;
  uo_ipfs : bool;
  uo_verbose : bool
}.

(** [parseArgs]: the options, read from the arguments after the script's
    name.  [args[++i]] past the end is [undefined]; an argument that is no
    option is skipped. *)
Definition is_flag (a : jsstring) (long short : string) : bool :=
  jsstring_eqb a (str long) || jsstring_eqb a (str short).

Definition initial_opts : update_opts :=
  mkUpdateOpts VNull false false VNull false false.

Definition with_value (a : jsstring) (v : jsval) (o : update_opts) : update_opts :=
  if is_flag a "--config" "-c" then
    mkUpdateOpts v (uo_dryRun o) (uo_sign o) (uo_output o) (uo_ipfs o) (uo_verbose o)
  else
    mkUpdateOpts (uo_config o) (uo_dryRun o) (uo_sign o) v (uo_ipfs o) (uo_verbose o).

Definition takes_value (a : jsstring) : bool :=
  is_flag a "--config" "-c" || is_flag a "--output" "-o".

Definition without_value (a : jsstring) (o : update_opts) : update_opts :=
  if is_flag a "--dry-run" "-d" then
    mkUpdateOpts (uo_config o) true (uo_sign o) (uo_output o) (uo_ipfs o) (uo_verbose o)
  else if is_flag a "--sign" "-s" then
    mkUpdateOpts (uo_config o) (uo_dryRun o) true (uo_output o) (uo_ipfs o) (uo_verbose o)
  else if is_flag a "--ipfs" "--ipfs" then
    mkUpdateOpts (uo_config o) (uo_dryRun o) (uo_sign o) (uo_output o) true (uo_verbose o)
  else if is_flag a "--verbose" "-v" then
    mkUpdateOpts (uo_config o) (uo_dryRun o) (uo_sign o) (uo_output o) (uo_ipfs o) true
  else o.

Fixpoint parse_from (args : list jsstring) (o : update_opts) : update_opts :=
  match args with
  | [] => o
  | a :: rest =>
      if takes_value a then
        match rest with
        | [] => with_value a VUndef o
        | v :: rest' => parse_from rest' (with_value a (VStr v) o)
        end
      else parse_from rest (without_value a o)
  end.

Definition parseArgs (args : list jsstring) : update_opts :=
  parse_from args initial_opts.

(** Step 2 of [main]: the changes against the on-chain registration. *)
Definition check_chain (w : world) (agentId : jsval) (newHashes : hash_results)
    : cmd (list change) :=
  if truthy agentId then
    ctry
      (agent <-- run_outcome (lookupAgent w agentId) ;;;
       let currentRegistration := ca_registration agent in
       let onChain := get_prop_opt currentRegistration (str "identityFiles") in
       if truthy onChain then
         let changes := fold_left (diff_one newHashes onChain) IDENTITY_FILES [] in
         match changes with
         | [] => emit LogNoUpdateNeeded ;;; cexit 0
         | _ :: _ => emit (LogChangesDetected changes) ;;; cret changes
         end
       else
         emit LogNoIdentityHashes ;;; cret (first_time_changes newHashes))
      (fun err => emit (LogChainReadFailed err) ;;; cret [])
  else
    emit LogInitialRegistration ;;; cret [].

(** The hashes the dry run saves for offline verification. *)
Definition expected_hashes_of (newHashes : hash_results) : jsval :=
  VObj [ (str "SOUL.md", local_hash newHashes (str "SOUL.md"));
         (str "USER.md", local_hash newHashes (str "USER.md"));
         (str "IDENTITY.md", local_hash newHashes (str "IDENTITY.md"));
         (str "_composite", VStr (ce_hash (hr_composite newHashes))) ].

(** [writeFile(path, JSON.stringify(document, null, 2))]: the environment
    says whether writing to the path succeeds. *)
Definition write_json (w : world) (p : jsstring) (document : jsval) : cmd unit :=
  run_outcome (lift (writeFile w p)) ;;;
  emit (Wrote p document).

(** Step 4 of [main]: the transaction. *)
Definition build_transaction (w : world) (agentId : jsval) (agentURI : jsstring)
    : cmd unsigned_tx :=
  if truthy agentId
  then run_outcome (buildUpdateURITx w agentId agentURI)
  else cret (buildRegisterTx agentURI).

(** Step 5 of [main]: dry run, output file, or signer. *)
Definition deliver (w : world) (opts : update_opts) (registration : jsval)
    (newHashes : hash_results) : cmd unit :=
  if uo_dryRun opts then
    emit LogDryRun ;;;
    write_json w (replace_first (to_string (uo_config opts)) (str ".json")
                    (str "-registration.json")) registration ;;;
    write_json w (replace_first (to_string (uo_config opts)) (str ".json")
                    (str "-expected-hashes.json")) (expected_hashes_of newHashes) ;;;
    cexit 0
  else if truthy (uo_output opts) then
    (* [Number(CONTRACTS.CHAIN_ID)]: the script does not import CONTRACTS *)
    cthrow (mkError None (str "CONTRACTS is not defined"))
  else if uo_sign opts then
    emit LogSignerNotImplemented ;;; cexit 1
  else
    emit LogUsageHint ;;; cret tt.

(** Steps 3 to 5 of [main]: the new registration, its URI, the
    transaction and its delivery. *)
Definition publish (w : world) (opts : update_opts) (config : jsval)
    (newHashes : hash_results) : cmd unit :=
  let agentId := get_prop_opt config (str "agentId") in
  registration <-- run_outcome (buildRegistration w config) ;;;
  (if uo_ipfs opts then emit LogIpfsNotImplemented else cret tt) ;;;
  agentURI <-- run_outcome (toBase64DataURI registration) ;;;
  cost <-- run_outcome (estimateOnChainCost registration) ;;;
  emit (LogCost cost) ;;;
  tx <-- build_transaction w agentId agentURI ;;;
  emit (LogTransaction tx) ;;;
  deliver w opts registration newHashes.

Definition main (w : world) (opts : update_opts) : cmd unit :=
  if negb (truthy (uo_config opts)) then emit LogUsage ;;; cexit 1
  else
    configRaw <-- run_outcome (read_text w (uo_config opts)) ;;;
    config <-- run_outcome (JSON_parse configRaw) ;;;
    workspacePath <-- run_outcome (get_prop config (str "workspacePath")) ;;;
    newHashes <-- run_outcome (hashIdentityFiles_of w workspacePath) ;;;
    changes <-- check_chain w (get_prop_opt config (str "agentId")) newHashes ;;;
    publish w opts config newHashes.

Definition update_cli (w : world) (opts : update_opts) : list event * Z :=
  let r := main w opts [] in
  (fst r, exit_status (snd r)).

(** The script on its command line. *)
Definition update_identity (w : world) (argv : list jsstring) : list event * Z :=
  update_cli w (parseArgs argv).

End UpdateIdentity.
Import UpdateIdentity.

(* ------------------------------------------------------------------ *)
(** ** Notions the properties are stated with *)

(** What reading one identity document amounts to: its entry, or the error
    that ends the whole call. *)
Definition read_entry (w : world) (workspacePath filename : jsstring)
    : outcome file_entry :=
  let filepath := path_join w workspacePath filename in
  match readFile w filepath with
  | Ok content =>
      Ret (mkEntry (Some (keccak256 content)) (Z.of_nat (length content)) true filepath)
  | Err e =>
      if code_is e (str "ENOENT") then Ret (mkEntry None 0 false filepath)
      else Throw e
  end.

(** The digest string a document contributes to the composite: its hash, or
    the all-zero placeholder when it is missing. *)
Definition contribution (e : file_entry) : jsstring :=
  match fe_hash e with
  | Some h => if fe_exists e then h else ZERO_HASH
  | None => ZERO_HASH
  end.

(* ------------------------------------------------------------------ *)
(** ** Example environments *)

Definition ENOENT : js_error :=
  mkError (Some (str "ENOENT")) (str "ENOENT: no such file or directory").

Definition EACCES : js_error :=
  mkError (Some (str "EACCES")) (str "EACCES: permission denied").

Definition network_error : js_error := mkError None (str "fetch failed").

(** An environment over a listed file system: a path that is not listed
    does not exist.  The chain answers [uri] for every token; nothing can
    be fetched. *)
Definition sample_world (files : list (jsstring * result buffer))
    (uri : result jsstring) : world :=
  mkWorld
    (fun dir name => dir ++ str "/" ++ name)
    (fun p => match lookup p files with Some r => r | None => Err ENOENT end)
    (fun _ => Ok tt)
    (str "2026-02-26T04:00:00.000Z")
    (str "2026-02-26T04:00:00.000Z")
    (str "2026-02-26T04:00:00.001Z")
    (str "2026-02-26T04:00:00.002Z")
    (fun _ => Ok (str "0x1111111111111111111111111111111111111111"))
    (fun _ => uri)
    (fun _ => Err network_error)
    (fun _ => FetchRejects network_error)
    (fun s => Ok s)
    (fun _ => Err syntax_error).

(** A workspace with SOUL.md and IDENTITY.md, without USER.md. *)
Definition two_documents : list (jsstring * result buffer) :=
  [ (str "/ws/SOUL.md", Ok [x73; x6f; x75; x6c]);
    (str "/ws/IDENTITY.md", Ok [x69; x64]) ].

(** A complete workspace. *)
Definition three_documents : list (jsstring * result buffer) :=
  [ (str "/ws/SOUL.md", Ok [x73; x6f; x75; x6c]);
    (str "/ws/USER.md", Ok [x75; x73; x65; x72]);
    (str "/ws/IDENTITY.md", Ok [x69; x64]) ].

(** A workspace whose USER.md cannot be read. *)
Definition unreadable_user : list (jsstring * result buffer) :=
  [ (str "/ws/SOUL.md", Ok [x73; x6f; x75; x6c]);
    (str "/ws/USER.md", Err EACCES);
    (str "/ws/IDENTITY.md", Ok [x69; x64]) ].

(** The complete workspace after an edit of SOUL.md, and with the contents
    of SOUL.md and USER.md exchanged. *)
Definition edited_documents : list (jsstring * result buffer) :=
  [ (str "/ws/SOUL.md", Ok [x73; x6f; x75; x6c; x21]);
    (str "/ws/USER.md", Ok [x75; x73; x65; x72]);
    (str "/ws/IDENTITY.md", Ok [x69; x64]) ].

Definition exchanged_documents : list (jsstring * result buffer) :=
  [ (str "/ws/SOUL.md", Ok [x75; x73; x65; x72]);
    (str "/ws/USER.md", Ok [x73; x6f; x75; x6c]);
    (str "/ws/IDENTITY.md", Ok [x69; x64]) ].

(** The composite hash of the workspace /ws over a listed file system. *)
Definition composite_of (files : list (jsstring * result buffer)) : option jsstring :=
  match hashIdentityFiles (sample_world files (Err network_error)) (str "/ws") with
  | Ret r => Some (ce_hash (hr_composite r))
  | _ => None
  end.

(** Two composites that exist and differ. *)
Definition differ (a b : option jsstring) : Prop :=
  match a, b with
  | Some x, Some y => x <> y
  | _, _ => False
  end.

(** The digest string [h_i] of a document of the workspace: its real hash
    when it can be read, the placeholder when it is missing. *)
Definition document_digest (w : world) (workspacePath filename : jsstring)
    : jsstring :=
  match readFile w (path_join w workspacePath filename) with
  | Ok content => keccak256 content
  | Err _ => ZERO_HASH
  end.

(** The classification of one document: MISSING when it is absent locally,
    whatever is expected; NO_CHAIN_HASH when it exists and no expected hash
    is recorded; VERIFIED when its hash is the expected one; MISMATCH when
    both are present and differ. *)
Definition classification (local : file_entry) (expected : jsval) : status :=
  if negb (fe_exists local) then MISSING
  else if negb (truthy expected) then NO_CHAIN_HASH
  else if hash_strict_eq (fe_hash local) expected then VERIFIED
  else MISMATCH.

(** A classification that does not fail the verification. *)
Definition passes (s : status) : bool :=
  match s with
  | VERIFIED | NO_CHAIN_HASH => true
  | MISMATCH | MISSING => false
  end.

Definition file_result_of (local : file_entry) (expected : jsval) : file_result :=
  if negb (fe_exists local) then FileMissing expected
  else if negb (truthy expected) then FileNoChainHash (fe_hash local)
  else if hash_strict_eq (fe_hash local) expected then FileVerified (fe_hash local)
  else FileMismatch expected (fe_hash local).

Definition composite_result_of (local : jsstring) (expected : jsval)
    : option composite_result :=
  if truthy expected then
    Some (if str_strict_eq local expected then CompositeVerified local
          else CompositeMismatch expected local)
  else None.

(** The ways the resolution of a token URI fails: an empty URI; a [data:]
    URI that matches neither form, or whose payload does not decode to
    JSON; a fetch that is rejected (unsupported scheme, network failure,
    abort after the timeout); a response that is not OK or whose body is
    not JSON. *)
Inductive resolution_fails (w : world) (uri : jsstring) : Prop :=
| EmptyURI :
    uri = [] -> resolution_fails w uri
| MalformedDataURI :
    startsWith uri (str "data:") = true ->
    match_base64 uri = None -> match_plain uri = None ->
    resolution_fails w uri
| Base64NotJSON (payload : jsstring) (e : js_error) :
    startsWith uri (str "data:") = true ->
    match_base64 uri = Some payload ->
    JSON_parse (utf8_decode (base64_decode payload)) = Throw e ->
    resolution_fails w uri
| PlainNotDecodable (payload : jsstring) (e : js_error) :
    startsWith uri (str "data:") = true ->
    match_base64 uri = None -> match_plain uri = Some payload ->
    decodeURIComponent w payload = Err e ->
    resolution_fails w uri
| PlainNotJSON (payload text : jsstring) (e : js_error) :
    startsWith uri (str "data:") = true ->
    match_base64 uri = None -> match_plain uri = Some payload ->
    decodeURIComponent w payload = Ok text ->
    JSON_parse text = Throw e ->
    resolution_fails w uri
| FetchFails (e : js_error) :
    uri <> [] -> startsWith uri (str "data:") = false ->
    fetch w (gateway_url uri) = FetchRejects e ->
    resolution_fails w uri
| ResponseNotOK (body : result jsval) :
    uri <> [] -> startsWith uri (str "data:") = false ->
    fetch w (gateway_url uri) = FetchResponse false body ->
    resolution_fails w uri
| ResponseNotJSON (e : js_error) :
    uri <> [] -> startsWith uri (str "data:") = false ->
    fetch w (gateway_url uri) = FetchResponse true (Err e) ->
    resolution_fails w uri.

(** The ends of [main] of the verification command, branch by branch, each
    with its exit code; the causes behind them are told from the
    environment further down. *)
Inductive verify_class (w : world) (opts : verify_opts) : Z -> Prop :=
| AllVerified ws id snap expected r :
    merge_config w opts = Ret (ws, id) -> truthy ws = true ->
    hashIdentityFiles_of w ws = Ret snap ->
    expected_hashes w opts id = Ret expected ->
    verifyIdentityFiles_of w ws expected = Ret r ->
    vr_verified r = true ->
    verify_class w opts 0
| NotVerified ws id snap expected r :
    merge_config w opts = Ret (ws, id) -> truthy ws = true ->
    hashIdentityFiles_of w ws = Ret snap ->
    expected_hashes w opts id = Ret expected ->
    verifyIdentityFiles_of w ws expected = Ret r ->
    vr_verified r = false ->
    verify_class w opts 1
| NoRegistration ws id snap agent :
    merge_config w opts = Ret (ws, id) -> truthy ws = true ->
    hashIdentityFiles_of w ws = Ret snap ->
    offline_mode opts = false -> truthy id = true ->
    lookupAgent w id = Ret agent ->
    truthy (ca_registration agent) = false ->
    verify_class w opts 2
| NoHashData ws id snap agent :
    merge_config w opts = Ret (ws, id) -> truthy ws = true ->
    hashIdentityFiles_of w ws = Ret snap ->
    offline_mode opts = false -> truthy id = true ->
    lookupAgent w id = Ret agent ->
    truthy (ca_registration agent) = true ->
    truthy (get_prop_opt (ca_registration agent) (str "identityFiles")) = false ->
    verify_class w opts 2
| NoAgentId ws id snap :
    merge_config w opts = Ret (ws, id) -> truthy ws = true ->
    hashIdentityFiles_of w ws = Ret snap ->
    offline_mode opts = false -> truthy id = false ->
    verify_class w opts 2
| ConfigError e :
    merge_config w opts = Throw e ->
    verify_class w opts 3
| NoWorkspace ws id :
    merge_config w opts = Ret (ws, id) -> truthy ws = false ->
    verify_class w opts 3
| LocalReadError ws id e :
    merge_config w opts = Ret (ws, id) -> truthy ws = true ->
    hashIdentityFiles_of w ws = Throw e ->
    verify_class w opts 3
| ChainError ws id snap e :
    merge_config w opts = Ret (ws, id) -> truthy ws = true ->
    hashIdentityFiles_of w ws = Ret snap ->
    offline_mode opts = false -> truthy id = true ->
    lookupAgent w id = Throw e ->
    verify_class w opts 3
| ExpectedHashesError ws id snap e :
    merge_config w opts = Ret (ws, id) -> truthy ws = true ->
    hashIdentityFiles_of w ws = Ret snap ->
    offline_mode opts = true ->
    expected_hashes w opts id = Throw e ->
    verify_class w opts 3
| VerificationError ws id snap expected e :
    merge_config w opts = Ret (ws, id) -> truthy ws = true ->
    hashIdentityFiles_of w ws = Ret snap ->
    expected_hashes w opts id = Ret expected ->
    verifyIdentityFiles_of w ws expected = Throw e ->
    verify_class w opts 3.

(** A call that does not end the process. *)
Definition no_exit {A : Type} (m : outcome A) : Prop := forall c, m <> Exit c.



(** The content of a configuration file holding [config]. *)
Definition config_file (config : jsval) : result buffer :=
  Ok (match stringify config with
      | Some text => utf8_encode text
      | None => []
      end).

(** A configuration of an agent that is not registered yet, written with
    the agent identifier 0, and the same for agent 42. *)
Definition config_agent (agentId : jsval) : jsval :=
  VObj [ (str "name", VStr (str "Bernardo"));
         (str "description", VStr (str "Business and engineering agent"));
         (str "workspacePath", VStr (str "/ws"));
         (str "ownerAddress", VStr (str "0x2222222222222222222222222222222222222222"));
         (str "agentId", agentId) ].

Definition update_world (agentId : jsval) (uri : result jsstring) : world :=
  sample_world ((str "/cfg.json", config_file (config_agent agentId)) :: three_documents)
               uri.

Definition dry_run : update_opts :=
  mkUpdateOpts (VStr (str "/cfg.json")) true false VUndef false false.

(** The value of a call that returns. *)
Definition returned {A : Type} (default : A) (o : outcome A) : A :=
  match o with
  | Ret a => a
  | _ => default
  end.

(* ------------------------------------------------------------------ *)
(** ** JSON values *)

(** A UTF-16 code unit. *)
Definition code_unit (c : Z) : bool := in_range 0 0xFFFF c.

(** A string without lone surrogates. *)
Fixpoint well_formed (s : jsstring) : bool :=
  match s with
  | [] => true
  | c :: rest =>
      if is_high_surrogate c then
        match rest with
        | d :: rest' => is_low_surrogate d && well_formed rest'
        | [] => false
        end
      else negb (is_low_surrogate c) && code_unit c && well_formed rest
  end.

Fixpoint nodup_keys (keys : list jsstring) : bool :=
  match keys with
  | [] => true
  | k :: rest => negb (existsb (jsstring_eqb k) rest) && nodup_keys rest
  end.

(** The values whose JSON text is shown to parse back: no [undefined] and
    no [NaN] anywhere, integers in the range where a number is exactly its
    decimal notation, strings of code units, objects with distinct keys. *)
Fixpoint json_value (v : jsval) : bool :=
  match v with
  | VUndef | VNaN | VFloat _ => false
  | VNull | VBool _ => true
  | VNum n => (- 2 ^ 53 <? n) && (n <? 2 ^ 53)
  | VStr s => forallb code_unit s
  | VArr items => forallb json_value items
  | VObj props =>
      forallb (fun kv => forallb code_unit (fst kv) && json_value (snd kv)) props
      && nodup_keys (map fst props)
  end.

(** What may follow a value in a JSON text that [JSON.stringify] wrote:
    nothing, a comma, or a closing bracket or brace. *)
Definition delimited (rest : jsstring) : Prop :=
  match rest with
  | [] => True
  | c :: _ => c = 44 \/ c = 93 \/ c = 125
  end.

(** The text of a JSON value parses back to the value: the text exists,
    has no lone surrogate, starts with a character of a value, and the
    parser, with enough fuel and whatever delimiter follows, returns the
    value and stops at the delimiter. *)
Definition parses_back (v : jsval) : Prop :=
  json_value v = true ->
  exists t,
    stringify v = Some t /\
    well_formed t = true /\
    (exists c t', t = c :: t' /\ is_ws c = false /\ c <> 93) /\
    forall fuel rest,
      (length t < fuel)%nat -> delimited rest ->
      parse_value fuel (t ++ rest) = Some (v, rest).

(** The text of an array element and of an object member. *)
Definition element_text (v : jsval) : jsstring :=
  match stringify v with
  | Some t => t
  | None => str "null"
  end.

Definition member_text (kv : jsstring * jsval) : jsstring :=
  quote (fst kv) ++ [58] ++ element_text (snd kv).

(** A registration document with text outside ASCII, an escape, a
    surrogate pair, a lone surrogate, a negative number and nesting. *)
Definition sample_registration : jsval :=
  VObj [ (str "name", VStr [66; 233; 114; 110; 97; 114; 100; 111; 32; 0xD83E; 0xDD16]);
         (str "description", VStr (str "line one" ++ [10; 34; 92; 0xD800]));
         (str "active", VBool true);
         (str "registrations",
            VArr [VObj [(str "agentId", VNum 42);
                        (str "agentRegistry", VStr (str "eip155:8453:0x8004"))]]);
         (str "services", VArr []);
         (str "balance", VNum (-7));
         (str "identityFiles",
            VObj [(str "SOUL.md", VStr (str "0xabc")); (str "USER.md", VNull)]) ].


Definition uri_of (document : jsval) : result jsstring :=
  match toBase64DataURI document with
  | Ret uri => Ok uri
  | _ => Err syntax_error
  end.

(* ------------------------------------------------------------------ *)
(** ** Scripts that print

    A script threads what it has printed so far; [main().catch(console.error)]
    prints a rejection and leaves the exit status at 0. *)

Section Scripts.

Variable E : Type.

Definition script (A : Type) : Type := list E -> list E * outcome A.

Definition sret {A : Type} (a : A) : script A := fun out => (out, Ret a).

Definition sbind {A B : Type} (m : script A) (k : A -> script B) : script B :=
  fun out =>
    match m out with
    | (out', Ret a) => k a out'
    | (out', Throw e) => (out', Throw e)
    | (out', Exit c) => (out', Exit c)
    end.

Definition say (e : E) : script unit := fun out => (out ++ [e], Ret tt).

Definition call {A : Type} (o : outcome A) : script A := fun out => (out, o).

(** [main().catch(console.error)]: what was printed, the error included,
    and the exit status. *)
Definition catch_console_error {A : Type} (report : js_error -> E)
    (m : script A) : list E * Z :=
  match m [] with
  | (out, Ret _) => (out, 0)
  | (out, Throw e) => (out ++ [report e], 0)
  | (out, Exit c) => (out, c)
  end.

End Scripts.

Arguments sret {E A} a.
Arguments sbind {E A B} m k.
Arguments say {E} e.
Arguments call {E A} o.
Arguments catch_console_error {E A} report m.

Notation "x <~ m ;~ k" := (sbind m (fun x => k))
  (at level 61, m at next level, right associativity).
Notation "m ;~ k" := (sbind m (fun _ => k))
  (at level 61, right associativity).

(* ------------------------------------------------------------------ *)
(** ** The hasher on its command line, [main] of [lib/hash-identity.mjs] *)

Module HashIdentityCli.

Inductive line : Type :=
| Banner
| Workspace (workspacePath : jsstring)
| Found (filename : jsstring)
| HashOf (hash : option jsstring)
| SizeOf (size : Z)
| NotFound (filename : jsstring)
| CompositeHash (hash : jsstring)
| Rejected (e : js_error).

(** The body of the reporting loop. *)
Definition report (hashes : hash_results) (filename : jsstring) : script line unit :=
  entry <~ call (local_entry hashes filename) ;~
  if fe_exists entry then
    say (Found filename) ;~
    say (HashOf (fe_hash entry)) ;~
    say (SizeOf (fe_size entry))
  else
    say (NotFound filename).

Fixpoint for_each {A : Type} (xs : list A) (body : A -> script line unit)
    : script line unit :=
  match xs with
  | [] => sret tt
  | x :: rest => body x ;~ for_each rest body
  end.

(** [process.argv[2] || process.cwd()]; [argv] holds the arguments after
    the script's name, [cwd] is [process.cwd()]. *)
Definition workspace_argument (cwd : jsstring) (argv : list jsstring) : jsstring :=
  match argv with
  | a :: _ => if truthy (VStr a) then a else cwd
  | [] => cwd
  end.

Definition main (w : world) (cwd : jsstring) (argv : list jsstring)
    : script line hash_results :=
  let workspacePath := workspace_argument cwd argv in
  say Banner ;~
  say (Workspace workspacePath) ;~
  hashes <~ call (hashIdentityFiles w workspacePath) ;~
  for_each IDENTITY_FILES (report hashes) ;~
  say (CompositeHash (ce_hash (hr_composite hashes))) ;~
  sret hashes.

Definition hash_identity (w : world) (cwd : jsstring) (argv : list jsstring)
    : list line * Z :=
  catch_console_error Rejected (main w cwd argv).

(** The lines of one document in the report. *)
Definition entry_lines (hashes : hash_results) (filename : jsstring) : list line :=
  match lookup filename (hr_files hashes) with
  | Some entry =>
      if fe_exists entry
      then [Found filename; HashOf (fe_hash entry); SizeOf (fe_size entry)]
      else [NotFound filename]
  | None => []
  end.

End HashIdentityCli.

(* ------------------------------------------------------------------ *)
(** ** The builder on its command line, [main] of
    [lib/registration-builder.mjs] *)

Module RegistrationBuilderCli.

Inductive line : Type :=
| Usage
| Building (name : jsval)
| Wrote (path : jsstring) (document : jsval)
| Written (path : jsstring)
| Cost (c : cost_estimate)
| DataURI (head : jsstring) (length : Z)
| Rejected (e : js_error).

(** [await writeFile(path, JSON.stringify(document, null, 2))]. *)
Definition write_json (w : world) (p : jsstring) (document : jsval)
    : script line unit :=
  call (lift (writeFile w p)) ;~
  say (Wrote p document).

Definition main (w : world) (argv : list jsstring) : script line jsval :=
  match argv with
  | configPath :: _ =>
      if negb (truthy (VStr configPath)) then say Usage ;~ call (Exit 1)
      else
        configRaw <~ call (read_text w (VStr configPath)) ;~
        config <~ call (JSON_parse configRaw) ;~
        name <~ call (get_prop config (str "name")) ;~
        say (Building name) ;~
        registration <~ call (buildRegistration w config) ;~
        let outputPath :=
          replace_first configPath (str ".json") (str "-registration.json") in
        write_json w outputPath registration ;~
        say (Written outputPath) ;~
        cost <~ call (estimateOnChainCost registration) ;~
        say (Cost cost) ;~
        dataURI <~ call (toBase64DataURI registration) ;~
        say (DataURI (firstn 100 dataURI) (Z.of_nat (length dataURI))) ;~
        sret registration
  | [] => say Usage ;~ call (Exit 1)
  end.

Definition registration_builder (w : world) (argv : list jsstring)
    : list line * Z :=
  catch_console_error Rejected (main w argv).

End RegistrationBuilderCli.

(* ------------------------------------------------------------------ *)
(** ** Chain client: token bound accounts, metadata and their builders *)

Module ChainClientAccounts.

Definition TBA_REGISTRY : jsstring :=
  str "0x000000006551c19487814612e58FE06813775758".

Definition TBA_IMPLEMENTATION : jsstring :=
  str "0x55266d75D1a14E4572138116aF39863Ed6596E7F".

Definition CHAIN_ID : Z := 8453.

(** The salt a call without one gets, ["0x" + "0".repeat(64)]. *)
Definition DEFAULT_SALT : jsstring := str "0x" ++ repeat_str (str "0") 64.

(** The reads of the chain besides those of [lookupAgent]: [account] of the
    account registry (implementation, salt, chain, token contract, token),
    the code at an address ([undefined] when there is none), [getMetadata]
    of the identity registry. *)
Record chain_reads := mkReads {
  account : jsstring -> jsstring -> Z -> jsstring -> Z -> result jsstring;
  getCode : jsstring -> result jsval;
  readMetadata : Z -> jsstring -> result jsstring
}.

Definition salt_or_default (salt : option jsstring) : jsstring :=
  match salt with
  | Some s => s
  | None => DEFAULT_SALT
  end.

Definition getTBAAddress (w : world) (c : chain_reads) (agentId : jsval)
    (salt : option jsstring) : outcome jsstring :=
  id <- BigInt w agentId ;;
  lift (account c TBA_IMPLEMENTATION (salt_or_default salt) CHAIN_ID
          IDENTITY_REGISTRY id).

Record tba_state := mkTba {
  tba_address : jsstring;
  tba_exists : jsval
}.

(** [code && code !== "0x"]. *)
Definition has_code (code : jsval) : jsval :=
  if truthy code then VBool (negb (str_strict_eq (str "0x") code)) else code.

Definition tbaExists (w : world) (c : chain_reads) (agentId : jsval)
    : outcome tba_state :=
  tbaAddress <- getTBAAddress w c agentId None ;;
  code <- lift (getCode c tbaAddress) ;;
  Ret (mkTba tbaAddress (has_code code)).

Definition getMetadata (w : world) (c : chain_reads) (agentId : jsval)
    (key : jsstring) : outcome jsval :=
  try_catch
    (id <- BigInt w agentId ;;
     value <- lift (readMetadata c id key) ;;
     Ret (VStr value))
    (fun _ => Ret VNull).

(** The call [buildCreateTBATx] encodes. *)
Inductive registry_call : Type :=
| CallCreateAccount (implementation salt : jsstring) (chainId : Z)
    (tokenContract : jsstring) (tokenId : Z).

Record built_tx := mkBuilt {
  bt_to : jsstring;
  bt_data : registry_call;
  bt_description : jsstring
}.

(** The size the ABI encoder measures a [bytes32] argument by: the bytes of
    a text that starts with "0x", two digits each, and the length of any
    other text.  It throws unless the size is 32. *)
Definition bytes_size (value : jsstring) : Z :=
  if startsWith value (str "0x") then (Z.of_nat (length value) - 2 + 1) / 2
  else Z.of_nat (length value).

Definition bytes_size_mismatch : js_error :=
  mkError None (str "Size of bytes does not match expected size (bytes32)").

(** The arguments are evaluated, [BigInt(agentId)] among them, before the
    encoder checks them in the order of the signature: the salt before the
    token. *)
Definition buildCreateTBATx (w : world) (agentId : jsval) (salt : option jsstring)
    : outcome built_tx :=
  id <- BigInt w agentId ;;
  if negb (bytes_size (salt_or_default salt) =? 32) then Throw bytes_size_mismatch
  else if negb (is_uint256 id) then Throw integer_out_of_range
  else
    Ret (mkBuilt TBA_REGISTRY
           (CallCreateAccount TBA_IMPLEMENTATION (salt_or_default salt) CHAIN_ID
              IDENTITY_REGISTRY id)
           (str "Create Token Bound Account for agent #" ++ to_string agentId)).

(** [buildSetMetadataTx(agentId, key, value)] for a [value] that is a text
    or a byte array.  [valueBytes] is a byte array in both cases, and the
    ABI encoder takes a [bytes] argument as hexadecimal text only: once the
    identifier has passed, it fails with a TypeError on the byte array. *)
Definition buildSetMetadataTx (w : world) (agentId : jsval) (key : jsstring)
    (value : hash_input) : outcome built_tx :=
  let valueBytes :=
    match value with
    | OfString s => toBytes s
    | OfBytes bytes => bytes
    end in
  id <- BigInt w agentId ;;
  if negb (is_uint256 id) then Throw integer_out_of_range
  else Throw (type_error "hex_.replace is not a function").

End ChainClientAccounts.

(* ------------------------------------------------------------------ *)
(** ** More notions the properties are stated with *)

(** A digest as [digest("hex")] writes it after "0x": 64 lowercase
    hexadecimal digits. *)
Definition is_lower_hex (c : Z) : bool := in_range 48 57 c || in_range 97 102 c.

Definition is_digest (s : jsstring) : bool :=
  startsWith s (str "0x") && (length s =? 66)%nat && forallb is_lower_hex (skipn 2 s).

(** [s.includes(pattern)]. *)
Fixpoint includes (s pattern : jsstring) : bool :=
  startsWith s pattern
  || match s with
     | [] => false
     | _ :: s' => includes s' pattern
     end.

(** The number of bytes of a string written as UTF-8. *)
Definition byte_length (s : jsstring) : Z := Z.of_nat (length (utf8_encode s)).

(** [Math.ceil(a / b)] for a non-negative [a] and a positive [b]. *)
Definition ceil_div (a b : Z) : Z := (a + b - 1) / b.

(** The environment [w] with another chain and network behind it: the file
    system and the clock are those of [w]. *)
Definition with_chain (w chain : world) : world :=
  mkWorld (path_join w) (readFile w) (writeFile w)
          (verify_time w) (hash_date w) (generated_at w) (output_time w)
          (ownerOf chain) (tokenURI chain) (getAgentWallet chain)
          (fetch chain) (decodeURIComponent w) (bigint_of_string w).

(** The files a run of the update command saved: every path that was
    written satisfies [P]; and a command that keeps it so. *)
Definition writes_only (P : jsstring -> Prop) (log : list event) : Prop :=
  forall p document, In (UpdateIdentity.Wrote p document) log -> P p.

Definition writes_within {A : Type} (P : jsstring -> Prop) (m : cmd A) : Prop :=
  forall log, writes_only P log -> writes_only P (fst (m log)).

(** The two files of a dry run, named after the configuration file. *)
Definition registration_path (configPath : jsstring) : jsstring :=
  replace_first configPath (str ".json") (str "-registration.json").

Definition expected_hashes_path (configPath : jsstring) : jsstring :=
  replace_first configPath (str ".json") (str "-expected-hashes.json").

(** Options of the update command that ask for the transaction in a file. *)
Definition to_file : update_opts :=
  mkUpdateOpts (VStr (str "/cfg.json")) false false (VStr (str "/tx.json")) false false.

(** The first document, in the order of the loop, whose read fails with
    another error than ENOENT. *)
Fixpoint first_failure (w : world) (workspacePath : jsstring)
    (files : list jsstring) : option js_error :=
  match files with
  | [] => None
  | f :: rest =>
      match readFile w (path_join w workspacePath f) with
      | Ok _ => first_failure w workspacePath rest
      | Err e =>
          if code_is e (str "ENOENT") then first_failure w workspacePath rest
          else Some e
      end
  end.

(** Whether all three documents of a workspace can be read. *)
Definition complete (w : world) (workspacePath : jsstring) : bool :=
  forallb (fun f => match readFile w (path_join w workspacePath f) with
                    | Ok _ => true
                    | Err _ => false
                    end)
          IDENTITY_FILES.

(** A registration that records the hashes of the three documents of the
    complete workspace, and the options of a verification against the
    chain. *)
Definition registered_documents : jsval :=
  VObj [(str "identityFiles",
         VObj [(str "SOUL.md", VStr (keccak256 [x73; x6f; x75; x6c]));
               (str "USER.md", VStr (keccak256 [x75; x73; x65; x72]));
               (str "IDENTITY.md", VStr (keccak256 [x69; x64]))])].

Definition on_chain (workspace : jsstring) (agentId : Z) : verify_opts :=
  mkVerifyOpts (VStr workspace) (VNum agentId) VNull false VNull false false false.

(** The reads of a chain on which no account exists and no metadata is
    set. *)
Definition bare_chain : ChainClientAccounts.chain_reads :=
  ChainClientAccounts.mkReads
    (fun _ _ _ _ _ => Ok (str "0x3333333333333333333333333333333333333333"))
    (fun _ => Ok VUndef)
    (fun _ _ => Err network_error).

(* ------------------------------------------------------------------ *)
(** ** The causes of the exit codes of the verification command

    What a run of [scripts/verify-identity.mjs] ends on, told by what the
    environment holds: the files, the answers of the chain and of the
    network. *)






















(* ================================================================== *)
(** * Properties *)

(** ** Test vectors of the two digests (FIPS 202 and the Keccak team's) *)

Example sha3_256_empty :
  hex_of_bytes (Keccak.sha3_256 []) =
  str "a7ffc6f8bf1ed76651c14756a061d662f580ff4de43b49fa82d80a4b80f8434a".
Proof. vm_compute. reflexivity. Qed.

Example sha3_256_abc :
  hex_of_bytes (Keccak.sha3_256 [x61; x62; x63]) =
  str "3a985da74fe225b2045c172d6bd390bd855f086e3e9d525b46bfe24511431532".
Proof. vm_compute. reflexivity. Qed.

Example keccak_256_empty :
  hex_of_bytes (Keccak.keccak_256 []) =
  str "c5d2460186f7233c927e7db2dcc703c0e500b653ca82273b7bfad8045d85a470".
Proof. vm_compute. reflexivity. Qed.

Example keccak_256_abc :
  hex_of_bytes (Keccak.keccak_256 [x61; x62; x63]) =
  str "4e03657aea45a94fc7d47ba826c8d667c0d1e6e33a64a036ec44f58fa12d6c45".
Proof. vm_compute. reflexivity. Qed.


(* ------------------------------------------------------------------ *)
(** ** Strings and property lists *)

Lemma jsstring_eqb_refl (s : jsstring) : jsstring_eqb s s = true.
Proof.
  induction s as [|c s IH]; simpl; [reflexivity|].
  rewrite Z.eqb_refl, IH. reflexivity.
Qed.

Lemma jsstring_eqb_eq (a b : jsstring) : jsstring_eqb a b = true <-> a = b.
Proof.
  split.
  - revert b. induction a as [|x a IH]; destruct b as [|y b]; simpl;
      try discriminate; [reflexivity|].
    intros H. apply andb_true_iff in H. destruct H as [Hxy Hab].
    apply Z.eqb_eq in Hxy. apply IH in Hab. congruence.
  - intros ->. apply jsstring_eqb_refl.
Qed.

Lemma jsstring_eqb_neq (a b : jsstring) : jsstring_eqb a b = false <-> a <> b.
Proof.
  split.
  - intros H E. apply jsstring_eqb_eq in E. congruence.
  - intros H. destruct (jsstring_eqb a b) eqn:E; [|reflexivity].
    apply jsstring_eqb_eq in E. contradiction.
Qed.

Lemma IDENTITY_FILES_cases (f : jsstring) :
  In f IDENTITY_FILES ->
  f = str "SOUL.md" \/ f = str "USER.md" \/ f = str "IDENTITY.md".
Proof.
  unfold IDENTITY_FILES. simpl. intros [H|[H|[H|[]]]]; auto.
Qed.

(* ------------------------------------------------------------------ *)
(** ** The hashing engine *)

Lemma hex_of_bytes_length (bs : list Z) :
  length (hex_of_bytes bs) = (2 * length bs)%nat.
Proof.
  induction bs as [|b bs IH]; simpl; [reflexivity|]. rewrite IH. lia.
Qed.

Lemma sha3_256_length (data : buffer) : length (Keccak.sha3_256 data) = 32%nat.
Proof. reflexivity. Qed.

Lemma keccak256_length (data : buffer) : length (keccak256 data) = 66%nat.
Proof.
  unfold keccak256. rewrite length_app, hex_of_bytes_length, sha3_256_length.
  reflexivity.
Qed.

Lemma keccak256_cons (data : buffer) :
  exists c h, keccak256 data = c :: h.
Proof.
  exists 48, (120 :: hex_of_bytes (Keccak.sha3_256 data)). reflexivity.
Qed.

Lemma ZERO_HASH_length : length ZERO_HASH = 66%nat.
Proof. reflexivity. Qed.

Lemma hash_one_eq (w : world) (ws : jsstring) results f :
  hash_one w ws results f =
  (e <- read_entry w ws f ;; Ret (set_prop f e results)).
Proof.
  unfold hash_one, read_entry.
  destruct (readFile w (path_join w ws f)) as [content|e]; simpl; [reflexivity|].
  destruct (code_is e (str "ENOENT")); reflexivity.
Qed.

Lemma read_entry_inv (w : world) (ws f : jsstring) (e : file_entry) :
  read_entry w ws f = Ret e ->
  (exists content,
      readFile w (path_join w ws f) = Ok content /\
      e = mkEntry (Some (keccak256 content)) (Z.of_nat (length content)) true
                  (path_join w ws f)) \/
  (exists err,
      readFile w (path_join w ws f) = Err err /\
      code_is err (str "ENOENT") = true /\
      e = mkEntry None 0 false (path_join w ws f)).
Proof.
  unfold read_entry.
  destruct (readFile w (path_join w ws f)) as [content|err].
  - intros H. injection H as <-. left. eauto.
  - destruct (code_is err (str "ENOENT")) eqn:E; [|discriminate].
    intros H. injection H as <-. right. eauto.
Qed.

Lemma read_entry_no_exit (w : world) (ws f : jsstring) (c : Z) :
  read_entry w ws f <> Exit c.
Proof.
  unfold read_entry.
  destruct (readFile w (path_join w ws f)) as [content|err]; [discriminate|].
  destruct (code_is err (str "ENOENT")); discriminate.
Qed.

Lemma contribution_read_entry (w : world) (ws f : jsstring) (e : file_entry) :
  read_entry w ws f = Ret e ->
  match fe_hash e with
  | Some (c :: h) => c :: h
  | Some [] => ZERO_HASH
  | None => ZERO_HASH
  end = contribution e.
Proof.
  intros H. apply read_entry_inv in H.
  destruct H as [(content & _ & ->)|(err & _ & _ & ->)]; unfold contribution;
    cbn [fe_hash fe_exists].
  - destruct (keccak256_cons content) as (a & h & ->). reflexivity.
  - reflexivity.
Qed.

(** The loop of [hashIdentityFiles], unrolled over the three names. *)
Lemma hashIdentityFiles_eq (w : world) (ws : jsstring) :
  hashIdentityFiles w ws =
  (e1 <- read_entry w ws (str "SOUL.md") ;;
   e2 <- read_entry w ws (str "USER.md") ;;
   e3 <- read_entry w ws (str "IDENTITY.md") ;;
   Ret (mkResults
          [(str "SOUL.md", e1); (str "USER.md", e2); (str "IDENTITY.md", e3)]
          (mkComposite
             (keccak256 (utf8_encode (contribution e1 ++ contribution e2
                                      ++ contribution e3)))
             IDENTITY_FILES))).
Proof.
  unfold hashIdentityFiles, IDENTITY_FILES at 1.
  cbn [for_of]. rewrite hash_one_eq.
  destruct (read_entry w ws (str "SOUL.md")) as [e1| |] eqn:R1;
    cbn [bind]; try reflexivity.
  rewrite hash_one_eq.
  destruct (read_entry w ws (str "USER.md")) as [e2| |] eqn:R2;
    cbn [bind]; try reflexivity.
  rewrite hash_one_eq.
  destruct (read_entry w ws (str "IDENTITY.md")) as [e3| |] eqn:R3;
    cbn [bind]; try reflexivity.
  unfold IDENTITY_FILES, hash_or_zero.
  cbn -[keccak256 ZERO_HASH utf8_encode contribution].
  rewrite (contribution_read_entry _ _ _ _ R1), (contribution_read_entry _ _ _ _ R2),
    (contribution_read_entry _ _ _ _ R3), app_nil_r.
  reflexivity.
Qed.

Lemma lookup_three {A : Type} (e1 e2 e3 : A) (f : jsstring) :
  In f IDENTITY_FILES ->
  lookup f [(str "SOUL.md", e1); (str "USER.md", e2); (str "IDENTITY.md", e3)] =
  Some (if jsstring_eqb f (str "SOUL.md") then e1
        else if jsstring_eqb f (str "USER.md") then e2 else e3).
Proof.
  intros H. apply IDENTITY_FILES_cases in H. destruct H as [->|[->| ->]]; reflexivity.
Qed.

Lemma read_entry_ok (w : world) (ws f : jsstring) :
  (forall e, readFile w (path_join w ws f) = Err e -> code_is e (str "ENOENT") = true) ->
  read_entry w ws f =
  Ret (match readFile w (path_join w ws f) with
       | Ok content =>
           mkEntry (Some (keccak256 content)) (Z.of_nat (length content)) true
                   (path_join w ws f)
       | Err _ => mkEntry None 0 false (path_join w ws f)
       end).
Proof.
  intros H. unfold read_entry.
  destruct (readFile w (path_join w ws f)) as [content|e]; [reflexivity|].
  rewrite (H e eq_refl). reflexivity.
Qed.

Lemma read_entry_throw (w : world) (ws f : jsstring) (e : js_error) :
  readFile w (path_join w ws f) = Err e ->
  code_is e (str "ENOENT") = false ->
  read_entry w ws f = Throw e.
Proof. intros H E. unfold read_entry. rewrite H, E. reflexivity. Qed.

Lemma read_entry_cases (w : world) (ws f : jsstring) :
  (exists e, read_entry w ws f = Ret e) \/
  (exists err, readFile w (path_join w ws f) = Err err /\
               code_is err (str "ENOENT") = false /\
               read_entry w ws f = Throw err).
Proof.
  unfold read_entry.
  destruct (readFile w (path_join w ws f)) as [content|err]; [left; eauto|].
  destruct (code_is err (str "ENOENT")) eqn:E; [left; eauto|right; eauto].
Qed.

(** Whether [hashIdentityFiles] returns is decided by the three reads. *)
Lemma hashIdentityFiles_returns (w : world) (ws : jsstring) :
  (forall f e, In f IDENTITY_FILES ->
     readFile w (path_join w ws f) = Err e -> code_is e (str "ENOENT") = true) ->
  exists r, hashIdentityFiles w ws = Ret r.
Proof.
  intros H. rewrite hashIdentityFiles_eq.
  rewrite !read_entry_ok by (intros e; apply H; unfold IDENTITY_FILES; simpl; auto).
  cbn [bind]. eauto.
Qed.

Lemma hashIdentityFiles_no_exit (w : world) (ws : jsstring) (c : Z) :
  hashIdentityFiles w ws <> Exit c.
Proof.
  rewrite hashIdentityFiles_eq.
  destruct (read_entry w ws (str "SOUL.md")) eqn:R1; cbn [bind];
    [|discriminate|exfalso; exact (read_entry_no_exit _ _ _ _ R1)].
  destruct (read_entry w ws (str "USER.md")) eqn:R2; cbn [bind];
    [|discriminate|exfalso; exact (read_entry_no_exit _ _ _ _ R2)].
  destruct (read_entry w ws (str "IDENTITY.md")) eqn:R3; cbn [bind];
    [discriminate|discriminate|exfalso; exact (read_entry_no_exit _ _ _ _ R3)].
Qed.

(** The entries of a returned snapshot are those of the three reads. *)
Lemma hashIdentityFiles_inv (w : world) (ws : jsstring) (r : hash_results) :
  hashIdentityFiles w ws = Ret r ->
  exists e1 e2 e3,
    read_entry w ws (str "SOUL.md") = Ret e1 /\
    read_entry w ws (str "USER.md") = Ret e2 /\
    read_entry w ws (str "IDENTITY.md") = Ret e3 /\
    r = mkResults
          [(str "SOUL.md", e1); (str "USER.md", e2); (str "IDENTITY.md", e3)]
          (mkComposite
             (keccak256 (utf8_encode (contribution e1 ++ contribution e2
                                      ++ contribution e3)))
             IDENTITY_FILES).
Proof.
  rewrite hashIdentityFiles_eq.
  destruct (read_entry w ws (str "SOUL.md")) as [e1| |]; cbn [bind]; try discriminate.
  destruct (read_entry w ws (str "USER.md")) as [e2| |]; cbn [bind]; try discriminate.
  destruct (read_entry w ws (str "IDENTITY.md")) as [e3| |]; cbn [bind]; try discriminate.
  intros H. injection H as <-. exists e1, e2, e3. auto.
Qed.

(** C7. [hashIdentityFiles] tells absence from other read failures.  When
    every failing read of the three documents fails with ENOENT the call
    returns, and each document has the entry of its read: hash and
    [exists = true] for a document that was read, [hash = null] and
    [exists = false] for one that was not found.  When the read of some
    document fails for another reason, the whole call fails with the error
    of such a read, which is the given one when it is the only one. *)
Theorem hashIdentityFiles_absence_or_failure (w : world) (ws : jsstring) :
  ((forall f e, In f IDENTITY_FILES ->
      readFile w (path_join w ws f) = Err e -> code_is e (str "ENOENT") = true) ->
   exists r,
     hashIdentityFiles w ws = Ret r /\
     forall f, In f IDENTITY_FILES ->
       lookup f (hr_files r) =
       Some (match readFile w (path_join w ws f) with
             | Ok content =>
                 mkEntry (Some (keccak256 content)) (Z.of_nat (length content)) true
                         (path_join w ws f)
             | Err _ => mkEntry None 0 false (path_join w ws f)
             end)) /\
  (forall f e, In f IDENTITY_FILES ->
     readFile w (path_join w ws f) = Err e ->
     code_is e (str "ENOENT") = false ->
     exists f' e',
       In f' IDENTITY_FILES /\
       readFile w (path_join w ws f') = Err e' /\
       code_is e' (str "ENOENT") = false /\
       hashIdentityFiles w ws = Throw e' /\
       ((forall g x, In g IDENTITY_FILES ->
           readFile w (path_join w ws g) = Err x ->
           code_is x (str "ENOENT") = false -> g = f) -> e' = e)).
Proof.
  split.
  - intros H. rewrite hashIdentityFiles_eq.
    rewrite !read_entry_ok by (intros e; apply H; unfold IDENTITY_FILES; simpl; auto).
    cbn [bind]. eexists. split; [reflexivity|].
    intros f Hf. cbn [hr_files]. rewrite (lookup_three _ _ _ f Hf).
    apply IDENTITY_FILES_cases in Hf. destruct Hf as [->|[->| ->]]; reflexivity.
  - intros f e Hf Hread Hcode.
    assert (Hsoul : In (str "SOUL.md") IDENTITY_FILES) by (simpl; auto).
    assert (Huser : In (str "USER.md") IDENTITY_FILES) by (simpl; auto).
    assert (Hid : In (str "IDENTITY.md") IDENTITY_FILES) by (simpl; auto).
    assert (Hsame : forall g x,
               readFile w (path_join w ws g) = Err x -> g = f -> x = e)
      by (intros g x Hx ->; congruence).
    rewrite hashIdentityFiles_eq.
    destruct (read_entry_cases w ws (str "SOUL.md")) as [[e1 R1]|(x1 & X1 & C1 & R1)];
      rewrite R1; cbn [bind].
    2:{ exists (str "SOUL.md"), x1. repeat split; auto.
        intros Honly. eapply Hsame; eauto. }
    destruct (read_entry_cases w ws (str "USER.md")) as [[e2 R2]|(x2 & X2 & C2 & R2)];
      rewrite R2; cbn [bind].
    2:{ exists (str "USER.md"), x2. repeat split; auto.
        intros Honly. eapply Hsame; eauto. }
    destruct (read_entry_cases w ws (str "IDENTITY.md")) as [[e3 R3]|(x3 & X3 & C3 & R3)];
      rewrite R3; cbn [bind].
    2:{ exists (str "IDENTITY.md"), x3. repeat split; auto.
        intros Honly. eapply Hsame; eauto. }
    exfalso.
    apply IDENTITY_FILES_cases in Hf. destruct Hf as [->|[->| ->]].
    + apply read_entry_inv in R1.
      destruct R1 as [(c & Hc & _)|(x & Hx & Hcx & _)]; congruence.
    + apply read_entry_inv in R2.
      destruct R2 as [(c & Hc & _)|(x & Hx & Hcx & _)]; congruence.
    + apply read_entry_inv in R3.
      destruct R3 as [(c & Hc & _)|(x & Hx & Hcx & _)]; congruence.
Qed.

Lemma hashIdentityFiles_absence_or_failure_witness :
  (exists r,
     hashIdentityFiles (sample_world two_documents (Err network_error)) (str "/ws") = Ret r /\
     lookup (str "USER.md") (hr_files r) =
     Some (mkEntry None 0 false (str "/ws/USER.md"))) /\
  hashIdentityFiles (sample_world unreadable_user (Err network_error)) (str "/ws")
  = Throw EACCES.
Proof.
  split.
  - destruct (hashIdentityFiles_absence_or_failure
                (sample_world two_documents (Err network_error)) (str "/ws"))
      as [H _].
    destruct H as (r & Hr & Hfiles).
    + intros f e Hf. apply IDENTITY_FILES_cases in Hf.
      destruct Hf as [->|[->| ->]]; vm_compute; intros E;
        try discriminate; injection E as <-; reflexivity.
    + exists r. split; [exact Hr|].
      rewrite (Hfiles (str "USER.md")) by (vm_compute; auto).
      reflexivity.
  - destruct (hashIdentityFiles_absence_or_failure
                (sample_world unreadable_user (Err network_error)) (str "/ws"))
      as [_ H].
    destruct (H (str "USER.md") EACCES) as (f' & e' & _ & _ & _ & Hthrow & Hsame).
    + vm_compute; auto.
    + reflexivity.
    + reflexivity.
    + rewrite Hthrow. f_equal. apply Hsame.
      intros g x Hg. apply IDENTITY_FILES_cases in Hg.
      destruct Hg as [->|[->| ->]]; vm_compute; intros E; try discriminate;
        reflexivity.
Defined.

(* ------------------------------------------------------------------ *)
(** ** The composite hash *)

Lemma contribution_digest (w : world) (ws f : jsstring) (e : file_entry) :
  read_entry w ws f = Ret e -> contribution e = document_digest w ws f.
Proof.
  intros H. unfold document_digest. apply read_entry_inv in H.
  destruct H as [(content & -> & ->)|(err & -> & _ & ->)]; reflexivity.
Qed.

Lemma document_digest_length (w : world) (ws f : jsstring) :
  length (document_digest w ws f) = 66%nat.
Proof.
  unfold document_digest.
  destruct (readFile w (path_join w ws f)); [apply keccak256_length|reflexivity].
Qed.

Lemma app_inj_length {A : Type} (a a' b b' : list A) :
  length a = length a' -> a ++ b = a' ++ b' -> a = a' /\ b = b'.
Proof.
  revert a'. induction a as [|x a IH]; destruct a' as [|x' a']; simpl;
    try discriminate; intros Hlen H.
  - auto.
  - injection H as -> H. injection Hlen as Hlen.
    destruct (IH a' Hlen H) as [-> ->]. auto.
Qed.

Lemma composite_formula (w : world) (ws : jsstring) (r : hash_results) :
  hashIdentityFiles w ws = Ret r ->
  ce_hash (hr_composite r) =
    keccak256 (utf8_encode (document_digest w ws (str "SOUL.md") ++
                            document_digest w ws (str "USER.md") ++
                            document_digest w ws (str "IDENTITY.md"))).
Proof.
  intros H. apply hashIdentityFiles_inv in H.
  destruct H as (e1 & e2 & e3 & R1 & R2 & R3 & ->).
  cbn [hr_composite ce_hash].
  rewrite (contribution_digest _ _ _ _ R1), (contribution_digest _ _ _ _ R2),
    (contribution_digest _ _ _ _ R3). reflexivity.
Qed.

Lemma digests_of_concatenation (w w' : world) (ws ws' : jsstring) :
  document_digest w ws (str "SOUL.md") ++ document_digest w ws (str "USER.md")
    ++ document_digest w ws (str "IDENTITY.md") =
  document_digest w' ws' (str "SOUL.md") ++ document_digest w' ws' (str "USER.md")
    ++ document_digest w' ws' (str "IDENTITY.md") ->
  forall f, In f IDENTITY_FILES ->
    document_digest w ws f = document_digest w' ws' f.
Proof.
  intros Heq f Hf.
  apply app_inj_length in Heq;
    [|rewrite !document_digest_length; reflexivity].
  destruct Heq as [E1 Heq].
  apply app_inj_length in Heq;
    [|rewrite !document_digest_length; reflexivity].
  destruct Heq as [E2 E3].
  apply IDENTITY_FILES_cases in Hf. destruct Hf as [->|[->| ->]]; assumption.
Qed.

(** C2. The composite of a snapshot is the hash of the concatenation of the
    digest strings of SOUL.md, USER.md and IDENTITY.md, in that order, the
    digest string of a document being its hash when it exists and "0x"
    followed by 64 zeros when it is missing.  The entry of each document
    carries the same hash, or [null].  The concatenation determines the
    three digest strings in their order: two workspaces whose hashed inputs
    agree have the same digest string for every document.

    The composite follows its inputs.  Two workspaces with the same
    composite have the same digest string for every document, unless the
    hash function itself collides on two different inputs.  And on the
    complete workspace the composite does change: when a document is
    edited, when a document is removed, and when the contents of two
    documents are exchanged; an empty document does not count as a missing
    one, its digest string is not the placeholder. *)
Theorem composite_hash_is_hash_of_digests (w : world) (ws : jsstring)
    (r : hash_results) :
  hashIdentityFiles w ws = Ret r ->
  ce_hash (hr_composite r) =
    keccak256 (utf8_encode (document_digest w ws (str "SOUL.md") ++
                            document_digest w ws (str "USER.md") ++
                            document_digest w ws (str "IDENTITY.md"))) /\
  ZERO_HASH =
    str "0x0000000000000000000000000000000000000000000000000000000000000000" /\
  (forall f, In f IDENTITY_FILES ->
     exists e, lookup f (hr_files r) = Some e /\
       match readFile w (path_join w ws f) with
       | Ok content => fe_exists e = true /\ fe_hash e = Some (keccak256 content)
       | Err _ => fe_exists e = false /\ fe_hash e = None
       end) /\
  (forall w' ws',
     document_digest w ws (str "SOUL.md") ++ document_digest w ws (str "USER.md")
       ++ document_digest w ws (str "IDENTITY.md") =
     document_digest w' ws' (str "SOUL.md") ++ document_digest w' ws' (str "USER.md")
       ++ document_digest w' ws' (str "IDENTITY.md") ->
     forall f, In f IDENTITY_FILES ->
       document_digest w ws f = document_digest w' ws' f) /\
  (forall w' ws' r',
     hashIdentityFiles w' ws' = Ret r' ->
     ce_hash (hr_composite r) = ce_hash (hr_composite r') ->
     (forall f, In f IDENTITY_FILES ->
        document_digest w ws f = document_digest w' ws' f) \/
     (exists a b : jsstring,
        a <> b /\ keccak256 (utf8_encode a) = keccak256 (utf8_encode b))) /\
  differ (composite_of three_documents) (composite_of edited_documents) /\
  differ (composite_of three_documents) (composite_of two_documents) /\
  differ (composite_of three_documents) (composite_of exchanged_documents) /\
  keccak256 [] <> ZERO_HASH.
Proof.
  intros H. pose proof (composite_formula _ _ _ H) as F.
  split; [exact F|].
  split; [reflexivity|].
  split.
  { apply hashIdentityFiles_inv in H.
    destruct H as (e1 & e2 & e3 & R1 & R2 & R3 & ->).
    intros f Hf. cbn [hr_files].
    apply IDENTITY_FILES_cases in Hf.
    destruct Hf as [->|[->| ->]];
      [exists e1; apply read_entry_inv in R1;
         destruct R1 as [(c & Hc & ->)|(x & Hc & _ & ->)]
      |exists e2; apply read_entry_inv in R2;
         destruct R2 as [(c & Hc & ->)|(x & Hc & _ & ->)]
      |exists e3; apply read_entry_inv in R3;
         destruct R3 as [(c & Hc & ->)|(x & Hc & _ & ->)]];
      rewrite Hc; (split; [reflexivity|split; reflexivity]). }
  split; [intros w' ws'; apply digests_of_concatenation|].
  split.
  { intros w' ws' r' H' Heq.
    rewrite F, (composite_formula _ _ _ H') in Heq.
    destruct (list_eq_dec Z.eq_dec
                (document_digest w ws (str "SOUL.md")
                 ++ document_digest w ws (str "USER.md")
                 ++ document_digest w ws (str "IDENTITY.md"))
                (document_digest w' ws' (str "SOUL.md")
                 ++ document_digest w' ws' (str "USER.md")
                 ++ document_digest w' ws' (str "IDENTITY.md"))) as [E|N].
    - left. apply digests_of_concatenation. exact E.
    - right. eexists. eexists. split; [exact N|exact Heq]. }
  split; [vm_compute; discriminate|].
  split; [vm_compute; discriminate|].
  split; [vm_compute; discriminate|].
  vm_compute. discriminate.
Qed.

Lemma composite_hash_is_hash_of_digests_witness :
  (exists r,
     hashIdentityFiles (sample_world two_documents (Err network_error)) (str "/ws")
       = Ret r /\
     ce_hash (hr_composite r) =
       keccak256 (utf8_encode (keccak256 [x73; x6f; x75; x6c] ++ ZERO_HASH ++
                               keccak256 [x69; x64]))) /\
  differ (composite_of three_documents) (composite_of two_documents).
Proof.
  destruct (hashIdentityFiles (sample_world two_documents (Err network_error))
              (str "/ws")) as [r|e|c] eqn:E.
  - destruct (composite_hash_is_hash_of_digests _ _ _ E)
      as (H & _ & _ & _ & _ & _ & D & _).
    split; [|exact D].
    exists r. split; [reflexivity|].
    rewrite H. vm_compute. reflexivity.
  - exfalso. revert E. vm_compute. discriminate.
  - exfalso. revert E. vm_compute. discriminate.
Defined.

(* ------------------------------------------------------------------ *)
(** ** Verification *)

Lemma get_prop_ok (v : jsval) (k : jsstring) :
  v <> VUndef -> v <> VNull -> get_prop v k = Ret (get_prop_opt v k).
Proof. destruct v; intros H1 H2; try reflexivity; contradiction. Qed.

Lemma get_prop_truthy (v : jsval) (k : jsstring) :
  truthy v = true -> get_prop v k = Ret (get_prop_opt v k).
Proof. destruct v; simpl; intros H; try reflexivity; discriminate. Qed.

Lemma file_status_result_of (e : file_entry) (x : jsval) :
  file_status (file_result_of e x) = classification e x.
Proof.
  unfold file_result_of, classification.
  destruct (negb (fe_exists e)); [reflexivity|].
  destruct (negb (truthy x)); [reflexivity|].
  destruct (hash_strict_eq (fe_hash e) x); reflexivity.
Qed.

Lemma verify_one_eq (snap : hash_results) (expected : jsval)
    (results : verify_result) (f : jsstring) (e : file_entry) :
  lookup f (hr_files snap) = Some e ->
  expected <> VUndef -> expected <> VNull ->
  verify_one snap expected results f =
  Ret (mkVerify
         (vr_verified results && passes (classification e (get_prop_opt expected f)))
         (set_prop f (file_result_of e (get_prop_opt expected f)) (vr_files results))
         (vr_composite results) (vr_timestamp results)).
Proof.
  intros He H1 H2. unfold verify_one, local_entry. rewrite He. cbn [bind].
  rewrite (get_prop_ok _ _ H1 H2). cbn [bind].
  unfold file_result_of, classification.
  destruct (negb (fe_exists e)); cbn [passes]; [rewrite andb_false_r; reflexivity|].
  destruct (negb (truthy (get_prop_opt expected f))); cbn [passes];
    [rewrite andb_true_r; reflexivity|].
  destruct (hash_strict_eq (fe_hash e) (get_prop_opt expected f)); cbn [passes];
    [rewrite andb_true_r|rewrite andb_false_r]; reflexivity.
Qed.

(** [verifyIdentityFiles] on a snapshot, unrolled. *)
Lemma verifyIdentityFiles_eq (w : world) (ws : jsstring) (expected : jsval)
    (e1 e2 e3 : file_entry) (c : composite_entry) :
  hashIdentityFiles w ws =
    Ret (mkResults
           [(str "SOUL.md", e1); (str "USER.md", e2); (str "IDENTITY.md", e3)] c) ->
  expected <> VUndef -> expected <> VNull ->
  verifyIdentityFiles w ws expected =
  Ret (mkVerify
         (passes (classification e1 (get_prop_opt expected (str "SOUL.md")))
          && passes (classification e2 (get_prop_opt expected (str "USER.md")))
          && passes (classification e3 (get_prop_opt expected (str "IDENTITY.md")))
          && match composite_result_of (ce_hash c)
                     (get_prop_opt expected (str "_composite")) with
             | Some cr => passes (composite_status cr)
             | None => true
             end)
         [(str "SOUL.md", file_result_of e1 (get_prop_opt expected (str "SOUL.md")));
          (str "USER.md", file_result_of e2 (get_prop_opt expected (str "USER.md")));
          (str "IDENTITY.md",
             file_result_of e3 (get_prop_opt expected (str "IDENTITY.md")))]
         (composite_result_of (ce_hash c) (get_prop_opt expected (str "_composite")))
         (verify_time w)).
Proof.
  intros H H1 H2. unfold verifyIdentityFiles. rewrite H. cbn [bind].
  unfold IDENTITY_FILES. cbn [for_of].
  rewrite (verify_one_eq _ _ _ _ e1) by (reflexivity || assumption). cbn [bind].
  rewrite (verify_one_eq _ _ _ _ e2) by (reflexivity || assumption). cbn [bind].
  rewrite (verify_one_eq _ _ _ _ e3) by (reflexivity || assumption). cbn [bind].
  rewrite (get_prop_ok _ _ H1 H2). cbn [bind].
  cbn [vr_verified vr_files vr_composite vr_timestamp hr_composite andb].
  unfold composite_result_of.
  destruct (truthy (get_prop_opt expected (str "_composite"))).
  - destruct (str_strict_eq (ce_hash c) (get_prop_opt expected (str "_composite")));
      cbn [composite_status passes];
      [rewrite andb_true_r|rewrite andb_false_r]; reflexivity.
  - rewrite andb_true_r. reflexivity.
Qed.

Lemma passes_iff (s : status) :
  passes s = true <-> s = VERIFIED \/ s = NO_CHAIN_HASH.
Proof.
  destruct s; simpl; split; auto; intros H; try discriminate;
    destruct H; discriminate.
Qed.

Lemma str_strict_eq_iff (s : jsstring) (v : jsval) :
  str_strict_eq s v = true <-> v = VStr s.
Proof.
  destruct v; cbn [str_strict_eq]; split; intros H; try discriminate.
  - apply jsstring_eqb_eq in H. congruence.
  - injection H as ->. apply jsstring_eqb_refl.
Qed.

Lemma str_strict_eq_false (s : jsstring) (v : jsval) :
  str_strict_eq s v = false <-> v <> VStr s.
Proof.
  split.
  - intros H E. apply str_strict_eq_iff in E. congruence.
  - intros N. destruct (str_strict_eq s v) eqn:E; [|reflexivity].
    apply str_strict_eq_iff in E. contradiction.
Qed.

(** The status of a document whose entry in the snapshot is [e]: by what
    reading it gives and by whether the expected value is its hash. *)
Lemma classification_by_content (w : world) (ws f : jsstring) (e : file_entry)
    (x : jsval) :
  read_entry w ws f = Ret e ->
  match readFile w (path_join w ws f) with
  | Err _ => classification e x = MISSING
  | Ok content =>
      if truthy x then
        (x = VStr (keccak256 content) /\ classification e x = VERIFIED) \/
        (x <> VStr (keccak256 content) /\ classification e x = MISMATCH)
      else classification e x = NO_CHAIN_HASH
  end.
Proof.
  intros R. apply read_entry_inv in R.
  destruct R as [(content & -> & ->)|(err & -> & _ & ->)]; [|reflexivity].
  unfold classification. cbn [fe_exists fe_hash negb hash_strict_eq].
  destruct (truthy x); cbn [negb]; [|reflexivity].
  destruct (str_strict_eq (keccak256 content) x) eqn:E.
  - left. split; [apply str_strict_eq_iff; exact E|reflexivity].
  - right. split; [apply str_strict_eq_false; exact E|reflexivity].
Qed.

(** C3. On a workspace that can be hashed, against an object of expected
    hashes, [verifyIdentityFiles] returns a result in which each of the
    three documents has exactly one status: MISSING when the document is
    absent locally, whatever is expected; NO_CHAIN_HASH when it exists and
    no expected hash is recorded; VERIFIED when the expected value is the
    hash of its content; MISMATCH when an expected value is recorded and is
    not that hash.  The composite is checked when an expected composite is
    supplied, and is VERIFIED when that is the composite of the snapshot,
    MISMATCH when it is not.  [verified] is true exactly when every document
    is VERIFIED or NO_CHAIN_HASH and the composite, if checked, is
    VERIFIED. *)
Theorem verifyIdentityFiles_classifies (w : world) (ws : jsstring)
    (expected : jsval) (snap : hash_results) :
  hashIdentityFiles w ws = Ret snap ->
  expected <> VUndef -> expected <> VNull ->
  exists r,
    verifyIdentityFiles w ws expected = Ret r /\
    (forall f, In f IDENTITY_FILES ->
       exists fr,
         lookup f (vr_files r) = Some fr /\
         match readFile w (path_join w ws f) with
         | Err _ => file_status fr = MISSING
         | Ok content =>
             if truthy (get_prop_opt expected f) then
               (get_prop_opt expected f = VStr (keccak256 content) /\
                file_status fr = VERIFIED) \/
               (get_prop_opt expected f <> VStr (keccak256 content) /\
                file_status fr = MISMATCH)
             else file_status fr = NO_CHAIN_HASH
         end) /\
    (truthy (get_prop_opt expected (str "_composite")) = false ->
       vr_composite r = None) /\
    (truthy (get_prop_opt expected (str "_composite")) = true ->
       exists cr,
         vr_composite r = Some cr /\
         ((get_prop_opt expected (str "_composite")
             = VStr (ce_hash (hr_composite snap)) /\
           composite_status cr = VERIFIED) \/
          (get_prop_opt expected (str "_composite")
             <> VStr (ce_hash (hr_composite snap)) /\
           composite_status cr = MISMATCH))) /\
    (vr_verified r = true <->
       (forall f fr, In f IDENTITY_FILES -> lookup f (vr_files r) = Some fr ->
          file_status fr = VERIFIED \/ file_status fr = NO_CHAIN_HASH) /\
       (forall cr, vr_composite r = Some cr -> composite_status cr = VERIFIED)).
Proof.
  intros H H1 H2.
  destruct (hashIdentityFiles_inv _ _ _ H) as (e1 & e2 & e3 & R1 & R2 & R3 & Hsnap).
  subst snap.
  eexists. split; [apply (verifyIdentityFiles_eq _ _ _ _ _ _ _ H H1 H2)|].
  cbn [vr_files vr_composite vr_verified hr_files hr_composite ce_hash].
  split; [|split; [|split]].
  - intros f Hf.
    apply IDENTITY_FILES_cases in Hf.
    destruct Hf as [->|[->| ->]]; eexists; (split; [reflexivity|]);
      rewrite file_status_result_of; apply classification_by_content; assumption.
  - intros Hc. unfold composite_result_of. rewrite Hc. reflexivity.
  - intros Hc. unfold composite_result_of. rewrite Hc.
    eexists. split; [reflexivity|].
    destruct (str_strict_eq _ _) eqn:E; cbn [composite_status].
    + left. split; [apply str_strict_eq_iff; exact E|reflexivity].
    + right. split; [apply str_strict_eq_false; exact E|reflexivity].
  - rewrite !andb_true_iff, !passes_iff. split.
    + intros [[[P1 P2] P3] Pc]. split.
      * intros f fr Hf Hfr.
        apply IDENTITY_FILES_cases in Hf.
        destruct Hf as [->|[->| ->]]; cbn in Hfr; injection Hfr as <-;
          rewrite file_status_result_of; assumption.
      * intros cr Hcr. rewrite Hcr in Pc. apply passes_iff in Pc.
        destruct Pc as [Pc|Pc]; [assumption|].
        destruct cr; discriminate.
    + intros [Hfiles Hcomp].
      repeat split.
      * rewrite <- file_status_result_of.
        apply (Hfiles (str "SOUL.md")); [simpl; auto|reflexivity].
      * rewrite <- file_status_result_of.
        apply (Hfiles (str "USER.md")); [simpl; auto|reflexivity].
      * rewrite <- file_status_result_of.
        apply (Hfiles (str "IDENTITY.md")); [simpl; auto|reflexivity].
      * destruct (composite_result_of _ _) as [cr|]; [|reflexivity].
        rewrite (Hcomp cr eq_refl). reflexivity.
Qed.

Lemma verifyIdentityFiles_classifies_witness :
  exists r,
    verifyIdentityFiles (sample_world two_documents (Err network_error)) (str "/ws")
      (VObj [(str "SOUL.md", VStr (keccak256 [x73; x6f; x75; x6c]));
             (str "USER.md", VStr (keccak256 [x75; x73; x65; x72]));
             (str "IDENTITY.md", VStr (str "0xbad"));
             (str "_composite", VStr (str "0xbad"))]) = Ret r /\
    (exists fr, lookup (str "SOUL.md") (vr_files r) = Some fr /\
                file_status fr = VERIFIED) /\
    (exists fr, lookup (str "USER.md") (vr_files r) = Some fr /\
                file_status fr = MISSING) /\
    (exists fr, lookup (str "IDENTITY.md") (vr_files r) = Some fr /\
                file_status fr = MISMATCH) /\
    (exists cr, vr_composite r = Some cr /\ composite_status cr = MISMATCH) /\
    vr_verified r = false.
Proof.
  set (w := sample_world two_documents (Err network_error)).
  set (expected := VObj [(str "SOUL.md", VStr (keccak256 [x73; x6f; x75; x6c]));
                         (str "USER.md", VStr (keccak256 [x75; x73; x65; x72]));
                         (str "IDENTITY.md", VStr (str "0xbad"));
                         (str "_composite", VStr (str "0xbad"))]).
  destruct (hashIdentityFiles w (str "/ws")) as [snap|e|c] eqn:Hs;
    [|exfalso; revert Hs; vm_compute; discriminate
     |exfalso; revert Hs; vm_compute; discriminate].
  destruct (verifyIdentityFiles_classifies w (str "/ws") expected snap Hs)
    as (r & Hr & Hfiles & _ & Hcomp & Hver); [discriminate|discriminate|].
  exists r. split; [exact Hr|].
  assert (S1 : exists fr, lookup (str "SOUL.md") (vr_files r) = Some fr /\
                          file_status fr = VERIFIED).
  { destruct (Hfiles (str "SOUL.md")) as (fr & Hfr & Hst); [simpl; auto|].
    exists fr. split; [exact Hfr|].
    change (readFile w (path_join w (str "/ws") (str "SOUL.md")))
      with (@Ok buffer [x73; x6f; x75; x6c]) in Hst.
    cbn [get_prop_opt] in Hst.
    destruct Hst as [[_ Hst]|[N _]]; [exact Hst|].
    exfalso. apply N. reflexivity. }
  assert (S2 : exists fr, lookup (str "USER.md") (vr_files r) = Some fr /\
                          file_status fr = MISSING).
  { destruct (Hfiles (str "USER.md")) as (fr & Hfr & Hst); [simpl; auto|].
    exists fr. split; [exact Hfr|exact Hst]. }
  assert (S3 : exists fr, lookup (str "IDENTITY.md") (vr_files r) = Some fr /\
                          file_status fr = MISMATCH).
  { destruct (Hfiles (str "IDENTITY.md")) as (fr & Hfr & Hst); [simpl; auto|].
    exists fr. split; [exact Hfr|].
    change (readFile w (path_join w (str "/ws") (str "IDENTITY.md")))
      with (@Ok buffer [x69; x64]) in Hst.
    destruct Hst as [[E _]|[_ Hst]]; [|exact Hst].
    exfalso. revert E. vm_compute. discriminate. }
  assert (S4 : exists cr, vr_composite r = Some cr /\ composite_status cr = MISMATCH).
  { destruct Hcomp as (cr & Hcr & Hst); [reflexivity|].
    exists cr. split; [exact Hcr|].
    destruct Hst as [[E _]|[_ Hst]]; [|exact Hst].
    exfalso. pose proof (f_equal (fun v => match v with
                                           | VStr s => length s
                                           | _ => 0%nat
                                           end) E) as L.
    cbn beta iota in L.
    assert (Hl : length (ce_hash (hr_composite snap)) = 66%nat).
    { destruct (hashIdentityFiles_inv _ _ _ Hs) as (e1 & e2 & e3 & _ & _ & _ & ->).
      apply keccak256_length. }
    rewrite Hl in L. revert L. vm_compute. discriminate. }
  split; [exact S1|]. split; [exact S2|]. split; [exact S3|]. split; [exact S4|].
  destruct (vr_verified r) eqn:V; [|reflexivity].
  exfalso. destruct (proj1 Hver eq_refl) as [Hall _].
  destruct S2 as (fr & Hfr & Hst).
  destruct (Hall (str "USER.md") fr) as [X|X]; [simpl; auto|exact Hfr| |];
    rewrite Hst in X; discriminate X.
Defined.

Example verify_mixed_statuses :
  verifyIdentityFiles (sample_world three_documents (Err network_error)) (str "/ws")
    (VObj [(str "SOUL.md", VStr (keccak256 [x73; x6f; x75; x6c]));
           (str "USER.md", VStr (str "0xbad"))]) =
  Ret (mkVerify false
         [(str "SOUL.md", FileVerified (Some (keccak256 [x73; x6f; x75; x6c])));
          (str "USER.md",
             FileMismatch (VStr (str "0xbad")) (Some (keccak256 [x75; x73; x65; x72])));
          (str "IDENTITY.md", FileNoChainHash (Some (keccak256 [x69; x64])))]
         None (str "2026-02-26T04:00:00.000Z")).
Proof. vm_compute. reflexivity. Qed.

(* ------------------------------------------------------------------ *)
(** ** Verifying a workspace against its own snapshot *)

Lemma classification_self (w : world) (ws f : jsstring) (e : file_entry) :
  read_entry w ws f = Ret e ->
  passes (classification e (opt_str (fe_hash e))) = fe_exists e.
Proof.
  intros H. apply read_entry_inv in H.
  destruct H as [(content & _ & ->)|(err & _ & _ & ->)]; [|reflexivity].
  unfold classification. cbn [fe_exists fe_hash negb opt_str].
  destruct (keccak256_cons content) as (a & h & E). rewrite E.
  cbn [truthy negb hash_strict_eq str_strict_eq].
  rewrite jsstring_eqb_refl. reflexivity.
Qed.

Lemma composite_self (h : jsstring) :
  match composite_result_of h (VStr h) with
  | Some cr => passes (composite_status cr)
  | None => true
  end = true.
Proof.
  unfold composite_result_of. destruct h as [|c h]; [reflexivity|].
  cbn [truthy str_strict_eq]. rewrite jsstring_eqb_refl. reflexivity.
Qed.

(** C4, as the code has it.  Verifying a workspace against the hashes of its
    own fresh snapshot returns, and [verified] is true exactly when all
    three documents exist: a missing document is MISSING against any
    expectation, its own included. *)
Theorem self_verification_iff_complete (w : world) (ws : jsstring)
    (snap : hash_results) :
  hashIdentityFiles w ws = Ret snap ->
  exists r,
    verifyIdentityFiles w ws (expected_hashes_of snap) = Ret r /\
    (vr_verified r = true <->
     forall f, In f IDENTITY_FILES ->
       exists e, lookup f (hr_files snap) = Some e /\ fe_exists e = true).
Proof.
  intros H.
  destruct (hashIdentityFiles_inv _ _ _ H) as (e1 & e2 & e3 & R1 & R2 & R3 & Hsnap).
  subst snap.
  eexists. split.
  - apply (verifyIdentityFiles_eq _ _ _ _ _ _ _ H); discriminate.
  - cbn [vr_verified].
    change (get_prop_opt (expected_hashes_of _) (str "SOUL.md"))
      with (opt_str (fe_hash e1)).
    change (get_prop_opt (expected_hashes_of _) (str "USER.md"))
      with (opt_str (fe_hash e2)).
    change (get_prop_opt (expected_hashes_of _) (str "IDENTITY.md"))
      with (opt_str (fe_hash e3)).
    change (get_prop_opt (expected_hashes_of _) (str "_composite"))
      with (VStr (keccak256 (utf8_encode (contribution e1 ++ contribution e2
                                          ++ contribution e3)))).
    cbn [ce_hash].
    rewrite (classification_self _ _ _ _ R1), (classification_self _ _ _ _ R2),
      (classification_self _ _ _ _ R3), composite_self, andb_true_r.
    rewrite !andb_true_iff. split.
    + intros [[X1 X2] X3] f Hf. cbn [hr_files].
      apply IDENTITY_FILES_cases in Hf.
      destruct Hf as [->|[->| ->]]; eexists; (split; [reflexivity|assumption]).
    + intros Hall. repeat split.
      * destruct (Hall (str "SOUL.md")) as (e & He & Hx); [simpl; auto|].
        cbn in He. injection He as <-. exact Hx.
      * destruct (Hall (str "USER.md")) as (e & He & Hx); [simpl; auto|].
        cbn in He. injection He as <-. exact Hx.
      * destruct (Hall (str "IDENTITY.md")) as (e & He & Hx); [simpl; auto|].
        cbn in He. injection He as <-. exact Hx.
Qed.

Lemma self_verification_iff_complete_witness :
  exists r,
    verifyIdentityFiles (sample_world three_documents (Err network_error)) (str "/ws")
      (VObj [(str "SOUL.md", VStr (keccak256 [x73; x6f; x75; x6c]));
             (str "USER.md", VStr (keccak256 [x75; x73; x65; x72]));
             (str "IDENTITY.md", VStr (keccak256 [x69; x64]));
             (str "_composite",
                VStr (keccak256 (utf8_encode (keccak256 [x73; x6f; x75; x6c] ++
                                              keccak256 [x75; x73; x65; x72] ++
                                              keccak256 [x69; x64]))))]) = Ret r /\
    vr_verified r = true.
Proof.
  destruct (self_verification_iff_complete
              (sample_world three_documents (Err network_error)) (str "/ws")
              (mkResults
                 [(str "SOUL.md",
                     mkEntry (Some (keccak256 [x73; x6f; x75; x6c])) 4 true
                             (str "/ws/SOUL.md"));
                  (str "USER.md",
                     mkEntry (Some (keccak256 [x75; x73; x65; x72])) 4 true
                             (str "/ws/USER.md"));
                  (str "IDENTITY.md",
                     mkEntry (Some (keccak256 [x69; x64])) 2 true
                             (str "/ws/IDENTITY.md"))]
                 (mkComposite
                    (keccak256 (utf8_encode (keccak256 [x73; x6f; x75; x6c] ++
                                             keccak256 [x75; x73; x65; x72] ++
                                             keccak256 [x69; x64])))
                    IDENTITY_FILES)))
    as (r & Hr & Hiff).
  - vm_compute. reflexivity.
  - exists r. split; [exact Hr|].
    apply Hiff. intros f Hf. apply IDENTITY_FILES_cases in Hf.
    destruct Hf as [->|[->| ->]]; eexists; (split; [reflexivity|reflexivity]).
Defined.

(** C4, as stated, fails on a workspace without USER.md: the snapshot
    records the absence, and verifying against that very snapshot reports
    USER.md as MISSING and [verified = false]. *)
Lemma self_verification_fails_on_missing_document :
  exists snap r,
    hashIdentityFiles (sample_world two_documents (Err network_error)) (str "/ws")
      = Ret snap /\
    verifyIdentityFiles (sample_world two_documents (Err network_error)) (str "/ws")
      (expected_hashes_of snap) = Ret r /\
    lookup (str "USER.md") (vr_files r) = Some (FileMissing VNull) /\
    vr_verified r = false.
Proof.
  eexists. eexists. split; [vm_compute; reflexivity|].
  split; [vm_compute; reflexivity|]. split; reflexivity.
Qed.

(* ------------------------------------------------------------------ *)
(** ** The hash function and its algorithm tag *)

(** C1 fails on the code.  [keccak256] of the hashing engine is SHA3-256:
    on the empty document it gives the FIPS 202 digest, not the Keccak-256
    digest the chain side computes, while the registration document built
    from the same engine names its algorithm "keccak256". *)
Theorem hashing_engine_digest_is_sha3_256 :
  keccak256 [] =
    str "0xa7ffc6f8bf1ed76651c14756a061d662f580ff4de43b49fa82d80a4b80f8434a" /\
  ChainClient.keccak256 (OfBytes []) =
    str "0xc5d2460186f7233c927e7db2dcc703c0e500b653ca82273b7bfad8045d85a470" /\
  keccak256 [] <> ChainClient.keccak256 (OfBytes []) /\
  (forall data, keccak256 data = str "0x" ++ hex_of_bytes (Keccak.sha3_256 data)) /\
  exists doc,
    buildRegistration
      (sample_world [(str "/ws/SOUL.md", Ok [])] (Err network_error))
      (VObj [(str "name", VStr (str "agent")); (str "workspacePath", VStr (str "/ws"))])
    = Ret doc /\
    get_prop_opt (get_prop_opt doc (str "identityFiles")) (str "_algorithm")
      = VStr (str "keccak256") /\
    get_prop_opt (get_prop_opt doc (str "identityFiles")) (str "SOUL.md")
      = VStr (str "0xa7ffc6f8bf1ed76651c14756a061d662f580ff4de43b49fa82d80a4b80f8434a").
Proof.
  assert (E1 : keccak256 [] =
    str "0xa7ffc6f8bf1ed76651c14756a061d662f580ff4de43b49fa82d80a4b80f8434a")
    by (vm_compute; reflexivity).
  assert (E2 : ChainClient.keccak256 (OfBytes []) =
    str "0xc5d2460186f7233c927e7db2dcc703c0e500b653ca82273b7bfad8045d85a470")
    by (vm_compute; reflexivity).
  split; [exact E1|]. split; [exact E2|].
  split; [rewrite E1, E2; vm_compute; discriminate|].
  split; [reflexivity|].
  eexists. split; [vm_compute; reflexivity|].
  split; vm_compute; reflexivity.
Qed.

(* ------------------------------------------------------------------ *)
(** ** Resolution of the token URI *)

Lemma JSON_parse_cases (text : jsstring) :
  (exists v, JSON_parse text = Ret v) \/ (exists e, JSON_parse text = Throw e).
Proof.
  unfold JSON_parse.
  destruct (parse_value (S (length text)) text) as [[v rest]|]; [|right; eauto].
  destruct (skip_ws rest); [left|right]; eauto.
Qed.

Lemma try_catch_null {A : Type} (body : outcome jsval) :
  (forall c, body <> Exit c) ->
  exists v, try_catch body (fun _ => Ret VNull) = Ret v.
Proof.
  intros H. destruct body as [v|e|c]; simpl; eauto.
  exfalso. exact (H c eq_refl).
Qed.

Lemma fetchRegistrationFile_returns (w : world) (uri : jsstring) :
  exists v, fetchRegistrationFile w uri = Ret v.
Proof.
  unfold fetchRegistrationFile.
  destruct (negb (truthy (VStr uri))); [eauto|].
  apply (@try_catch_null unit). intros c.
  destruct (startsWith uri (str "data:")).
  - destruct (match_base64 uri) as [payload|].
    + destruct (JSON_parse_cases (utf8_decode (base64_decode payload)))
        as [[v ->]|[e ->]]; discriminate.
    + destruct (match_plain uri) as [payload|]; [|discriminate].
      destruct (decodeURIComponent w payload) as [text|e]; cbn [lift bind];
        [|discriminate].
      destruct (JSON_parse_cases text) as [[v ->]|[e ->]]; discriminate.
  - destruct (fetch w (gateway_url uri)) as [e|ok body]; [discriminate|].
    destruct ok; cbn [negb]; [|discriminate].
    destruct body; discriminate.
Qed.

Lemma fetchRegistrationFile_null (w : world) (uri : jsstring) :
  resolution_fails w uri -> fetchRegistrationFile w uri = Ret VNull.
Proof.
  intros H. unfold fetchRegistrationFile.
  destruct H as [->|Hd Hb Hp|payload e Hd Hb Hj|payload e Hd Hb Hp Hu
                 |payload text e Hd Hb Hp Hu Hj|e Hne Hd Hf|body Hne Hd Hf|e Hne Hd Hf].
  - reflexivity.
  - destruct uri as [|c uri]; [reflexivity|]. cbn [truthy negb].
    rewrite Hd, Hb, Hp. reflexivity.
  - destruct uri as [|c uri]; [reflexivity|]. cbn [truthy negb].
    rewrite Hd, Hb, Hj. reflexivity.
  - destruct uri as [|c uri]; [reflexivity|]. cbn [truthy negb].
    rewrite Hd, Hb, Hp, Hu. reflexivity.
  - destruct uri as [|c uri]; [reflexivity|]. cbn [truthy negb].
    rewrite Hd, Hb, Hp, Hu. cbn [lift bind]. rewrite Hj. reflexivity.
  - destruct uri as [|c uri]; [contradiction|]. cbn [truthy negb].
    rewrite Hd, Hf. reflexivity.
  - destruct uri as [|c uri]; [contradiction|]. cbn [truthy negb].
    rewrite Hd, Hf. reflexivity.
  - destruct uri as [|c uri]; [contradiction|]. cbn [truthy negb].
    rewrite Hd, Hf. reflexivity.
Qed.

(** C6. [fetchRegistrationFile] returns for every URI in every environment:
    nothing is thrown past it.  When the resolution fails (empty or
    malformed URI, payload that is not JSON, rejected fetch as for an
    unsupported scheme or a timeout, response that is not OK or not JSON) it
    returns [null].  [lookupAgent], once the chain has answered the owner and
    the token URI, returns an agent whose registration is what
    [fetchRegistrationFile] returned, hence [null] when the resolution
    fails. *)
Theorem resolution_failure_is_null (w : world) :
  (forall uri, exists v, fetchRegistrationFile w uri = Ret v) /\
  (forall uri, resolution_fails w uri -> fetchRegistrationFile w uri = Ret VNull) /\
  (forall agentId id owner uri,
     BigInt w agentId = Ret id ->
     ownerOf w id = Ok owner ->
     tokenURI w id = Ok uri ->
     exists wallet registration,
       lookupAgent w agentId = Ret (mkAgent agentId owner uri wallet registration) /\
       fetchRegistrationFile w uri = Ret registration /\
       (resolution_fails w uri -> registration = VNull)).
Proof.
  split; [apply fetchRegistrationFile_returns|].
  split; [apply fetchRegistrationFile_null|].
  intros agentId id owner uri Hid Howner Huri.
  destruct (fetchRegistrationFile_returns w uri) as [registration Hreg].
  unfold lookupAgent. rewrite Hid. cbn [bind]. rewrite Howner, Huri. cbn [lift bind].
  rewrite Hreg. cbn [bind].
  eexists. exists registration. split; [reflexivity|]. split; [reflexivity|].
  intros Hfail. apply fetchRegistrationFile_null in Hfail. congruence.
Qed.

Lemma resolution_failure_is_null_witness :
  fetchRegistrationFile (sample_world [] (Ok (str "ftp://example.org/agent.json")))
    (str "ftp://example.org/agent.json") = Ret VNull /\
  exists wallet,
    lookupAgent (sample_world [] (Ok (str "data:application/json;base64,e2JhZA==")))
      (VNum 42)
    = Ret (mkAgent (VNum 42) (str "0x1111111111111111111111111111111111111111")
             (str "data:application/json;base64,e2JhZA==") wallet VNull).
Proof.
  split.
  - apply (resolution_failure_is_null
             (sample_world [] (Ok (str "ftp://example.org/agent.json")))).
    apply (FetchFails _ _ network_error); [discriminate|reflexivity|reflexivity].
  - destruct (resolution_failure_is_null
                (sample_world [] (Ok (str "data:application/json;base64,e2JhZA=="))))
      as (_ & _ & H).
    destruct (H (VNum 42) 42 (str "0x1111111111111111111111111111111111111111")
                (str "data:application/json;base64,e2JhZA==")
                eq_refl eq_refl eq_refl)
      as (wallet & registration & Hlookup & _ & Hnull).
    exists wallet. rewrite Hlookup. rewrite Hnull; [reflexivity|].
    apply (Base64NotJSON _ _ (str "e2JhZA==") syntax_error);
      vm_compute; reflexivity.
Defined.

(* ------------------------------------------------------------------ *)
(** ** The library never exits the process *)

Lemma no_exit_ret {A : Type} (a : A) : no_exit (Ret a).
Proof. intros c; discriminate. Qed.

Lemma no_exit_throw {A : Type} (e : js_error) : no_exit (@Throw A e).
Proof. intros c; discriminate. Qed.

Lemma no_exit_lift {A : Type} (r : result A) : no_exit (lift r).
Proof. destruct r; intros c; discriminate. Qed.

Lemma no_exit_bind {A B : Type} (m : outcome A) (k : A -> outcome B) :
  no_exit m -> (forall a, no_exit (k a)) -> no_exit (bind m k).
Proof.
  intros Hm Hk c. destruct m as [a|e|c']; simpl.
  - apply Hk.
  - discriminate.
  - exfalso. exact (Hm c' eq_refl).
Qed.

Lemma no_exit_for_of {A S : Type} (xs : list A) (body : S -> A -> outcome S) (s : S) :
  (forall s x, no_exit (body s x)) -> no_exit (for_of xs body s).
Proof.
  intros H. revert s. induction xs as [|x xs IH]; intros s; simpl.
  - apply no_exit_ret.
  - apply no_exit_bind; [apply H|]. intros s'. apply IH.
Qed.

Lemma no_exit_get_prop (v : jsval) (k : jsstring) : no_exit (get_prop v k).
Proof. destruct v; intros c; discriminate. Qed.

Lemma no_exit_JSON_parse (text : jsstring) : no_exit (JSON_parse text).
Proof.
  intros c. destruct (JSON_parse_cases text) as [[v ->]|[e ->]]; discriminate.
Qed.

Lemma no_exit_read_text (w : world) (p : jsval) : no_exit (read_text w p).
Proof.
  destruct p; try apply no_exit_throw. simpl.
  apply no_exit_bind; [apply no_exit_lift|]. intros a. apply no_exit_ret.
Qed.

Lemma no_exit_hashIdentityFiles_of (w : world) (p : jsval) :
  no_exit (hashIdentityFiles_of w p).
Proof.
  destruct p; try apply no_exit_throw. intros c. apply hashIdentityFiles_no_exit.
Qed.

Lemma no_exit_verify_one snap expected results f :
  no_exit (verify_one snap expected results f).
Proof.
  unfold verify_one. apply no_exit_bind.
  - unfold local_entry. destruct (lookup f (hr_files snap));
      [apply no_exit_ret|apply no_exit_throw].
  - intros e. apply no_exit_bind; [apply no_exit_get_prop|]. intros x.
    destruct (negb (fe_exists e)); [apply no_exit_ret|].
    destruct (negb (truthy x)); [apply no_exit_ret|].
    destruct (hash_strict_eq (fe_hash e) x); apply no_exit_ret.
Qed.

Lemma no_exit_verifyIdentityFiles (w : world) (ws : jsstring) (expected : jsval) :
  no_exit (verifyIdentityFiles w ws expected).
Proof.
  unfold verifyIdentityFiles. apply no_exit_bind.
  - intros c. apply hashIdentityFiles_no_exit.
  - intros snap. apply no_exit_bind.
    + apply no_exit_for_of. intros s x. apply no_exit_verify_one.
    + intros r. apply no_exit_bind; [apply no_exit_get_prop|]. intros x.
      destruct (truthy x); [|apply no_exit_ret].
      destruct (str_strict_eq _ x); apply no_exit_ret.
Qed.

Lemma no_exit_verifyIdentityFiles_of (w : world) (p expected : jsval) :
  no_exit (verifyIdentityFiles_of w p expected).
Proof.
  destruct p; try apply no_exit_throw. apply no_exit_verifyIdentityFiles.
Qed.

Lemma no_exit_BigInt (w : world) (v : jsval) : no_exit (BigInt w v).
Proof.
  destruct v as [| | | | | | | |[m e|negative]]; simpl;
    try apply no_exit_throw; try apply no_exit_ret; try apply no_exit_lift.
  destruct (0 <=? e); [apply no_exit_ret|apply no_exit_throw].
Qed.

Lemma no_exit_buildUpdateURITx (w : world) (agentId : jsval) (uri : jsstring) :
  no_exit (buildUpdateURITx w agentId uri).
Proof.
  unfold buildUpdateURITx. apply no_exit_bind; [apply no_exit_BigInt|].
  intros id. destruct (is_uint256 id); [apply no_exit_ret|apply no_exit_throw].
Qed.

Lemma no_exit_fetchRegistrationFile (w : world) (uri : jsstring) :
  no_exit (fetchRegistrationFile w uri).
Proof.
  intros c. destruct (fetchRegistrationFile_returns w uri) as [v ->]. discriminate.
Qed.

Lemma no_exit_lookupAgent (w : world) (agentId : jsval) :
  no_exit (lookupAgent w agentId).
Proof.
  unfold lookupAgent.
  apply no_exit_bind; [apply no_exit_BigInt|]. intros id.
  apply no_exit_bind; [apply no_exit_lift|]. intros owner.
  apply no_exit_bind; [apply no_exit_lift|]. intros uri.
  apply no_exit_bind; [apply no_exit_fetchRegistrationFile|]. intros reg.
  apply no_exit_ret.
Qed.

Lemma no_exit_merge_config (w : world) (opts : verify_opts) :
  no_exit (merge_config w opts).
Proof.
  unfold merge_config. destruct (truthy (vo_config opts)); [|apply no_exit_ret].
  apply no_exit_bind; [apply no_exit_read_text|]. intros raw.
  apply no_exit_bind; [apply no_exit_JSON_parse|]. intros config.
  apply no_exit_bind.
  - destruct (truthy (vo_workspace opts)); [apply no_exit_ret|apply no_exit_get_prop].
  - intros ws. apply no_exit_bind.
    + destruct (truthy (vo_agentId opts)); [apply no_exit_ret|apply no_exit_get_prop].
    + intros id. apply no_exit_ret.
Qed.

(* ------------------------------------------------------------------ *)
(** ** Exit codes of the verification command *)

Lemma expected_from_chain_eq (w : world) (id : jsval) :
  expected_from_chain w id =
  match lookupAgent w id with
  | Ret agent =>
      if truthy (ca_registration agent) then
        if truthy (get_prop_opt (ca_registration agent) (str "identityFiles"))
        then Ret (get_prop_opt (ca_registration agent) (str "identityFiles"))
        else Exit 2
      else Exit 2
  | Throw _ => Exit 3
  | Exit c => Exit c
  end.
Proof.
  unfold expected_from_chain.
  destruct (lookupAgent w id) as [agent|e|c]; cbn [bind try_catch]; try reflexivity.
  destruct (truthy (ca_registration agent)) eqn:T; cbn [negb]; [|reflexivity].
  rewrite (get_prop_truthy _ _ T). cbn [bind].
  destruct (truthy (get_prop_opt (ca_registration agent) (str "identityFiles")));
    reflexivity.
Qed.


Lemma verify_class_complete (w : world) (opts : verify_opts) :
  verify_class w opts (verify_cli w opts).
Proof.
  unfold verify_cli, VerifyIdentity.main.
  destruct (merge_config w opts) as [[ws id]|e|c] eqn:M; cbn [bind fst snd].
  2:{ apply (ConfigError _ _ e M). }
  2:{ exfalso. exact (no_exit_merge_config w opts c M). }
  destruct (truthy ws) eqn:T; cbn [negb].
  2:{ apply (NoWorkspace _ _ ws id M T). }
  destruct (hashIdentityFiles_of w ws) as [snap|e|c] eqn:S; cbn [bind].
  2:{ apply (LocalReadError _ _ ws id e M T S). }
  2:{ exfalso. exact (no_exit_hashIdentityFiles_of w ws c S). }
  assert (Hverify : forall expected,
             expected_hashes w opts id = Ret expected ->
             verify_class w opts
               (exit_status
                  (bind (verifyIdentityFiles_of w ws expected)
                     (fun result =>
                        @Exit unit (if vr_verified result then 0 else 1))))).
  { intros expected E.
    destruct (verifyIdentityFiles_of w ws expected) as [r|e|c] eqn:V; cbn [bind].
    - destruct (vr_verified r) eqn:B; cbn [exit_status].
      + apply (AllVerified _ _ ws id snap expected r M T S E V B).
      + apply (NotVerified _ _ ws id snap expected r M T S E V B).
    - apply (VerificationError _ _ ws id snap expected e M T S E V).
    - exfalso. exact (no_exit_verifyIdentityFiles_of w ws expected c V). }
  destruct (offline_mode opts) eqn:O.
  - destruct (expected_hashes w opts id) as [expected|e|c] eqn:E; cbn [bind].
    + apply Hverify. reflexivity.
    + apply (ExpectedHashesError _ _ ws id snap e M T S O E).
    + exfalso. unfold expected_hashes in E. rewrite O in E.
      revert E. apply no_exit_bind; [apply no_exit_read_text|].
      intros raw. apply no_exit_JSON_parse.
  - destruct (truthy id) eqn:I.
    2:{ unfold expected_hashes. rewrite O, I. cbn [bind exit_status].
        apply (NoAgentId _ _ ws id snap M T S O I). }
    destruct (lookupAgent w id) as [agent|e|c] eqn:L.
    + destruct (truthy (ca_registration agent)) eqn:R.
      * destruct (truthy (get_prop_opt (ca_registration agent) (str "identityFiles")))
          eqn:F.
        -- assert (E : expected_hashes w opts id =
                       Ret (get_prop_opt (ca_registration agent) (str "identityFiles")))
             by (unfold expected_hashes;
                 rewrite O, I, expected_from_chain_eq, L, R, F; reflexivity).
           rewrite E. cbn [bind]. apply Hverify. exact E.
        -- unfold expected_hashes. rewrite O, I, expected_from_chain_eq, L, R, F.
           cbn [bind exit_status].
           apply (NoHashData _ _ ws id snap agent M T S O I L R F).
      * unfold expected_hashes. rewrite O, I, expected_from_chain_eq, L, R.
        cbn [bind exit_status].
        apply (NoRegistration _ _ ws id snap agent M T S O I L R).
    + unfold expected_hashes. rewrite O, I, expected_from_chain_eq, L.
      cbn [bind exit_status].
      apply (ChainError _ _ ws id snap e M T S O I L).
    + exfalso. exact (no_exit_lookupAgent w id c L).
Qed.

(** The four codes on runs of the command: verified against the snapshot
    published as a data URI, a tampered USER.md, no registration file, and
    a chain that cannot be reached. *)
Example verify_cli_exits_0 :
  match toBase64DataURI
          (VObj [(str "identityFiles",
                  VObj [(str "SOUL.md", VStr (keccak256 [x73; x6f; x75; x6c]));
                        (str "USER.md", VStr (keccak256 [x75; x73; x65; x72]));
                        (str "IDENTITY.md", VStr (keccak256 [x69; x64]))])]) with
  | Ret uri =>
      verify_cli (sample_world three_documents (Ok uri))
        (mkVerifyOpts (VStr (str "/ws")) (VNum 42) VNull false VNull false false false)
  | _ => 3
  end = 0.
Proof. vm_compute. reflexivity. Qed.

Example verify_cli_exits_1 :
  match toBase64DataURI
          (VObj [(str "identityFiles",
                  VObj [(str "SOUL.md", VStr (keccak256 [x73; x6f; x75; x6c]));
                        (str "USER.md", VStr (keccak256 [x75; x73; x65; x72; x21]));
                        (str "IDENTITY.md", VStr (keccak256 [x69; x64]))])]) with
  | Ret uri =>
      verify_cli (sample_world three_documents (Ok uri))
        (mkVerifyOpts (VStr (str "/ws")) (VNum 42) VNull false VNull false false false)
  | _ => 3
  end = 1.
Proof. vm_compute. reflexivity. Qed.

Example verify_cli_exits_3 :
  verify_cli (sample_world three_documents (Err network_error))
    (mkVerifyOpts (VStr (str "/ws")) (VNum 42) VNull false VNull false false false)
  = 3.
Proof. vm_compute. reflexivity. Qed.

(* ------------------------------------------------------------------ *)
(** ** The update command *)












Lemma check_chain_unregistered (w : world) (agentId : jsval)
    (newHashes : hash_results) (log : list event) :
  truthy agentId = false ->
  check_chain w agentId newHashes log = (log ++ [LogInitialRegistration], Ret []).
Proof. intros H. unfold check_chain. rewrite H. reflexivity. Qed.

Lemma check_chain_registered (w : world) (agentId : jsval)
    (newHashes : hash_results) (agent : chain_agent) (log : list event) :
  truthy agentId = true ->
  lookupAgent w agentId = Ret agent ->
  truthy (get_prop_opt (ca_registration agent) (str "identityFiles")) = true ->
  check_chain w agentId newHashes log =
  match fold_left
          (diff_one newHashes (get_prop_opt (ca_registration agent) (str "identityFiles")))
          IDENTITY_FILES [] with
  | [] => (log ++ [LogNoUpdateNeeded], Exit 0)
  | c :: cs => (log ++ [LogChangesDetected (c :: cs)], Ret (c :: cs))
  end.
Proof.
  intros H L T. unfold check_chain. rewrite H.
  unfold ctry, cbind at 1, run_outcome. rewrite L, T.
  destruct (fold_left _ IDENTITY_FILES []); reflexivity.
Qed.



(* ------------------------------------------------------------------ *)
(** ** The agent identifier 0 *)






Lemma estimate_returns (reg : jsval) (uri : jsstring) :
  toBase64DataURI reg = Ret uri -> exists cost, estimateOnChainCost reg = Ret cost.
Proof.
  unfold estimateOnChainCost. intros H. rewrite H. cbn [bind].
  unfold toBase64DataURI in H. destruct (stringify reg); [eauto|discriminate].
Qed.





(* ------------------------------------------------------------------ *)
(** ** Bytes *)

Lemma Z_of_byte_range (b : byte) : 0 <= Z_of_byte b < 256.
Proof.
  unfold Z_of_byte. pose proof (Byte.to_N_bounded b) as H. lia.
Qed.

Lemma byte_of_Z_of_byte (b : byte) : byte_of_Z (Z_of_byte b) = b.
Proof.
  unfold byte_of_Z, Z_of_byte.
  pose proof (Byte.to_N_bounded b) as H.
  rewrite Z.mod_small by lia. rewrite N2Z.id, Byte.of_to_N. reflexivity.
Qed.

Lemma Z_of_byte_of_Z (z : Z) : 0 <= z < 256 -> Z_of_byte (byte_of_Z z) = z.
Proof.
  intros H. unfold byte_of_Z, Z_of_byte. rewrite Z.mod_small by lia.
  destruct (Byte.of_N (Z.to_N z)) as [b|] eqn:E.
  - apply Byte.to_of_N in E. rewrite E. lia.
  - apply Byte.of_N_None_iff in E. lia.
Qed.

(** Decides the comparisons of a goal and leaves the arithmetic to [lia]. *)
Ltac zcases :=
  repeat match goal with
         | |- context [?a <? ?b] => destruct (Z.ltb_spec a b); try lia
         | |- context [?a <=? ?b] => destruct (Z.leb_spec a b); try lia
         | |- context [?a =? ?b] => destruct (Z.eqb_spec a b); try lia
         end;
  cbn [andb orb negb]; try reflexivity; try lia.

(* ------------------------------------------------------------------ *)
(** ** Base64 *)

Lemma b64_value_char (v : Z) : 0 <= v < 64 -> b64_value (b64_char v) = Some v.
Proof.
  intros H. unfold b64_value, b64_char, in_range.
  destruct (Z.ltb_spec v 26); [zcases; f_equal; lia|].
  destruct (Z.ltb_spec v 52); [zcases; f_equal; lia|].
  destruct (Z.ltb_spec v 62); [zcases; f_equal; lia|].
  destruct (Z.eqb_spec v 62); [subst; reflexivity|].
  assert (v = 63) as -> by lia. reflexivity.
Qed.

Lemma b64_char_line (v : Z) : 0 <= v < 64 -> is_line_terminator (b64_char v) = false.
Proof.
  intros H. unfold is_line_terminator, b64_char.
  destruct (Z.ltb_spec v 26); [zcases|].
  destruct (Z.ltb_spec v 52); [zcases|].
  destruct (Z.ltb_spec v 62); [zcases|].
  destruct (Z.eqb_spec v 62); reflexivity.
Qed.

Lemma b64_sextets_char (v : Z) (s : jsstring) :
  0 <= v < 64 -> b64_sextets (b64_char v :: s) = v :: b64_sextets s.
Proof. intros H. cbn [b64_sextets]. rewrite (b64_value_char v H). reflexivity. Qed.

Lemma b64_sextets_pad (s : jsstring) : b64_sextets (61 :: s) = [].
Proof. reflexivity. Qed.

Lemma list_ind3 {A : Type} (P : list A -> Prop) :
  P [] -> (forall x, P [x]) -> (forall x y, P [x; y]) ->
  (forall x y z l, P l -> P (x :: y :: z :: l)) ->
  forall l, P l.
Proof.
  intros H0 H1 H2 H3.
  assert (H : forall l, P l /\ (forall x, P (x :: l)) /\ (forall x y, P (x :: y :: l))).
  { induction l as [|a l (IH0 & IH1 & IH2)].
    - auto.
    - split; [apply IH1|]. split; [intros x; apply IH2|].
      intros x y. apply H3, IH0. }
  intros l. apply H.
Qed.

Lemma sextet_ranges (x y z : Z) :
  0 <= x < 256 -> 0 <= y < 256 -> 0 <= z < 256 ->
  0 <= x / 4 < 64 /\ 0 <= (x mod 4) * 16 + y / 16 < 64 /\
  0 <= (y mod 16) * 4 + z / 64 < 64 /\ 0 <= z mod 64 < 64 /\
  0 <= (x mod 4) * 16 < 64 /\ 0 <= (y mod 16) * 4 < 64.
Proof. intros Hx Hy Hz. repeat split; Z.div_mod_to_equations; lia. Qed.

Lemma sextets_to_bytes (x y z : Z) :
  0 <= x < 256 -> 0 <= y < 256 -> 0 <= z < 256 ->
  x / 4 * 4 + ((x mod 4) * 16 + y / 16) / 16 = x /\
  (((x mod 4) * 16 + y / 16) mod 16) * 16 + ((y mod 16) * 4 + z / 64) / 4 = y /\
  (((y mod 16) * 4 + z / 64) mod 4) * 64 + z mod 64 = z /\
  x / 4 * 4 + ((x mod 4) * 16) / 16 = x /\
  (((x mod 4) * 16 + y / 16) mod 16) * 16 + ((y mod 16) * 4) / 4 = y.
Proof. intros Hx Hy Hz. repeat split; Z.div_mod_to_equations; lia. Qed.

(** Decoding what was encoded gives the bytes back. *)
Lemma base64_roundtrip (bs : buffer) : base64_decode (base64_encode bs) = bs.
Proof.
  unfold base64_decode, base64_encode.
  induction bs as [|x|x y|x y z bs IH] using list_ind3.
  - reflexivity.
  - pose proof (Z_of_byte_range x) as Hx.
    destruct (sextet_ranges _ 0 0 Hx ltac:(lia) ltac:(lia)) as (R1 & _ & _ & _ & R5 & _).
    destruct (sextets_to_bytes _ 0 0 Hx ltac:(lia) ltac:(lia)) as (_ & _ & _ & E4 & _).
    cbn [b64_encode_groups].
    rewrite !b64_sextets_char, b64_sextets_pad by assumption.
    cbn [b64_bytes]. rewrite E4, byte_of_Z_of_byte. reflexivity.
  - pose proof (Z_of_byte_range x) as Hx. pose proof (Z_of_byte_range y) as Hy.
    destruct (sextet_ranges _ _ 0 Hx Hy ltac:(lia)) as (R1 & R2 & _ & _ & _ & R6).
    destruct (sextets_to_bytes _ _ 0 Hx Hy ltac:(lia)) as (E1 & _ & _ & _ & E5).
    cbn [b64_encode_groups].
    rewrite !b64_sextets_char, b64_sextets_pad by assumption.
    cbn [b64_bytes]. rewrite E1, E5, !byte_of_Z_of_byte. reflexivity.
  - pose proof (Z_of_byte_range x) as Hx. pose proof (Z_of_byte_range y) as Hy.
    pose proof (Z_of_byte_range z) as Hz.
    destruct (sextet_ranges _ _ _ Hx Hy Hz) as (R1 & R2 & R3 & R4 & _ & _).
    destruct (sextets_to_bytes _ _ _ Hx Hy Hz) as (E1 & E2 & E3 & _ & _).
    cbn [b64_encode_groups].
    rewrite !b64_sextets_char by assumption.
    cbn [b64_bytes]. rewrite E1, E2, E3, !byte_of_Z_of_byte, IH. reflexivity.
Qed.

Lemma b64_encode_on_one_line (bs : buffer) :
  forallb (fun c => negb (is_line_terminator c)) (b64_encode_groups bs) = true.
Proof.
  induction bs as [|x|x y|x y z bs IH] using list_ind3.
  - reflexivity.
  - pose proof (Z_of_byte_range x) as Hx.
    destruct (sextet_ranges _ 0 0 Hx ltac:(lia) ltac:(lia)) as (R1 & _ & _ & _ & R5 & _).
    cbn [b64_encode_groups forallb]. rewrite !b64_char_line by assumption. reflexivity.
  - pose proof (Z_of_byte_range x) as Hx. pose proof (Z_of_byte_range y) as Hy.
    destruct (sextet_ranges _ _ 0 Hx Hy ltac:(lia)) as (R1 & R2 & _ & _ & _ & R6).
    cbn [b64_encode_groups forallb]. rewrite !b64_char_line by assumption. reflexivity.
  - pose proof (Z_of_byte_range x) as Hx. pose proof (Z_of_byte_range y) as Hy.
    pose proof (Z_of_byte_range z) as Hz.
    destruct (sextet_ranges _ _ _ Hx Hy Hz) as (R1 & R2 & R3 & R4 & _ & _).
    cbn [b64_encode_groups forallb]. rewrite !b64_char_line by assumption.
    cbn [negb andb]. exact IH.
Qed.

Lemma b64_encode_nonempty (b : byte) (bs : buffer) :
  exists c s, b64_encode_groups (b :: bs) = c :: s.
Proof. destruct bs as [|y [|z bs]]; cbn [b64_encode_groups]; eauto. Qed.

(* ------------------------------------------------------------------ *)
(** ** UTF-8 *)

Lemma utf8_decode_1 (b1 : byte) (r : buffer) :
  Z_of_byte b1 < 0x80 ->
  utf8_decode (b1 :: r) = Z_of_byte b1 :: utf8_decode r.
Proof.
  intros H. cbn [utf8_decode].
  destruct (Z.ltb_spec (Z_of_byte b1) 128); [reflexivity|lia].
Qed.

Lemma utf8_decode_2 (b1 b2 : byte) (r : buffer) :
  0xC2 <= Z_of_byte b1 <= 0xDF -> 0x80 <= Z_of_byte b2 <= 0xBF ->
  utf8_decode (b1 :: b2 :: r) =
  ((Z_of_byte b1 - 0xC0) * 64 + (Z_of_byte b2 - 0x80)) :: utf8_decode r.
Proof.
  intros H1 H2. cbn [utf8_decode]. unfold in_range.
  destruct (Z.ltb_spec (Z_of_byte b1) 128); [lia|].
  destruct (Z.leb_spec 194 (Z_of_byte b1)); [|lia].
  destruct (Z.leb_spec (Z_of_byte b1) 223); [|lia].
  destruct (Z.leb_spec 128 (Z_of_byte b2)); [|lia].
  destruct (Z.leb_spec (Z_of_byte b2) 191); [|lia].
  reflexivity.
Qed.

Lemma utf8_decode_3 (b1 b2 b3 : byte) (r : buffer) :
  0xE0 <= Z_of_byte b1 <= 0xEF ->
  (if Z_of_byte b1 =? 0xE0 then 0xA0 else 0x80) <= Z_of_byte b2 ->
  Z_of_byte b2 <= (if Z_of_byte b1 =? 0xED then 0x9F else 0xBF) ->
  0x80 <= Z_of_byte b3 <= 0xBF ->
  utf8_decode (b1 :: b2 :: b3 :: r) =
  ((Z_of_byte b1 - 0xE0) * 4096 + (Z_of_byte b2 - 0x80) * 64 + (Z_of_byte b3 - 0x80))
    :: utf8_decode r.
Proof.
  intros H1 H2lo H2hi H3. cbn [utf8_decode]. unfold in_range.
  destruct (Z.ltb_spec (Z_of_byte b1) 128); [lia|].
  destruct (Z.leb_spec 194 (Z_of_byte b1)); [|lia].
  destruct (Z.leb_spec (Z_of_byte b1) 223); [lia|].
  destruct (Z.leb_spec 224 (Z_of_byte b1)); [|lia].
  destruct (Z.leb_spec (Z_of_byte b1) 239); [|lia].
  cbn [andb].
  destruct (Z.leb_spec (if Z_of_byte b1 =? 224 then 160 else 128) (Z_of_byte b2)); [|lia].
  destruct (Z.leb_spec (Z_of_byte b2) (if Z_of_byte b1 =? 237 then 159 else 191)); [|lia].
  destruct (Z.leb_spec 128 (Z_of_byte b3)); [|lia].
  destruct (Z.leb_spec (Z_of_byte b3) 191); [|lia].
  reflexivity.
Qed.

Lemma utf8_decode_4 (b1 b2 b3 b4 : byte) (r : buffer) :
  0xF0 <= Z_of_byte b1 <= 0xF4 ->
  (if Z_of_byte b1 =? 0xF0 then 0x90 else 0x80) <= Z_of_byte b2 ->
  Z_of_byte b2 <= (if Z_of_byte b1 =? 0xF4 then 0x8F else 0xBF) ->
  0x80 <= Z_of_byte b3 <= 0xBF ->
  0x80 <= Z_of_byte b4 <= 0xBF ->
  utf8_decode (b1 :: b2 :: b3 :: b4 :: r) =
  code_units ((Z_of_byte b1 - 0xF0) * 262144 + (Z_of_byte b2 - 0x80) * 4096
              + (Z_of_byte b3 - 0x80) * 64 + (Z_of_byte b4 - 0x80))
    ++ utf8_decode r.
Proof.
  intros H1 H2lo H2hi H3 H4. cbn [utf8_decode]. unfold in_range.
  destruct (Z.ltb_spec (Z_of_byte b1) 128); [lia|].
  destruct (Z.leb_spec 194 (Z_of_byte b1)); [|lia].
  destruct (Z.leb_spec (Z_of_byte b1) 223); [lia|].
  destruct (Z.leb_spec 224 (Z_of_byte b1)); [|lia].
  destruct (Z.leb_spec (Z_of_byte b1) 239); [lia|].
  destruct (Z.leb_spec 240 (Z_of_byte b1)); [|lia].
  destruct (Z.leb_spec (Z_of_byte b1) 244); [|lia].
  cbn [andb].
  destruct (Z.leb_spec (if Z_of_byte b1 =? 240 then 144 else 128) (Z_of_byte b2)); [|lia].
  destruct (Z.leb_spec (Z_of_byte b2) (if Z_of_byte b1 =? 244 then 143 else 191)); [|lia].
  destruct (Z.leb_spec 128 (Z_of_byte b3)); [|lia].
  destruct (Z.leb_spec (Z_of_byte b3) 191); [|lia].
  destruct (Z.leb_spec 128 (Z_of_byte b4)); [|lia].
  destruct (Z.leb_spec (Z_of_byte b4) 191); [|lia].
  reflexivity.
Qed.

(** A code unit that is not a surrogate decodes from its own bytes. *)
Lemma utf8_decode_unit (c : Z) (r : buffer) :
  0 <= c <= 0xFFFF -> is_high_surrogate c = false -> is_low_surrogate c = false ->
  utf8_decode (utf8_bytes c ++ r) = c :: utf8_decode r.
Proof.
  intros Hc Hh Hl. unfold utf8_bytes.
  unfold is_high_surrogate in Hh. unfold is_low_surrogate in Hl.
  destruct (Z.ltb_spec c 128).
  - cbn [app]. rewrite utf8_decode_1; rewrite Z_of_byte_of_Z; try lia. reflexivity.
  - destruct (Z.ltb_spec c 2048).
    + cbn [app].
      assert (R1 : 0 <= 192 + c / 64 < 256) by (Z.div_mod_to_equations; lia).
      assert (R2 : 0 <= 128 + c mod 64 < 256) by (Z.div_mod_to_equations; lia).
      rewrite utf8_decode_2; rewrite ?(Z_of_byte_of_Z _ R1), ?(Z_of_byte_of_Z _ R2);
        try (Z.div_mod_to_equations; lia).
      f_equal. Z.div_mod_to_equations; lia.
    + destruct (Z.ltb_spec c 65536); [|lia].
      cbn [app].
      assert (R1 : 0 <= 224 + c / 4096 < 256) by (Z.div_mod_to_equations; lia).
      assert (R2 : 0 <= 128 + (c / 64) mod 64 < 256) by (Z.div_mod_to_equations; lia).
      assert (R3 : 0 <= 128 + c mod 64 < 256) by (Z.div_mod_to_equations; lia).
      rewrite utf8_decode_3;
        rewrite ?(Z_of_byte_of_Z _ R1), ?(Z_of_byte_of_Z _ R2), ?(Z_of_byte_of_Z _ R3).
      * f_equal. Z.div_mod_to_equations; lia.
      * Z.div_mod_to_equations; lia.
      * destruct (Z.eqb_spec (224 + c / 4096) 224); Z.div_mod_to_equations; lia.
      * destruct (Z.eqb_spec (224 + c / 4096) 237); [|Z.div_mod_to_equations; lia].
        revert Hh Hl.
        destruct (Z.leb_spec 55296 c); destruct (Z.leb_spec c 56319);
          destruct (Z.leb_spec 56320 c); destruct (Z.leb_spec c 57343);
          cbn [andb]; intros; try discriminate; Z.div_mod_to_equations; lia.
      * Z.div_mod_to_equations; lia.
Qed.

(** A surrogate pair decodes from the four bytes of its code point. *)
Lemma utf8_decode_pair (c d : Z) (r : buffer) :
  is_high_surrogate c = true -> is_low_surrogate d = true ->
  utf8_decode (utf8_bytes (pair_code_point c d) ++ r) = c :: d :: utf8_decode r.
Proof.
  intros Hh Hl. unfold is_high_surrogate in Hh. unfold is_low_surrogate in Hl.
  apply andb_true_iff in Hh. destruct Hh as [Hh1 Hh2].
  apply andb_true_iff in Hl. destruct Hl as [Hl1 Hl2].
  apply Z.leb_le in Hh1, Hh2, Hl1, Hl2.
  unfold utf8_bytes, pair_code_point.
  set (cp := 65536 + (c - 55296) * 1024 + (d - 56320)).
  assert (Hcp : 65536 <= cp < 1114112) by (unfold cp; lia).
  destruct (Z.ltb_spec cp 128); [lia|].
  destruct (Z.ltb_spec cp 2048); [lia|].
  destruct (Z.ltb_spec cp 65536); [lia|].
  cbn [app].
  assert (R1 : 0 <= 240 + cp / 262144 < 256) by (Z.div_mod_to_equations; lia).
  assert (R2 : 0 <= 128 + (cp / 4096) mod 64 < 256) by (Z.div_mod_to_equations; lia).
  assert (R3 : 0 <= 128 + (cp / 64) mod 64 < 256) by (Z.div_mod_to_equations; lia).
  assert (R4 : 0 <= 128 + cp mod 64 < 256) by (Z.div_mod_to_equations; lia).
  rewrite utf8_decode_4;
    rewrite ?(Z_of_byte_of_Z _ R1), ?(Z_of_byte_of_Z _ R2), ?(Z_of_byte_of_Z _ R3),
      ?(Z_of_byte_of_Z _ R4).
  - replace ((240 + cp / 262144 - 240) * 262144 + (128 + (cp / 4096) mod 64 - 128) * 4096
             + (128 + (cp / 64) mod 64 - 128) * 64 + (128 + cp mod 64 - 128))
      with cp by (Z.div_mod_to_equations; lia).
    unfold code_units. destruct (Z.ltb_spec cp 65536); [lia|].
    cbn [app]. f_equal; [|f_equal]; unfold cp; Z.div_mod_to_equations; lia.
  - Z.div_mod_to_equations; lia.
  - destruct (Z.eqb_spec (240 + cp / 262144) 240); Z.div_mod_to_equations; lia.
  - destruct (Z.eqb_spec (240 + cp / 262144) 244); Z.div_mod_to_equations; lia.
  - Z.div_mod_to_equations; lia.
  - Z.div_mod_to_equations; lia.
Qed.

Lemma utf8_roundtrip_bounded (n : nat) :
  forall s, (length s <= n)%nat -> well_formed s = true ->
  forall r, utf8_decode (utf8_encode s ++ r) = s ++ utf8_decode r.
Proof.
  induction n as [|n IH]; intros s Hlen Hwf r.
  - destruct s; [reflexivity|simpl in Hlen; lia].
  - destruct s as [|c rest]; [reflexivity|].
    cbn [utf8_encode well_formed] in *.
    destruct (is_high_surrogate c) eqn:Hh.
    + destruct rest as [|d rest']; [discriminate|].
      apply andb_true_iff in Hwf. destruct Hwf as [Hl Hwf].
      rewrite Hl, <- app_assoc, (utf8_decode_pair c d _ Hh Hl).
      rewrite IH by (assumption || (cbn [length] in *; lia)). reflexivity.
    + apply andb_true_iff in Hwf. destruct Hwf as [Hwf1 Hwf].
      apply andb_true_iff in Hwf1. destruct Hwf1 as [Hl Hu].
      apply negb_true_iff in Hl. rewrite Hl, <- app_assoc.
      unfold code_unit, in_range in Hu. apply andb_true_iff in Hu.
      destruct Hu as [Hu1 Hu2]. apply Z.leb_le in Hu1, Hu2.
      rewrite (utf8_decode_unit c _ (conj Hu1 Hu2) Hh Hl).
      rewrite IH by (assumption || (cbn [length] in *; lia)). reflexivity.
Qed.

(** Decoding the UTF-8 of a string without lone surrogates gives it back. *)
Lemma utf8_roundtrip (s : jsstring) :
  well_formed s = true -> utf8_decode (utf8_encode s) = s.
Proof.
  intros H.
  pose proof (utf8_roundtrip_bounded (length s) s (le_n _) H []) as E.
  rewrite !app_nil_r in E. exact E.
Qed.

Lemma well_formed_app_bounded (n : nat) :
  forall a b, (length a <= n)%nat ->
  well_formed a = true -> well_formed b = true -> well_formed (a ++ b) = true.
Proof.
  induction n as [|n IH]; intros a b Hlen Ha Hb.
  - destruct a; [exact Hb|simpl in Hlen; lia].
  - destruct a as [|c rest]; [exact Hb|].
    cbn [well_formed app] in *.
    destruct (is_high_surrogate c).
    + destruct rest as [|d rest']; [discriminate|]. cbn [app].
      apply andb_true_iff in Ha. destruct Ha as [Hl Ha]. rewrite Hl. cbn [andb].
      apply IH; try assumption. cbn [length] in *. lia.
    + apply andb_true_iff in Ha. destruct Ha as [Hc Ha]. rewrite Hc. cbn [andb].
      apply IH; try assumption. cbn [length] in *. lia.
Qed.

Lemma well_formed_app (a b : jsstring) :
  well_formed a = true -> well_formed b = true -> well_formed (a ++ b) = true.
Proof. apply (well_formed_app_bounded (length a)). apply le_n. Qed.

Lemma well_formed_cons_ascii (c : Z) (s : jsstring) :
  0 <= c < 128 -> well_formed s = true -> well_formed (c :: s) = true.
Proof.
  intros Hc Hs. cbn [well_formed].
  unfold is_high_surrogate, is_low_surrogate, code_unit, in_range.
  zcases. exact Hs.
Qed.

Lemma well_formed_ascii (s : jsstring) :
  Forall (fun c => 0 <= c < 128) s -> well_formed s = true.
Proof.
  induction 1 as [|c s Hc _ IH]; [reflexivity|].
  apply well_formed_cons_ascii; assumption.
Qed.

Lemma well_formed_utf8_nonempty (c : Z) (s : jsstring) :
  well_formed (c :: s) = true -> exists b bs, utf8_encode (c :: s) = b :: bs.
Proof.
  cbn [well_formed utf8_encode]. destruct (is_high_surrogate c).
  - destruct s as [|d s]; [discriminate|]. intros H.
    apply andb_true_iff in H. destruct H as [-> _].
    unfold utf8_bytes.
    destruct (_ <? 128); [cbn [app]; eauto|].
    destruct (_ <? 2048); [cbn [app]; eauto|].
    destruct (_ <? 65536); cbn [app]; eauto.
  - intros H. apply andb_true_iff in H. destruct H as [H _].
    apply andb_true_iff in H. destruct H as [H _].
    apply negb_true_iff in H. rewrite H.
    unfold utf8_bytes.
    destruct (_ <? 128); [cbn [app]; eauto|].
    destruct (_ <? 2048); [cbn [app]; eauto|].
    destruct (_ <? 65536); cbn [app]; eauto.
Qed.

(* ------------------------------------------------------------------ *)
(** ** String literals *)

Lemma hex_value_digit (d : Z) : 0 <= d < 16 -> hex_value (hex_digit d) = Some d.
Proof.
  intros H. unfold hex_value, hex_digit, in_range.
  destruct (Z.ltb_spec d 10); zcases; f_equal; lia.
Qed.

Lemma hex_digit_ascii (d : Z) : 0 <= d < 16 -> 0 <= hex_digit d < 128.
Proof. intros H. unfold hex_digit. destruct (d <? 10); lia. Qed.

Lemma prepend_some (c : Z) (cs rest : jsstring) :
  prepend c (Some (cs, rest)) = Some (c :: cs, rest).
Proof. reflexivity. Qed.

Lemma parse_chars_plain (c : Z) (r : jsstring) :
  c <> 34 -> c <> 92 -> 32 <= c ->
  parse_chars (c :: r) = prepend c (parse_chars r).
Proof.
  intros H1 H2 H3. cbn [parse_chars].
  destruct (Z.eqb_spec c 34); [contradiction|].
  destruct (Z.eqb_spec c 92); [contradiction|].
  destruct (Z.ltb_spec c 32); [lia|]. reflexivity.
Qed.

Lemma parse_chars_unicode (c : Z) (r : jsstring) :
  0 <= c < 65536 ->
  parse_chars (unicode_escape c ++ r) = prepend c (parse_chars r).
Proof.
  intros H. unfold unicode_escape, hex4. cbn [app parse_chars].
  cbn [Z.eqb Pos.eqb].
  rewrite !hex_value_digit by (Z.div_mod_to_equations; lia).
  f_equal. Z.div_mod_to_equations; lia.
Qed.

Lemma parse_chars_unit (c : Z) (r : jsstring) :
  0 <= c < 65536 ->
  parse_chars (quote_unit c ++ r) = prepend c (parse_chars r).
Proof.
  intros H. unfold quote_unit.
  destruct (Z.eqb_spec c 8); [subst; reflexivity|].
  destruct (Z.eqb_spec c 9); [subst; reflexivity|].
  destruct (Z.eqb_spec c 10); [subst; reflexivity|].
  destruct (Z.eqb_spec c 12); [subst; reflexivity|].
  destruct (Z.eqb_spec c 13); [subst; reflexivity|].
  destruct (Z.eqb_spec c 34); [subst; reflexivity|].
  destruct (Z.eqb_spec c 92); [subst; reflexivity|].
  destruct (Z.ltb_spec c 32); [apply parse_chars_unicode; assumption|].
  destruct (is_high_surrogate c || is_low_surrogate c);
    [apply parse_chars_unicode; assumption|].
  cbn [app]. apply parse_chars_plain; assumption.
Qed.

Lemma surrogate_plain (c : Z) :
  is_high_surrogate c = true \/ is_low_surrogate c = true ->
  c <> 34 /\ c <> 92 /\ 32 <= c /\ 0 <= c < 65536.
Proof.
  unfold is_high_surrogate, is_low_surrogate.
  intros [H|H]; apply andb_true_iff in H; destruct H as [H1 H2];
    apply Z.leb_le in H1, H2; lia.
Qed.

Lemma code_unit_range (c : Z) : code_unit c = true -> 0 <= c < 65536.
Proof.
  unfold code_unit, in_range. intros H. apply andb_true_iff in H.
  destruct H as [H1 H2]. apply Z.leb_le in H1, H2. lia.
Qed.

Lemma parse_chars_quote_bounded (n : nat) :
  forall s rest, (length s <= n)%nat -> forallb code_unit s = true ->
  parse_chars (quote_body s ++ 34 :: rest) = Some (s, rest).
Proof.
  induction n as [|n IH]; intros s rest Hlen Hs.
  - destruct s; [reflexivity|simpl in Hlen; lia].
  - destruct s as [|c s']; [reflexivity|].
    cbn [forallb] in Hs. apply andb_true_iff in Hs. destruct Hs as [Hc Hs].
    apply code_unit_range in Hc.
    cbn [quote_body].
    destruct (is_high_surrogate c) eqn:Hh.
    + destruct s' as [|d s''].
      * rewrite parse_chars_unicode by assumption. reflexivity.
      * destruct (is_low_surrogate d) eqn:Hl.
        -- cbn [forallb] in Hs. apply andb_true_iff in Hs. destruct Hs as [Hd Hs].
           destruct (surrogate_plain c (or_introl Hh)) as (C1 & C2 & C3 & _).
           destruct (surrogate_plain d (or_intror Hl)) as (D1 & D2 & D3 & _).
           cbn [app].
           rewrite (parse_chars_plain c _ C1 C2 C3), (parse_chars_plain d _ D1 D2 D3).
           rewrite IH by (assumption || (cbn [length] in *; lia)). reflexivity.
        -- rewrite <- app_assoc, parse_chars_unicode by assumption.
           rewrite IH by (assumption || (cbn [length] in *; lia)). reflexivity.
    + rewrite <- app_assoc, parse_chars_unit by assumption.
      rewrite IH by (assumption || (cbn [length] in *; lia)). reflexivity.
Qed.

(** The characters of a quoted string parse back to the string. *)
Lemma parse_chars_quote (s rest : jsstring) :
  forallb code_unit s = true ->
  parse_chars (quote_body s ++ 34 :: rest) = Some (s, rest).
Proof. apply (parse_chars_quote_bounded (length s)). apply le_n. Qed.

Lemma unicode_escape_well_formed (c : Z) (s : jsstring) :
  0 <= c < 65536 -> well_formed s = true -> well_formed (unicode_escape c ++ s) = true.
Proof.
  intros H Hs. unfold unicode_escape, hex4. cbn [app].
  repeat (apply well_formed_cons_ascii;
          [try lia; apply hex_digit_ascii; Z.div_mod_to_equations; lia|]).
  exact Hs.
Qed.

Lemma quote_unit_well_formed (c : Z) (s : jsstring) :
  0 <= c < 65536 -> is_high_surrogate c = false ->
  well_formed s = true -> well_formed (quote_unit c ++ s) = true.
Proof.
  intros H Hh Hs. unfold quote_unit.
  destruct (Z.eqb_spec c 8);
    [cbn [app]; repeat (apply well_formed_cons_ascii; [lia|]); exact Hs|].
  destruct (Z.eqb_spec c 9);
    [cbn [app]; repeat (apply well_formed_cons_ascii; [lia|]); exact Hs|].
  destruct (Z.eqb_spec c 10);
    [cbn [app]; repeat (apply well_formed_cons_ascii; [lia|]); exact Hs|].
  destruct (Z.eqb_spec c 12);
    [cbn [app]; repeat (apply well_formed_cons_ascii; [lia|]); exact Hs|].
  destruct (Z.eqb_spec c 13);
    [cbn [app]; repeat (apply well_formed_cons_ascii; [lia|]); exact Hs|].
  destruct (Z.eqb_spec c 34);
    [cbn [app]; repeat (apply well_formed_cons_ascii; [lia|]); exact Hs|].
  destruct (Z.eqb_spec c 92);
    [cbn [app]; repeat (apply well_formed_cons_ascii; [lia|]); exact Hs|].
  destruct (Z.ltb_spec c 32); [apply unicode_escape_well_formed; assumption|].
  rewrite Hh. cbn [orb].
  destruct (is_low_surrogate c) eqn:Hl;
    [apply unicode_escape_well_formed; assumption|].
  cbn [app well_formed]. rewrite Hh, Hl, Hs. cbn [negb andb].
  unfold code_unit, in_range. zcases.
Qed.

Lemma quote_body_well_formed_bounded (n : nat) :
  forall s tail, (length s <= n)%nat -> forallb code_unit s = true ->
  well_formed tail = true -> well_formed (quote_body s ++ tail) = true.
Proof.
  induction n as [|n IH]; intros s tail Hlen Hs Ht.
  - destruct s; [exact Ht|simpl in Hlen; lia].
  - destruct s as [|c s']; [exact Ht|].
    cbn [forallb] in Hs. apply andb_true_iff in Hs. destruct Hs as [Hc Hs].
    apply code_unit_range in Hc.
    cbn [quote_body].
    destruct (is_high_surrogate c) eqn:Hh.
    + destruct s' as [|d s''].
      * apply unicode_escape_well_formed; assumption.
      * destruct (is_low_surrogate d) eqn:Hl.
        -- cbn [forallb] in Hs. apply andb_true_iff in Hs. destruct Hs as [Hd Hs].
           cbn [app well_formed]. rewrite Hh, Hl. cbn [andb].
           apply IH; try assumption. cbn [length] in *. lia.
        -- rewrite <- app_assoc. apply unicode_escape_well_formed; [assumption|].
           apply IH; try assumption. cbn [length] in *. lia.
    + rewrite <- app_assoc. apply quote_unit_well_formed; try assumption.
      apply IH; try assumption. cbn [length] in *. lia.
Qed.

Lemma quote_well_formed (s tail : jsstring) :
  forallb code_unit s = true -> well_formed tail = true ->
  well_formed (quote s ++ tail) = true.
Proof.
  intros Hs Ht. unfold quote. cbn [app].
  apply well_formed_cons_ascii; [lia|].
  rewrite <- app_assoc.
  apply (quote_body_well_formed_bounded (length s)); [apply le_n|assumption|].
  cbn [app]. apply well_formed_cons_ascii; [lia|assumption].
Qed.

(* ------------------------------------------------------------------ *)
(** ** Number literals *)

Lemma parse_digits_digit (c : Z) (s : jsstring) (a : Z) :
  48 <= c <= 57 -> parse_digits (c :: s) a = parse_digits s (a * 10 + (c - 48)).
Proof.
  intros H. cbn [parse_digits]. unfold is_digit, in_range.
  destruct (Z.leb_spec 48 c); [|lia]. destruct (Z.leb_spec c 57); [|lia].
  reflexivity.
Qed.

Lemma digits_acc_spec (fuel : nat) :
  forall n acc, (1 <= fuel)%nat -> 0 <= n < 2 ^ Z.of_nat fuel ->
  exists d ds,
    digits_acc fuel n acc = d :: ds ++ acc /\
    Forall (fun c => 48 <= c <= 57) (d :: ds) /\
    (if n =? 0 then d = 48 /\ ds = [] else 49 <= d) /\
    (forall a tail,
        parse_digits (d :: ds ++ tail) a =
        parse_digits tail (a * 10 ^ Z.of_nat (length (d :: ds)) + n)).
Proof.
  induction fuel as [|fuel IH]; intros n acc Hf Hn; [lia|].
  cbn [digits_acc].
  destruct (Z.ltb_spec n 10) as [Hsmall|Hbig].
  - exists (48 + n), []. cbn [app length].
    split; [rewrite Z.mod_small by lia; reflexivity|]. split.
    + constructor; [lia|constructor].
    + split.
      * destruct (Z.eqb_spec n 0); [subst; auto|lia].
      * intros a tail. rewrite parse_digits_digit by lia.
        f_equal. change (Z.of_nat 1) with 1. lia.
  - assert (Hq : 0 <= n / 10 < 2 ^ Z.of_nat fuel).
    { rewrite Nat2Z.inj_succ, Z.pow_succ_r in Hn by lia.
      Z.div_mod_to_equations. lia. }
    assert (Hfuel : (1 <= fuel)%nat).
    { destruct fuel; [|lia]. change (2 ^ Z.of_nat 0) with 1 in Hq.
      Z.div_mod_to_equations. lia. }
    destruct (IH (n / 10) ((48 + n mod 10) :: acc) Hfuel Hq)
      as (d & ds & Hd & Hall & Hhead & Hparse).
    exists d, (ds ++ [48 + n mod 10]).
    split; [rewrite Hd, <- app_assoc; reflexivity|].
    split.
    + rewrite app_comm_cons. apply Forall_app. split; [exact Hall|].
      constructor; [Z.div_mod_to_equations; lia|constructor].
    + split.
      * destruct (Z.eqb_spec n 0); [lia|].
        destruct (Z.eqb_spec (n / 10) 0); [Z.div_mod_to_equations; lia|exact Hhead].
      * intros a tail. rewrite <- app_assoc. cbn [app].
        rewrite Hparse, parse_digits_digit by (Z.div_mod_to_equations; lia).
        f_equal. rewrite app_comm_cons, length_app. cbn [length].
        rewrite Nat2Z.inj_add. change (Z.of_nat 1) with 1.
        rewrite Z.pow_add_r by lia. change (10 ^ 1) with 10.
        Z.div_mod_to_equations. lia.
Qed.

Lemma digits_spec (n : Z) :
  0 <= n ->
  exists d ds,
    digits n = d :: ds /\
    Forall (fun c => 48 <= c <= 57) (d :: ds) /\
    (if n =? 0 then d = 48 /\ ds = [] else 49 <= d) /\
    (forall tail, parse_digits (ds ++ tail) (d - 48) = parse_digits tail n).
Proof.
  intros Hn. unfold digits.
  destruct (digits_acc_spec (S (Z.to_nat (Z.log2 n))) n []) as (d & ds & Hd & Hall & Hhead & Hparse).
  - lia.
  - split; [lia|]. rewrite Nat2Z.inj_succ, Z2Nat.id by apply Z.log2_nonneg.
    destruct (Z.eqb_spec n 0); [subst; reflexivity|].
    apply Z.log2_spec. lia.
  - exists d, ds. rewrite app_nil_r in Hd.
    split; [exact Hd|]. split; [exact Hall|]. split; [exact Hhead|].
    intros tail. specialize (Hparse 0 tail).
    rewrite parse_digits_digit in Hparse by (inversion Hall; assumption).
    replace (d - 48) with (0 * 10 + (d - 48)) by lia.
    rewrite Hparse. f_equal.
Qed.

Lemma parse_digits_stop (rest : jsstring) (n : Z) :
  delimited rest -> parse_digits rest n = (n, rest).
Proof.
  destruct rest as [|c rest]; [reflexivity|].
  cbn [delimited parse_digits]. unfold is_digit, in_range.
  intros [->|[->| ->]]; reflexivity.
Qed.

Lemma number_of_safe (negative : bool) (n : Z) :
  0 <= n < 2 ^ 53 -> number_of negative n 1 = VNum (signed negative n).
Proof.
  intros H. unfold number_of.
  rewrite Z.mod_1_r, Z.div_1_r. cbn [Z.eqb andb].
  destruct (Z.ltb_spec n (2 ^ 53)); [reflexivity|lia].
Qed.

Lemma number_of_decimal_safe (negative : bool) (n : Z) :
  0 <= n < 2 ^ 53 ->
  number_of_decimal negative n 0 = VNum (if negative then - n else n).
Proof.
  intros H. unfold number_of_decimal.
  destruct (Z.eqb_spec n 0) as [->|Hn]; [destruct negative; reflexivity|].
  cbn [Z.leb Z.compare].
  assert (L : Z.log2 n < 53) by (apply Z.log2_lt_pow2; lia).
  destruct (Z.ltb_spec 1100 (Z.log2 n + 3 * 0)); [lia|].
  change (10 ^ 0) with 1. rewrite Z.mul_1_r.
  apply number_of_safe. exact H.
Qed.

Lemma finish_number_stop (negative : bool) (n : Z) (rest : jsstring) :
  0 <= n < 2 ^ 53 -> delimited rest ->
  finish_number negative n rest = Some (VNum (if negative then - n else n), rest).
Proof.
  intros Hn. rewrite <- (number_of_decimal_safe negative n Hn).
  destruct rest as [|c rest]; [reflexivity|].
  cbn [delimited]. unfold finish_number, finish_exponent.
  intros [->|[->| ->]]; reflexivity.
Qed.

Lemma parse_unsigned_digits (negative : bool) (n : Z) (rest : jsstring) :
  0 <= n < 2 ^ 53 -> delimited rest ->
  parse_unsigned negative (digits n ++ rest) =
  Some (VNum (if negative then - n else n), rest).
Proof.
  intros Hn Hrest.
  destruct (digits_spec n (proj1 Hn)) as (d & ds & -> & Hall & Hhead & Hparse).
  cbn [app parse_unsigned].
  destruct (Z.eqb_spec n 0) as [->|Hnz].
  - destruct Hhead as [-> ->]. cbn [app Z.eqb Pos.eqb].
    apply finish_number_stop; [lia|exact Hrest].
  - assert (Hd : 49 <= d <= 57) by (inversion Hall; lia).
    destruct (Z.eqb_spec d 48); [lia|].
    unfold in_range.
    destruct (Z.leb_spec 49 d); [|lia]. destruct (Z.leb_spec d 57); [|lia].
    cbn [andb]. rewrite Hparse, (parse_digits_stop _ _ Hrest).
    apply finish_number_stop; assumption.
Qed.

Lemma digits_head (n : Z) :
  0 <= n -> exists d ds, digits n = d :: ds /\ 48 <= d <= 57.
Proof.
  intros Hn. destruct (digits_spec n Hn) as (d & ds & E & Hall & _).
  exists d, ds. split; [exact E|]. inversion Hall. assumption.
Qed.

(** The decimal notation of an integer below 2^53 parses back to it. *)
Lemma parse_number_decimal (n : Z) (rest : jsstring) :
  - 2 ^ 53 < n < 2 ^ 53 ->
  delimited rest -> parse_number (decimal n ++ rest) = Some (VNum n, rest).
Proof.
  intros Hn Hrest. unfold decimal.
  destruct (Z.ltb_spec n 0).
  - cbn [app parse_number Z.eqb Pos.eqb].
    rewrite parse_unsigned_digits by (assumption || lia).
    repeat f_equal. lia.
  - destruct (digits_head n ltac:(lia)) as (d & ds & E & Hd).
    pose proof (parse_unsigned_digits false n rest ltac:(lia) Hrest) as P.
    rewrite E in *. cbn [app parse_number].
    destruct (Z.eqb_spec d 45); [lia|]. exact P.
Qed.

Lemma decimal_ascii (n : Z) : Forall (fun c => 0 <= c < 128) (decimal n).
Proof.
  unfold decimal. destruct (Z.ltb_spec n 0).
  - constructor; [lia|].
    destruct (digits_spec (- n) ltac:(lia)) as (d & ds & -> & Hall & _).
    eapply Forall_impl; [|exact Hall]. cbn. intros; lia.
  - destruct (digits_spec n ltac:(lia)) as (d & ds & -> & Hall & _).
    eapply Forall_impl; [|exact Hall]. cbn. intros; lia.
Qed.

Lemma decimal_head (n : Z) :
  exists c s, decimal n = c :: s /\ (c = 45 \/ 48 <= c <= 57).
Proof.
  unfold decimal. destruct (Z.ltb_spec n 0).
  - eauto.
  - destruct (digits_head n ltac:(lia)) as (d & ds & -> & Hd). eauto.
Qed.

(* ------------------------------------------------------------------ *)
(** ** JSON texts *)

(** Induction on values, with the hypothesis for every element of an array
    and every member of an object. *)
Lemma jsval_nested_ind (P : jsval -> Prop) :
  P VUndef -> P VNull -> (forall b, P (VBool b)) -> (forall n, P (VNum n)) ->
  P VNaN -> (forall s, P (VStr s)) ->
  (forall items, Forall P items -> P (VArr items)) ->
  (forall props, Forall (fun kv => P (snd kv)) props -> P (VObj props)) ->
  (forall x, P (VFloat x)) ->
  forall v, P v.
Proof.
  intros HU HN HB HZ HNaN HS HA HO HF.
  fix IH 1. intros v. destruct v as [| |b|n| |s|items|props|x].
  - exact HU.
  - exact HN.
  - apply HB.
  - apply HZ.
  - exact HNaN.
  - apply HS.
  - apply HA.
    exact ((fix all (l : list jsval) : Forall P l :=
              match l with
              | [] => Forall_nil P
              | x :: r => Forall_cons x (IH x) (all r)
              end) items).
  - apply HO.
    exact ((fix all (l : list (jsstring * jsval))
              : Forall (fun kv => P (snd kv)) l :=
              match l with
              | [] => Forall_nil _
              | x :: r => Forall_cons x (IH (snd x)) (all r)
              end) props).
  - apply HF.
Qed.

Lemma lookup_app_none {A : Type} (k k' : jsstring) (v : A) (acc : list (jsstring * A)) :
  lookup k acc = None -> k <> k' -> lookup k (acc ++ [(k', v)]) = None.
Proof.
  intros H Hne. induction acc as [|[k0 v0] acc IH]; cbn [app lookup] in *.
  - apply jsstring_eqb_neq in Hne. rewrite Hne. reflexivity.
  - destruct (jsstring_eqb k k0); [discriminate|]. apply IH, H.
Qed.

Lemma set_prop_new {A : Type} (k : jsstring) (v : A) (acc : list (jsstring * A)) :
  lookup k acc = None -> set_prop k v acc = acc ++ [(k, v)].
Proof.
  induction acc as [|[k0 v0] acc IH]; cbn [lookup set_prop app]; [reflexivity|].
  destruct (jsstring_eqb k k0); [discriminate|].
  intros H. rewrite (IH H). reflexivity.
Qed.

Lemma existsb_eqb_false (k : jsstring) (keys : list jsstring) :
  existsb (jsstring_eqb k) keys = false -> forall k', In k' keys -> k <> k'.
Proof.
  induction keys as [|k0 keys IH]; cbn [existsb]; intros H k' Hin; [destruct Hin|].
  apply orb_false_iff in H. destruct H as [H0 H].
  destruct Hin as [<-|Hin]; [apply jsstring_eqb_neq, H0|apply IH; assumption].
Qed.

Lemma join_cons2 (sep a b : jsstring) (rest : list jsstring) :
  join sep (a :: b :: rest) = a ++ sep ++ join sep (b :: rest).
Proof. reflexivity. Qed.

Lemma join_well_formed (parts : list jsstring) (tail : jsstring) :
  Forall (fun p => well_formed p = true) parts -> well_formed tail = true ->
  well_formed (join [44] parts ++ tail) = true.
Proof.
  intros H Ht. induction H as [|p parts Hp Hparts IH]; [exact Ht|].
  destruct parts as [|q parts].
  - cbn [join]. apply well_formed_app; assumption.
  - rewrite join_cons2, <- !app_assoc. apply well_formed_app; [exact Hp|].
    cbn [app]. apply well_formed_cons_ascii; [lia|]. exact IH.
Qed.

Lemma parse_value_literal_head (f : nat) (c : Z) (s : jsstring) :
  c = 45 \/ 48 <= c <= 57 ->
  parse_value (S f) (c :: s) = parse_number (c :: s).
Proof.
  intros H. cbn [parse_value skip_ws]. unfold is_ws.
  destruct (Z.eqb_spec c 32); [lia|]. destruct (Z.eqb_spec c 9); [lia|].
  destruct (Z.eqb_spec c 10); [lia|]. destruct (Z.eqb_spec c 13); [lia|].
  cbn [orb].
  destruct (Z.eqb_spec c 123); [lia|]. destruct (Z.eqb_spec c 91); [lia|].
  destruct (Z.eqb_spec c 34); [lia|].
  cbn [startsWith str map list_ascii_of_string].
  cbn [N_of_ascii N_of_digits Z.of_N N.add N.mul Pos.add Pos.mul Pos.succ].
  destruct (Z.eqb_spec c 116); [lia|]. destruct (Z.eqb_spec c 102); [lia|].
  destruct (Z.eqb_spec c 110); [lia|].
  reflexivity.
Qed.

Lemma parses_back_atoms :
  parses_back VNull /\ (forall b, parses_back (VBool b)) /\
  (forall n, parses_back (VNum n)) /\ (forall s, parses_back (VStr s)).
Proof.
  split; [|split; [|split]].
  - intros _. eexists. split; [reflexivity|]. split; [reflexivity|].
    split; [eexists; eexists; split; [reflexivity|]; split;
             [reflexivity|intros E; vm_compute in E; discriminate]|].
    intros fuel rest Hf _. destruct fuel; [cbn [length] in Hf; lia|]. reflexivity.
  - intros b _. destruct b.
    + eexists. split; [reflexivity|]. split; [reflexivity|].
      split; [eexists; eexists; split; [reflexivity|]; split;
             [reflexivity|intros E; vm_compute in E; discriminate]|].
      intros fuel rest Hf _. destruct fuel; [cbn [length] in Hf; lia|]. reflexivity.
    + eexists. split; [reflexivity|]. split; [reflexivity|].
      split; [eexists; eexists; split; [reflexivity|]; split;
             [reflexivity|intros E; vm_compute in E; discriminate]|].
      intros fuel rest Hf _. destruct fuel; [cbn [length] in Hf; lia|]. reflexivity.
  - intros n Hj. cbn [json_value] in Hj. apply andb_true_iff in Hj.
    destruct Hj as [Hlo Hhi]. apply Z.ltb_lt in Hlo, Hhi.
    exists (decimal n). split; [reflexivity|].
    split; [apply well_formed_ascii, decimal_ascii|].
    destruct (decimal_head n) as (c & s & E & Hc).
    split.
    + exists c, s. split; [exact E|]. unfold is_ws.
      split; [destruct Hc as [->|Hc]; [reflexivity|zcases]|lia].
    + intros fuel rest Hf Hrest. destruct fuel; [lia|].
      pose proof (parse_number_decimal n rest (conj Hlo Hhi) Hrest) as Hp.
      rewrite E in *. cbn [app] in *.
      rewrite parse_value_literal_head by exact Hc. exact Hp.
  - intros s Hs. cbn [json_value] in Hs. exists (quote s).
    split; [reflexivity|]. split.
    + pose proof (quote_well_formed s [] Hs eq_refl) as H.
      rewrite app_nil_r in H. exact H.
    + split; [eexists; eexists; split; [reflexivity|]; split;
             [reflexivity|intros E; vm_compute in E; discriminate]|].
      intros fuel rest Hf _. destruct fuel; [lia|].
      unfold quote. cbn [app parse_value skip_ws is_ws Z.eqb Pos.eqb orb].
      rewrite <- app_assoc. cbn [app].
      rewrite (parse_chars_quote s rest Hs). reflexivity.
Qed.

Lemma element_text_of (v : jsval) (t : jsstring) :
  stringify v = Some t -> element_text v = t.
Proof. intros H. unfold element_text. rewrite H. reflexivity. Qed.

Lemma elements_parse (items : list jsval) :
  Forall parses_back items -> forallb json_value items = true -> items <> [] ->
  forall G acc rest,
    (length (join [44%Z] (map element_text items)) + 2 <= G)%nat ->
    parse_elements G (join [44] (map element_text items) ++ 93 :: rest) acc =
    Some (VArr (acc ++ items), rest).
Proof.
  intros Hall. induction Hall as [|i items Hi Hitems IH]; intros Hjv Hne;
    [contradiction|].
  cbn [forallb] in Hjv. apply andb_true_iff in Hjv. destruct Hjv as [Hjvi Hjv].
  destruct (Hi Hjvi) as (t & Ht & _ & (c & t' & Hhead & _) & Hparse).
  intros G acc rest HG.
  destruct items as [|i2 more].
  - cbn [map join] in *. rewrite (element_text_of _ _ Ht) in *.
    destruct G; [lia|]. cbn [parse_elements].
    rewrite Hparse by (lia || (cbn; auto)).
    reflexivity.
  - cbn [map] in *. rewrite join_cons2 in *. rewrite (element_text_of _ _ Ht) in *.
    rewrite !length_app in HG. cbn [length] in HG.
    rewrite <- !app_assoc. cbn [app].
    destruct G; [lia|]. cbn [parse_elements].
    rewrite Hparse by (lia || (cbn; auto)).
    cbn [skip_ws is_ws Z.eqb Pos.eqb orb].
    rewrite (IH Hjv ltac:(discriminate)) by lia.
    rewrite <- app_assoc. reflexivity.
Qed.

Lemma members_parse (props : list (jsstring * jsval)) :
  Forall (fun kv => parses_back (snd kv)) props ->
  forallb (fun kv => forallb code_unit (fst kv) && json_value (snd kv)) props = true ->
  nodup_keys (map fst props) = true ->
  props <> [] ->
  forall G acc rest,
    (length (join [44%Z] (map member_text props)) + 2 <= G)%nat ->
    (forall kv, In kv props -> lookup (fst kv) acc = None) ->
    parse_members G (join [44] (map member_text props) ++ 125 :: rest) acc =
    Some (VObj (acc ++ props), rest).
Proof.
  intros Hall. induction Hall as [|[k v] props Hv Hprops IH]; intros Hjv Hnd Hne;
    [contradiction|].
  cbn [forallb fst snd] in Hjv. apply andb_true_iff in Hjv. destruct Hjv as [Hkv Hjv].
  apply andb_true_iff in Hkv. destruct Hkv as [Hk Hjvv].
  cbn [map fst nodup_keys] in Hnd. apply andb_true_iff in Hnd.
  destruct Hnd as [Hfresh Hnd]. apply negb_true_iff in Hfresh.
  cbn [snd] in Hv.
  destruct (Hv Hjvv) as (t & Ht & _ & _ & Hparse).
  intros G acc rest HG Hacc.
  assert (Hset : set_prop k v acc = acc ++ [(k, v)])
    by (apply set_prop_new; apply (Hacc (k, v)); left; reflexivity).
  assert (Hm : member_text (k, v) = 34 :: quote_body k ++ 34 :: 58 :: t).
  { unfold member_text, quote. cbn [fst snd]. rewrite (element_text_of _ _ Ht).
    cbn [app]. rewrite <- app_assoc. reflexivity. }
  destruct props as [|kv2 more].
  - cbn [map join] in *. rewrite Hm in *. cbn [length] in HG.
    rewrite !length_app in HG. cbn [length] in HG.
    destruct G; [lia|]. cbn [app parse_members skip_ws is_ws Z.eqb Pos.eqb orb].
    rewrite <- app_assoc. cbn [app].
    rewrite (parse_chars_quote k _ Hk).
    cbn [skip_ws is_ws Z.eqb Pos.eqb orb].
    rewrite <- ?app_assoc.
    rewrite Hparse by (lia || (cbn; auto)).
    cbn [skip_ws is_ws Z.eqb Pos.eqb orb]. rewrite Hset. reflexivity.
  - cbn [map] in *. rewrite join_cons2 in *. rewrite Hm in *. cbn [length] in HG.
    rewrite !length_app in HG. cbn [length] in HG. rewrite !length_app in HG.
    cbn [length] in HG.
    destruct G; [lia|]. cbn [app parse_members skip_ws is_ws Z.eqb Pos.eqb orb].
    rewrite <- !app_assoc. cbn [app].
    rewrite (parse_chars_quote k _ Hk).
    cbn [skip_ws is_ws Z.eqb Pos.eqb orb].
    rewrite <- ?app_assoc. cbn [app].
    rewrite Hparse by (lia || (cbn; auto)).
    cbn [skip_ws is_ws Z.eqb Pos.eqb orb]. rewrite Hset.
    rewrite (IH Hjv Hnd ltac:(discriminate)).
    + rewrite <- app_assoc. reflexivity.
    + lia.
    + intros kv Hin. apply lookup_app_none.
      * apply Hacc. right. exact Hin.
      * intros E. apply (existsb_eqb_false _ _ Hfresh (fst kv)); [|symmetry; exact E].
        exact (in_map fst _ kv Hin).
Qed.

Lemma object_members (props : list (jsstring * jsval)) :
  Forall (fun kv => parses_back (snd kv)) props ->
  forallb (fun kv => forallb code_unit (fst kv) && json_value (snd kv)) props = true ->
  flat_map (fun kv => match stringify (snd kv) with
                      | Some t => [quote (fst kv) ++ [58] ++ t]
                      | None => []
                      end) props = map member_text props.
Proof.
  intros Hall. induction Hall as [|[k v] props Hv _ IH]; intros Hjv; [reflexivity|].
  cbn [forallb fst snd] in Hjv. apply andb_true_iff in Hjv. destruct Hjv as [Hkv Hjv].
  apply andb_true_iff in Hkv. destruct Hkv as [Hk Hjvv].
  cbn [snd] in Hv. destruct (Hv Hjvv) as (t & Ht & _).
  cbn [flat_map map fst snd]. rewrite Ht, (IH Hjv).
  unfold member_text. cbn [fst snd]. rewrite (element_text_of _ _ Ht). reflexivity.
Qed.

Lemma elements_well_formed (items : list jsval) :
  Forall parses_back items -> forallb json_value items = true ->
  Forall (fun p => well_formed p = true) (map element_text items).
Proof.
  intros Hall. induction Hall as [|i items Hi _ IH]; intros Hjv; [constructor|].
  cbn [forallb] in Hjv. apply andb_true_iff in Hjv. destruct Hjv as [Hjvi Hjv].
  destruct (Hi Hjvi) as (t & Ht & Hwf & _).
  cbn [map]. constructor; [rewrite (element_text_of _ _ Ht); exact Hwf|apply IH, Hjv].
Qed.

Lemma members_well_formed (props : list (jsstring * jsval)) :
  Forall (fun kv => parses_back (snd kv)) props ->
  forallb (fun kv => forallb code_unit (fst kv) && json_value (snd kv)) props = true ->
  Forall (fun p => well_formed p = true) (map member_text props).
Proof.
  intros Hall. induction Hall as [|[k v] props Hv _ IH]; intros Hjv; [constructor|].
  cbn [forallb fst snd] in Hjv. apply andb_true_iff in Hjv. destruct Hjv as [Hkv Hjv].
  apply andb_true_iff in Hkv. destruct Hkv as [Hk Hjvv].
  cbn [snd] in Hv. destruct (Hv Hjvv) as (t & Ht & Hwf & _).
  cbn [map]. constructor; [|apply IH, Hjv].
  unfold member_text. cbn [fst snd]. rewrite (element_text_of _ _ Ht).
  apply quote_well_formed; [exact Hk|].
  cbn [app]. apply well_formed_cons_ascii; [lia|exact Hwf].
Qed.

(** Every JSON value parses back from its text. *)
Lemma json_parses_back (v : jsval) : parses_back v.
Proof.
  induction v as [| |b|n| |s|items IH|props IH|x] using jsval_nested_ind.
  - intros H. discriminate.
  - apply parses_back_atoms.
  - apply parses_back_atoms.
  - apply parses_back_atoms.
  - intros H. discriminate.
  - apply parses_back_atoms.
  - intros Hjv. cbn [json_value] in Hjv.
    exists ([91] ++ join [44] (map element_text items) ++ [93]).
    split; [reflexivity|]. split.
    + cbn [app]. apply well_formed_cons_ascii; [lia|].
      apply join_well_formed; [apply elements_well_formed; assumption|reflexivity].
    + split; [eexists; eexists; split; [reflexivity|]; split;
              [reflexivity|intros E; vm_compute in E; discriminate]|].
      intros fuel rest Hf _. cbn [app length] in Hf. rewrite length_app in Hf.
      cbn [length] in Hf.
      destruct fuel; [lia|].
      cbn [app parse_value skip_ws is_ws Z.eqb Pos.eqb orb].
      rewrite <- app_assoc. cbn [app].
      destruct items as [|i items].
      * reflexivity.
      * pose proof (elements_parse (i :: items) IH Hjv ltac:(discriminate)
                      fuel [] rest ltac:(lia)) as Hp.
        inversion IH as [|? ? Hi _]; subst.
        cbn [forallb] in Hjv. apply andb_true_iff in Hjv. destruct Hjv as [Hjvi _].
        destruct (Hi Hjvi) as (t & Ht & _ & (c & t' & -> & Hws & Hc) & _).
        assert (Hjoin : exists tail,
                   join [44] (map element_text (i :: items)) ++ 93 :: rest = c :: tail).
        { cbn [map]. rewrite (element_text_of _ _ Ht).
          destruct (map element_text items); cbn [join app]; eauto. }
        destruct Hjoin as [tail Hjoin]. rewrite Hjoin in *.
        cbn [skip_ws]. rewrite Hws.
        destruct (Z.eqb_spec c 93); [contradiction|]. exact Hp.
  - intros Hjv. cbn [json_value] in Hjv. apply andb_true_iff in Hjv.
    destruct Hjv as [Hjv Hnd].
    exists ([123] ++ join [44] (map member_text props) ++ [125]).
    split; [cbn [stringify]; rewrite (object_members props IH Hjv); reflexivity|].
    split.
    + cbn [app]. apply well_formed_cons_ascii; [lia|].
      apply join_well_formed; [apply members_well_formed; assumption|reflexivity].
    + split; [eexists; eexists; split; [reflexivity|]; split;
              [reflexivity|intros E; vm_compute in E; discriminate]|].
      intros fuel rest Hf _. cbn [app length] in Hf. rewrite length_app in Hf.
      cbn [length] in Hf.
      destruct fuel; [lia|].
      cbn [app parse_value skip_ws is_ws Z.eqb Pos.eqb orb].
      rewrite <- app_assoc. cbn [app].
      destruct props as [|[k v] props].
      * reflexivity.
      * pose proof (members_parse ((k, v) :: props) IH Hjv Hnd ltac:(discriminate)
                      fuel [] rest ltac:(lia) ltac:(reflexivity)) as Hp.
        assert (Hjoin : exists tail,
                   join [44] (map member_text ((k, v) :: props)) ++ 125 :: rest
                   = 34 :: tail).
        { cbn [map]. unfold member_text at 1, quote. cbn [fst app].
          destruct (map member_text props); cbn [join app]; eauto. }
        destruct Hjoin as [tail Hjoin]. rewrite Hjoin in *.
        cbn [skip_ws is_ws Z.eqb Pos.eqb orb]. exact Hp.
  - intros H. discriminate.
Qed.

(** [JSON.parse(JSON.stringify(v))] is [v], and the text has no lone
    surrogate. *)
Lemma JSON_parse_stringify (v : jsval) :
  json_value v = true ->
  exists c t,
    stringify v = Some (c :: t) /\ well_formed (c :: t) = true /\
    JSON_parse (c :: t) = Ret v.
Proof.
  intros Hjv.
  destruct (json_parses_back v Hjv) as (t & Ht & Hwf & (c & t' & -> & _) & Hparse).
  exists c, t'. split; [exact Ht|]. split; [exact Hwf|].
  unfold JSON_parse.
  pose proof (Hparse (S (length (c :: t'))) [] ltac:(lia) I) as Hp.
  rewrite app_nil_r in Hp. rewrite Hp. reflexivity.
Qed.

Lemma match_base64_data_uri (b : byte) (bs : buffer) :
  match_base64 (str "data:application/json;base64," ++ base64_encode (b :: bs)) =
  Some (base64_encode (b :: bs)).
Proof.
  assert (E : forall payload,
             match_base64 (str "data:application/json;base64," ++ payload) =
             rest_of_line payload) by reflexivity.
  rewrite E. unfold rest_of_line, base64_encode.
  rewrite b64_encode_on_one_line.
  destruct (b64_encode_nonempty b bs) as (c & s & ->). reflexivity.
Qed.

(* ------------------------------------------------------------------ *)
(** ** Encoding and decoding a registration document *)

(** The data URI of a text without lone surrogates resolves to what the
    text parses to. *)
Lemma fetch_data_uri (w : world) (c : Z) (t : jsstring) :
  well_formed (c :: t) = true ->
  fetchRegistrationFile w
    (str "data:application/json;base64," ++ base64_encode (utf8_encode (c :: t))) =
  try_catch (JSON_parse (c :: t)) (fun _ => Ret VNull).
Proof.
  intros Hwf.
  destruct (well_formed_utf8_nonempty c t Hwf) as (b & bs & Hbytes).
  unfold fetchRegistrationFile.
  change (negb (truthy (VStr (str "data:application/json;base64," ++ ?p))))
    with false.
  change (startsWith (str "data:application/json;base64," ++ ?p) (str "data:"))
    with true.
  cbv iota. rewrite Hbytes, match_base64_data_uri.
  rewrite base64_roundtrip, <- Hbytes, (utf8_roundtrip _ Hwf).
  reflexivity.
Qed.

(** C5. A JSON value, encoded by [toBase64DataURI] and resolved by
    [fetchRegistrationFile] in any environment, comes back as the same
    value: the data URI is built, its payload is matched, and base64, UTF-8
    and JSON are each undone.  The JSON values are [null], the booleans,
    the integers of the safe range, the strings of UTF-16 code units, and
    the arrays and objects (with distinct keys) of such values. *)
Theorem registration_data_uri_round_trip (w : world) (x : jsval) :
  json_value x = true ->
  exists uri,
    toBase64DataURI x = Ret uri /\
    fetchRegistrationFile w uri = Ret x.
Proof.
  intros Hjv.
  destruct (JSON_parse_stringify x Hjv) as (c & t & Ht & Hwf & Hparse).
  exists (str "data:application/json;base64," ++ base64_encode (utf8_encode (c :: t))).
  split.
  - unfold toBase64DataURI. rewrite Ht. reflexivity.
  - rewrite (fetch_data_uri w c t Hwf), Hparse. reflexivity.
Qed.

Lemma registration_data_uri_round_trip_witness :
  exists uri,
    toBase64DataURI sample_registration = Ret uri /\
    fetchRegistrationFile (sample_world [] (Err network_error)) uri
    = Ret sample_registration.
Proof.
  apply (registration_data_uri_round_trip (sample_world [] (Err network_error))
           sample_registration).
  vm_compute. reflexivity.
Defined.

Example sample_registration_round_trip :
  (uri <- toBase64DataURI sample_registration ;;
   fetchRegistrationFile (sample_world [] (Err network_error)) uri)
  = Ret sample_registration.
Proof. vm_compute. reflexivity. Qed.

(* ------------------------------------------------------------------ *)
(** ** The update command against the chain *)

Lemma hashIdentityFiles_same_files (w w' : world) (ws : jsstring) :
  (forall a b, path_join w' a b = path_join w a b) ->
  (forall p, readFile w' p = readFile w p) ->
  hashIdentityFiles w' ws = hashIdentityFiles w ws.
Proof.
  intros Hj Hr. rewrite !hashIdentityFiles_eq.
  assert (E : forall f, read_entry w' ws f = read_entry w ws f).
  { intros f. unfold read_entry. rewrite Hj, Hr. reflexivity. }
  rewrite !E. reflexivity.
Qed.


Lemma buildRegistration_identityFiles (w : world) (config doc : jsval)
    (p : jsstring) (h : hash_results) :
  buildRegistration w config = Ret doc ->
  get_prop_opt config (str "workspacePath") = VStr p ->
  truthy (VStr p) = true ->
  hashIdentityFiles w p = Ret h ->
  get_prop_opt doc (str "identityFiles") =
  VObj [ (str "SOUL.md", hash_or_null h (str "SOUL.md"));
         (str "USER.md", hash_or_null h (str "USER.md"));
         (str "IDENTITY.md", hash_or_null h (str "IDENTITY.md"));
         (str "_composite", js_or (VStr (ce_hash (hr_composite h))) VNull);
         (str "_algorithm", VStr (str "keccak256"));
         (str "_hashDate", VStr (hash_date w)) ].
Proof.
  intros B Hp Ht Hh. unfold buildRegistration in B.
  rewrite Hp, Ht, Hh in B. cbn [bind] in B.
  destruct config; try discriminate;
    (destruct (spread _) as [sv|e|c] in B; cbn [bind] in B; try discriminate;
     injection B as <-; reflexivity).
Qed.




(* ================================================================== *)
(** * Further properties of the code *)

(** ** The hashing engine: the form of a digest *)

Lemma squeeze32_bytes (st : list Z) :
  Forall (fun b => 0 <= b < 256) (Keccak.squeeze32 st).
Proof.
  unfold Keccak.squeeze32. apply Forall_flat_map. apply Forall_forall. intros i _.
  unfold Keccak.bytes_of_lane. apply Forall_map. apply Forall_forall. intros k _.
  apply Z.mod_pos_bound. lia.
Qed.

Lemma hex_digit_lower (d : Z) : 0 <= d < 16 -> is_lower_hex (hex_digit d) = true.
Proof.
  intros H. unfold is_lower_hex, hex_digit, in_range.
  destruct (Z.ltb_spec d 10); apply orb_true_iff; [left|right];
    apply andb_true_iff; split; apply Z.leb_le; lia.
Qed.

Lemma hex_of_bytes_lower (bs : list Z) :
  Forall (fun b => 0 <= b < 256) bs -> forallb is_lower_hex (hex_of_bytes bs) = true.
Proof.
  induction 1 as [|b bs Hb _ IH]; [reflexivity|].
  unfold hex_of_bytes in *. cbn [flat_map hex_of_byte app forallb].
  rewrite !hex_digit_lower, IH; [reflexivity| |].
  - apply Z.mod_pos_bound. lia.
  - split; [apply Z.div_pos; lia|apply Z.div_lt_upper_bound; lia].
Qed.

Lemma keccak256_is_digest (data : buffer) : is_digest (keccak256 data) = true.
Proof.
  unfold is_digest. rewrite keccak256_length. unfold keccak256.
  change (startsWith (str "0x" ++ ?h) (str "0x")) with true.
  change (skipn 2 (str "0x" ++ ?h)) with h.
  cbn [andb Nat.eqb]. apply hex_of_bytes_lower. apply squeeze32_bytes.
Qed.

(** X1. Every hash the engine hands out is a 32-byte value in the notation
    the chain uses: "0x" and 64 lowercase hexadecimal digits.  This holds
    for the composite and for the hash of every document that exists; the
    only other value of [hash] is the [null] of a missing document, whose
    place in the composite is taken by a placeholder of the same form. *)
Theorem hashes_are_32_byte_hex (w : world) (ws : jsstring) (r : hash_results) :
  hashIdentityFiles w ws = Ret r ->
  is_digest (ce_hash (hr_composite r)) = true /\
  (forall f e, lookup f (hr_files r) = Some e ->
     match fe_hash e with
     | Some h => is_digest h = true /\ fe_exists e = true
     | None => fe_exists e = false
     end) /\
  is_digest ZERO_HASH = true.
Proof.
  intros H.
  destruct (hashIdentityFiles_inv _ _ _ H) as (e1 & e2 & e3 & R1 & R2 & R3 & ->).
  cbn [hr_composite ce_hash hr_files].
  split; [apply keccak256_is_digest|]. split; [|reflexivity].
  assert (E : forall g e, read_entry w ws g = Ret e ->
            match fe_hash e with
            | Some h => is_digest h = true /\ fe_exists e = true
            | None => fe_exists e = false
            end).
  { intros g e R. apply read_entry_inv in R.
    destruct R as [(content & _ & ->)|(err & _ & _ & ->)]; cbn [fe_hash fe_exists].
    - split; [apply keccak256_is_digest|reflexivity].
    - reflexivity. }
  intros f e. cbn [lookup].
  destruct (jsstring_eqb f (str "SOUL.md")); [intros [= <-]; exact (E _ _ R1)|].
  destruct (jsstring_eqb f (str "USER.md")); [intros [= <-]; exact (E _ _ R2)|].
  destruct (jsstring_eqb f (str "IDENTITY.md"));
    [intros [= <-]; exact (E _ _ R3)|discriminate].
Qed.

Lemma hashes_are_32_byte_hex_witness :
  exists r,
    hashIdentityFiles (sample_world two_documents (Err network_error)) (str "/ws") = Ret r /\
    is_digest (ce_hash (hr_composite r)) = true.
Proof.
  destruct (hashIdentityFiles (sample_world two_documents (Err network_error))
              (str "/ws")) as [r|e|c] eqn:E.
  - exists r. split; [reflexivity|].
    exact (proj1 (hashes_are_32_byte_hex _ _ _ E)).
  - exfalso. revert E. vm_compute. discriminate.
  - exfalso. revert E. vm_compute. discriminate.
Defined.

(* ------------------------------------------------------------------ *)
(** ** The hashing engine: which failure ends the call *)

(** X2. The three documents are read in the order SOUL.md, USER.md,
    IDENTITY.md and the first read that fails with another error than
    ENOENT ends the call with that error, whatever the later reads would
    give; when there is no such read the call returns. *)
Theorem hashIdentityFiles_throws_first_failure (w : world) (ws : jsstring) :
  match first_failure w ws IDENTITY_FILES with
  | Some e => hashIdentityFiles w ws = Throw e
  | None => exists r, hashIdentityFiles w ws = Ret r
  end.
Proof.
  rewrite hashIdentityFiles_eq. unfold IDENTITY_FILES, first_failure, read_entry.
  destruct (readFile w (path_join w ws (str "SOUL.md"))) as [c1|x1];
    [|destruct (code_is x1 (str "ENOENT")); [|reflexivity]];
    (destruct (readFile w (path_join w ws (str "USER.md"))) as [c2|x2];
     [|destruct (code_is x2 (str "ENOENT")); [|reflexivity]]);
    (destruct (readFile w (path_join w ws (str "IDENTITY.md"))) as [c3|x3];
     [|destruct (code_is x3 (str "ENOENT")); [|reflexivity]]);
    cbn [bind]; eauto.
Qed.

(* ------------------------------------------------------------------ *)
(** ** Verification without expected hashes *)

Lemma verifyIdentityFiles_no_object (w : world) (ws : jsstring)
    (expected : jsval) (snap : hash_results) :
  expected = VNull \/ expected = VUndef ->
  hashIdentityFiles w ws = Ret snap ->
  verifyIdentityFiles w ws expected =
  Throw (type_error "Cannot read properties of null or undefined").
Proof.
  intros Hexp H.
  destruct (hashIdentityFiles_inv _ _ _ H) as (e1 & e2 & e3 & _ & _ & _ & ->).
  unfold verifyIdentityFiles. rewrite H. cbn [bind].
  unfold IDENTITY_FILES. cbn [for_of]. unfold verify_one at 1, local_entry.
  cbn [hr_files]. change (lookup (str "SOUL.md") ((str "SOUL.md", e1) :: ?r))
    with (Some e1). cbn [bind].
  destruct Hexp as [-> | ->]; reflexivity.
Qed.

(** X3. [verifyIdentityFiles] needs an object of expected hashes: against
    [null] or [undefined] it never returns a result.  The workspace is
    hashed first, so a failing read ends the call with its own error;
    otherwise the call ends with the TypeError of reading a property of
    [null]. *)
Theorem verifyIdentityFiles_without_expected (w : world) (ws : jsstring)
    (expected : jsval) :
  expected = VNull \/ expected = VUndef ->
  (forall r, verifyIdentityFiles w ws expected <> Ret r) /\
  (forall e, hashIdentityFiles w ws = Throw e ->
     verifyIdentityFiles w ws expected = Throw e) /\
  (forall snap, hashIdentityFiles w ws = Ret snap ->
     verifyIdentityFiles w ws expected =
     Throw (type_error "Cannot read properties of null or undefined")).
Proof.
  intros Hexp.
  split; [|split; [|intros snap; apply verifyIdentityFiles_no_object; exact Hexp]].
  - intros r. destruct (hashIdentityFiles w ws) as [snap|e|c] eqn:H.
    + rewrite (verifyIdentityFiles_no_object _ _ _ snap Hexp H). discriminate.
    + unfold verifyIdentityFiles. rewrite H. discriminate.
    + unfold verifyIdentityFiles. rewrite H. discriminate.
  - intros e H. unfold verifyIdentityFiles. rewrite H. reflexivity.
Qed.

Lemma verifyIdentityFiles_without_expected_witness :
  verifyIdentityFiles (sample_world unreadable_user (Err network_error)) (str "/ws") VNull
  = Throw EACCES.
Proof.
  destruct (verifyIdentityFiles_without_expected
              (sample_world unreadable_user (Err network_error)) (str "/ws") VNull)
    as (_ & H & _); [left; reflexivity|].
  apply H. vm_compute. reflexivity.
Defined.

(* ------------------------------------------------------------------ *)
(** ** The cost estimate *)

Lemma utf8_bytes_length (cp : Z) : (1 <= length (utf8_bytes cp) <= 4)%nat.
Proof.
  unfold utf8_bytes.
  destruct (cp <? 128); [cbn; lia|].
  destruct (cp <? 2048); [cbn; lia|].
  destruct (cp <? 65536); cbn; lia.
Qed.

Lemma utf8_pair_length (c d : Z) :
  is_high_surrogate c = true -> is_low_surrogate d = true ->
  length (utf8_bytes (pair_code_point c d)) = 4%nat.
Proof.
  unfold is_high_surrogate, is_low_surrogate, pair_code_point, utf8_bytes.
  intros Hc Hd. apply andb_true_iff in Hc, Hd.
  destruct Hc as [Hc1 Hc2], Hd as [Hd1 Hd2]. apply Z.leb_le in Hc1, Hc2, Hd1, Hd2.
  destruct (Z.ltb_spec (65536 + (c - 55296) * 1024 + (d - 56320)) 128); [lia|].
  destruct (Z.ltb_spec (65536 + (c - 55296) * 1024 + (d - 56320)) 2048); [lia|].
  destruct (Z.ltb_spec (65536 + (c - 55296) * 1024 + (d - 56320)) 65536); [lia|].
  reflexivity.
Qed.

Lemma utf8_encode_at_least_bounded (n : nat) :
  forall s, (length s <= n)%nat -> (length s <= length (utf8_encode s))%nat.
Proof.
  induction n as [|n IH]; intros s Hlen.
  - destruct s; [cbn; lia|cbn [length] in Hlen; lia].
  - destruct s as [|c rest]; [cbn; lia|].
    cbn [utf8_encode]. cbn [length] in Hlen.
    destruct (is_high_surrogate c) eqn:Hh.
    + destruct rest as [|d rest']; [cbn; lia|].
      destruct (is_low_surrogate d) eqn:Hl.
      * rewrite length_app, (utf8_pair_length c d Hh Hl).
        cbn [length] in *. specialize (IH rest'). lia.
      * rewrite length_app. cbn [length replacement_bytes] in *.
        specialize (IH (d :: rest')). cbn [length] in IH. lia.
    + destruct (is_low_surrogate c).
      * rewrite length_app. cbn [length replacement_bytes]. specialize (IH rest). lia.
      * rewrite length_app. pose proof (utf8_bytes_length c). cbn [length].
        specialize (IH rest). lia.
Qed.

Lemma utf8_encode_ascii_length (s : jsstring) :
  Forall (fun c => 0 <= c < 128) s -> length (utf8_encode s) = length s.
Proof.
  induction 1 as [|c s Hc _ IH]; [reflexivity|].
  cbn [utf8_encode]. unfold is_high_surrogate, is_low_surrogate, utf8_bytes.
  zcases. cbn [app length]. rewrite IH. reflexivity.
Qed.

Lemma b64_char_ascii (v : Z) : 0 <= v < 64 -> 0 <= b64_char v < 128.
Proof. intros H. unfold b64_char. zcases; lia. Qed.

Lemma b64_encode_ascii (bs : buffer) :
  Forall (fun c => 0 <= c < 128) (b64_encode_groups bs).
Proof.
  induction bs as [|x|x y|x y z bs IH] using list_ind3.
  - constructor.
  - pose proof (Z_of_byte_range x) as Hx.
    destruct (sextet_ranges _ 0 0 Hx ltac:(lia) ltac:(lia)) as (R1 & _ & _ & _ & R5 & _).
    cbn [b64_encode_groups].
    repeat (constructor; [first [apply b64_char_ascii; assumption|lia]|]). constructor.
  - pose proof (Z_of_byte_range x) as Hx. pose proof (Z_of_byte_range y) as Hy.
    destruct (sextet_ranges _ _ 0 Hx Hy ltac:(lia)) as (R1 & R2 & _ & _ & _ & R6).
    cbn [b64_encode_groups].
    repeat (constructor; [first [apply b64_char_ascii; assumption|lia]|]). constructor.
  - pose proof (Z_of_byte_range x) as Hx. pose proof (Z_of_byte_range y) as Hy.
    pose proof (Z_of_byte_range z) as Hz.
    destruct (sextet_ranges _ _ _ Hx Hy Hz) as (R1 & R2 & R3 & R4 & _ & _).
    cbn [b64_encode_groups].
    repeat (constructor; [first [apply b64_char_ascii; assumption|lia]|]). exact IH.
Qed.

Lemma b64_encode_length (bs : buffer) :
  Z.of_nat (length (b64_encode_groups bs)) = 4 * ceil_div (Z.of_nat (length bs)) 3.
Proof.
  unfold ceil_div.
  induction bs as [|x|x y|x y z bs IH] using list_ind3; try reflexivity.
  cbn [b64_encode_groups length].
  rewrite !Nat2Z.inj_succ, IH.
  replace (Z.succ (Z.succ (Z.succ (Z.of_nat (length bs)))) + 3 - 1)
    with ((Z.of_nat (length bs) + 3 - 1) + 1 * 3) by lia.
  rewrite Z.div_add by lia. lia.
Qed.

(** X4. The estimate of a registration that serialises: [jsonBytes] is the
    length of the JSON text in UTF-16 code units, which is at most its size
    in bytes; [base64URIBytes] is the 29 characters of the data URI prefix
    and four characters for every three bytes of the text, rounded up; the
    gas is 50000, 16 per byte of the URI and 20000 per started word of 32
    bytes.  A registration that is [undefined] has no estimate. *)
Theorem estimateOnChainCost_formula (registration : jsval) :
  (forall json, stringify registration = Some json ->
   exists c,
     estimateOnChainCost registration = Ret c /\
     jsonBytes c = Z.of_nat (length json) /\
     jsonBytes c <= byte_length json /\
     base64URIBytes c = 29 + 4 * ceil_div (byte_length json) 3 /\
     estimatedGas c =
       50000 + 16 * base64URIBytes c + 20000 * ceil_div (base64URIBytes c) 32) /\
  (stringify registration = None ->
   exists e, estimateOnChainCost registration = Throw e).
Proof.
  split.
  - intros json Hjson. unfold estimateOnChainCost, toBase64DataURI.
    rewrite Hjson. cbn [bind]. eexists. split; [reflexivity|].
    cbn [jsonBytes base64URIBytes estimatedGas].
    assert (Hascii : Forall (fun c => 0 <= c < 128)
                       (str "data:application/json;base64,"
                        ++ base64_encode (utf8_encode json))).
    { apply Forall_app. split; [|apply b64_encode_ascii].
      apply Forall_forall. intros c Hc. cbn in Hc.
      repeat (destruct Hc as [<-|Hc]; [lia|]). destruct Hc. }
    rewrite (utf8_encode_ascii_length _ Hascii).
    rewrite length_app, Nat2Z.inj_add. unfold base64_encode.
    rewrite b64_encode_length. unfold byte_length.
    change (Z.of_nat (length (str "data:application/json;base64,"))) with 29.
    split; [reflexivity|]. split.
    + apply Nat2Z.inj_le. apply (utf8_encode_at_least_bounded (length json)). lia.
    + split; [reflexivity|].
      set (b := 29 + 4 * ceil_div (Z.of_nat (length (utf8_encode json))) 3).
      unfold ceil_div. replace (b + 32 - 1) with (b + 31) by lia. lia.
  - intros Hnone. unfold estimateOnChainCost, toBase64DataURI. rewrite Hnone.
    cbn [bind]. eauto.
Qed.

Lemma estimateOnChainCost_formula_witness :
  exists c,
    estimateOnChainCost sample_registration = Ret c /\
    estimatedGas c =
      50000 + 16 * base64URIBytes c + 20000 * ceil_div (base64URIBytes c) 32.
Proof.
  destruct (stringify sample_registration) as [json|] eqn:E.
  - destruct (proj1 (estimateOnChainCost_formula sample_registration) json E)
      as (c & Hc & _ & _ & _ & Hgas).
    exists c. split; assumption.
  - exfalso. revert E. vm_compute. discriminate.
Defined.

(* ------------------------------------------------------------------ *)
(** ** Resolving a token URI *)

(** X5. An [ipfs://] URI is resolved through the public gateway: what is
    fetched is "https://ipfs.io/ipfs/" followed by the rest of the URI, and
    the registration is the JSON of an OK response, [null] in every other
    case.  Any other URI that is not a [data:] URI is fetched as it is. *)
Theorem ipfs_uri_goes_through_gateway (w : world) :
  (forall cid,
     fetchRegistrationFile w (str "ipfs://" ++ cid) =
     match fetch w (str "https://ipfs.io/ipfs/" ++ cid) with
     | FetchResponse true (Ok registration) => Ret registration
     | _ => Ret VNull
     end) /\
  (forall uri,
     uri <> [] ->
     startsWith uri (str "data:") = false ->
     startsWith uri (str "ipfs://") = false ->
     fetchRegistrationFile w uri =
     match fetch w uri with
     | FetchResponse true (Ok registration) => Ret registration
     | _ => Ret VNull
     end).
Proof.
  split.
  - intros cid. unfold fetchRegistrationFile, gateway_url.
    change (negb (truthy (VStr (str "ipfs://" ++ cid)))) with false.
    change (startsWith (str "ipfs://" ++ cid) (str "data:")) with false.
    change (startsWith (str "ipfs://" ++ cid) (str "ipfs://")) with true.
    change (replace_first (str "ipfs://" ++ cid) (str "ipfs://") []) with cid.
    cbv iota.
    destruct (fetch w (str "https://ipfs.io/ipfs/" ++ cid)) as [e|ok body];
      [reflexivity|].
    destruct ok; [|reflexivity]. destruct body; reflexivity.
  - intros uri Hne Hdata Hipfs. unfold fetchRegistrationFile, gateway_url.
    rewrite Hdata, Hipfs. destruct uri as [|c uri]; [contradiction|].
    cbn [truthy negb].
    destruct (fetch w (c :: uri)) as [e|ok body]; [reflexivity|].
    destruct ok; [|reflexivity]. destruct body; reflexivity.
Qed.

Lemma ipfs_uri_goes_through_gateway_witness :
  fetchRegistrationFile (sample_world [] (Err network_error))
    (str "https://example.org/agent.json") = Ret VNull.
Proof.
  rewrite (proj2 (ipfs_uri_goes_through_gateway (sample_world [] (Err network_error)))
             (str "https://example.org/agent.json"));
    [reflexivity|discriminate|reflexivity|reflexivity].
Defined.

(** X6. A [data:] URI is resolved from its own text: nothing is fetched, so
    the registration is the same whatever chain and network stand behind
    the environment. *)
Theorem data_uri_needs_no_network (w chain : world) (uri : jsstring) :
  startsWith uri (str "data:") = true ->
  fetchRegistrationFile (with_chain w chain) uri = fetchRegistrationFile w uri.
Proof.
  intros H. unfold fetchRegistrationFile. rewrite H.
  destruct (match_base64 uri); [reflexivity|].
  destruct (match_plain uri); reflexivity.
Qed.

Lemma data_uri_needs_no_network_witness :
  fetchRegistrationFile
    (with_chain (sample_world [] (Err network_error))
                (sample_world three_documents (Ok [])))
    (str "data:application/json;base64,e30=")
  = fetchRegistrationFile (sample_world [] (Err network_error))
      (str "data:application/json;base64,e30=").
Proof.
  apply (data_uri_needs_no_network (sample_world [] (Err network_error))
           (sample_world three_documents (Ok []))
           (str "data:application/json;base64,e30=")).
  reflexivity.
Defined.

Lemma drop_until_app (stop : Z) (a rest : jsstring) :
  (forall c, In c a -> c <> stop) ->
  drop_until stop (a ++ stop :: rest) = stop :: rest.
Proof.
  induction a as [|c a IH]; intros H.
  - cbn [app drop_until]. rewrite Z.eqb_refl. reflexivity.
  - cbn [app drop_until].
    destruct (Z.eqb_spec c stop) as [E|_]; [exfalso; apply (H c); [left; reflexivity|exact E]|].
    apply IH. intros d Hd. apply H. right. exact Hd.
Qed.

Lemma startsWith_before_comma (a p tail : jsstring) :
  (forall c, In c a -> c <> 44) ->
  (forall c, In c p -> c <> 44) ->
  startsWith (a ++ [44]) (p ++ [44]) = false ->
  startsWith (a ++ [44] ++ tail) (p ++ [44]) = false.
Proof.
  revert p. induction a as [|c a IH]; intros p Ha Hp H.
  - destruct p as [|d p].
    + cbn in H. discriminate.
    + cbn [app startsWith].
      destruct (Z.eqb_spec 44 d) as [E|_]; [|reflexivity].
      exfalso. apply (Hp d); [left; reflexivity|symmetry; exact E].
  - destruct p as [|d p].
    + cbn [app startsWith].
      destruct (Z.eqb_spec c 44) as [E|_]; [|reflexivity].
      exfalso. apply (Ha c); [left; reflexivity|exact E].
    + cbn [app startsWith] in *.
      destruct (c =? d); [|reflexivity]. cbn [andb] in *.
      apply IH; [intros x Hx; apply Ha; right; exact Hx
                |intros x Hx; apply Hp; right; exact Hx|exact H].
Qed.

(** X7. Only a [data:] URI whose media type is directly followed by
    ";base64," is decoded as base64.  With a parameter in between, as in
    "data:application/json;charset=utf-8;base64,...", the payload after the
    first comma is percent-decoded and parsed as JSON text instead. *)
Theorem data_uri_with_parameter_is_not_base64 (w : world)
    (mediatype params payload : jsstring) :
  (forall c, In c mediatype -> c <> 59 /\ c <> 44) ->
  (forall c, In c params -> c <> 44) ->
  startsWith (params ++ [44]) (str "base64,") = false ->
  rest_of_line payload = Some payload ->
  fetchRegistrationFile w
    (str "data:" ++ mediatype ++ [59] ++ params ++ [44] ++ payload) =
  try_catch (text <- lift (decodeURIComponent w payload) ;; JSON_parse text)
            (fun _ => Ret VNull).
Proof.
  intros Hm Hp Hb Hline. unfold fetchRegistrationFile.
  change (negb (truthy (VStr (str "data:" ++ ?r)))) with false.
  change (startsWith (str "data:" ++ ?r) (str "data:")) with true.
  cbv iota.
  assert (B : match_base64 (str "data:" ++ mediatype ++ [59] ++ params ++ [44] ++ payload)
              = None).
  { unfold match_base64.
    change (startsWith (str "data:" ++ ?r) (str "data:")) with true.
    change (skipn 5 (str "data:" ++ ?r)) with r. cbv iota.
    change (mediatype ++ [59] ++ params ++ [44] ++ payload)
      with (mediatype ++ 59 :: (params ++ [44] ++ payload)).
    rewrite drop_until_app by (intros c Hc; apply (Hm c Hc)).
    change (startsWith (59 :: ?r) (str ";base64,"))
      with ((59 =? 59) && startsWith r (str "base64,")).
    change (str "base64,") with (str "base64" ++ [44]).
    rewrite (startsWith_before_comma params (str "base64") payload Hp);
      [reflexivity| |exact Hb].
    intros c Hc. cbn in Hc. intuition lia. }
  assert (P : match_plain (str "data:" ++ mediatype ++ [59] ++ params ++ [44] ++ payload)
              = Some payload).
  { unfold match_plain.
    change (startsWith (str "data:" ++ ?r) (str "data:")) with true.
    change (skipn 5 (str "data:" ++ ?r)) with r. cbv iota.
    replace (mediatype ++ [59] ++ params ++ [44] ++ payload)
      with ((mediatype ++ [59] ++ params) ++ 44 :: payload)
      by (rewrite <- !app_assoc; reflexivity).
    rewrite drop_until_app; [exact Hline|].
    intros c Hc. apply in_app_or in Hc. destruct Hc as [Hc|Hc].
    - apply (Hm c Hc).
    - apply in_app_or in Hc. destruct Hc as [Hc|Hc]; [|apply (Hp c Hc)].
      cbn in Hc. destruct Hc as [<-|[]]. lia. }
  rewrite B, P. reflexivity.
Qed.

Lemma data_uri_with_parameter_is_not_base64_witness :
  fetchRegistrationFile (sample_world [] (Err network_error))
    (str "data:application/json;charset=utf-8;base64,e30=") = Ret VNull.
Proof.
  change (str "data:application/json;charset=utf-8;base64,e30=")
    with (str "data:" ++ str "application/json" ++ [59]
          ++ str "charset=utf-8;base64" ++ [44] ++ str "e30=").
  rewrite (data_uri_with_parameter_is_not_base64 (sample_world [] (Err network_error))
             (str "application/json") (str "charset=utf-8;base64") (str "e30=")).
  - reflexivity.
  - intros c Hc. cbn in Hc. intuition lia.
  - intros c Hc. cbn in Hc. intuition lia.
  - reflexivity.
  - reflexivity.
Defined.

(* ------------------------------------------------------------------ *)
(** ** Looking an agent up *)

(** X8. [lookupAgent] fails exactly when the agent identifier has no
    BigInt or the chain fails to answer the owner or the token URI.  A
    failing read of the agent wallet never fails the lookup (the wallet is
    then [null]), and neither does a token URI that resolves to nothing. *)
Theorem lookupAgent_fails_iff (w : world) (agentId : jsval) :
  ((exists e, lookupAgent w agentId = Throw e) <->
   (exists e, BigInt w agentId = Throw e) \/
   (exists id e, BigInt w agentId = Ret id /\
                 (ownerOf w id = Err e \/ tokenURI w id = Err e))) /\
  (forall id owner uri,
     BigInt w agentId = Ret id -> ownerOf w id = Ok owner -> tokenURI w id = Ok uri ->
     exists agent,
       lookupAgent w agentId = Ret agent /\
       ca_agentWallet agent = match getAgentWallet w id with
                              | Ok a => Some a
                              | Err _ => None
                              end).
Proof.
  split.
  - unfold lookupAgent.
    destruct (BigInt w agentId) as [id|e|c] eqn:B; cbn [bind].
    + destruct (ownerOf w id) as [owner|e1] eqn:O; cbn [lift bind].
      * destruct (tokenURI w id) as [uri|e2] eqn:U; cbn [lift bind].
        -- destruct (fetchRegistrationFile_returns w uri) as [reg ->]. cbn [bind].
           split.
           ++ intros [e He]. discriminate.
           ++ intros [[e He]|(id' & e & Hid & [H|H])]; try discriminate;
                injection Hid as <-; congruence.
        -- split; [intros _; right; exists id, e2; auto|eauto].
      * split; [intros _; right; exists id, e1; auto|eauto].
    + split; [intros _; left; eauto|eauto].
    + exfalso. exact (no_exit_BigInt w agentId c B).
  - intros id owner uri B O U. unfold lookupAgent. rewrite B. cbn [bind].
    rewrite O, U. cbn [lift bind].
    destruct (fetchRegistrationFile_returns w uri) as [reg ->]. cbn [bind].
    eexists. split; reflexivity.
Qed.

Lemma lookupAgent_fails_iff_witness :
  exists agent,
    lookupAgent (sample_world [] (Ok [])) (VNum 7) = Ret agent /\
    ca_agentWallet agent = None.
Proof.
  destruct (proj2 (lookupAgent_fails_iff (sample_world [] (Ok [])) (VNum 7))
              7 (str "0x1111111111111111111111111111111111111111") [])
    as (agent & H1 & H2); [reflexivity ..|].
  exists agent. split; [exact H1|exact H2].
Defined.

(* ------------------------------------------------------------------ *)
(** ** What exit status 0 of the verification command guarantees *)

Lemma passes_classification (e : file_entry) (x : jsval) :
  passes (classification e x) = true ->
  fe_exists e = true /\ (truthy x = true -> hash_strict_eq (fe_hash e) x = true).
Proof.
  unfold classification. destruct (fe_exists e); cbn [negb]; [|discriminate].
  destruct (truthy x); cbn [negb].
  - destruct (hash_strict_eq (fe_hash e) x); [auto|discriminate].
  - intros _. split; [reflexivity|discriminate].
Qed.

Lemma hash_strict_eq_some (h : jsstring) (x : jsval) :
  hash_strict_eq (Some h) x = true -> x = VStr h.
Proof.
  destruct x; cbn [hash_strict_eq str_strict_eq]; try discriminate.
  intros H. apply jsstring_eqb_eq in H. congruence.
Qed.

Lemma verified_document (w : world) (ws f : jsstring) (e : file_entry) (x : jsval) :
  read_entry w ws f = Ret e ->
  passes (classification e x) = true ->
  exists content,
    readFile w (path_join w ws f) = Ok content /\
    (truthy x = true -> x = VStr (keccak256 content)).
Proof.
  intros R P. apply passes_classification in P. destruct P as [Hex Hhash].
  apply read_entry_inv in R.
  destruct R as [(content & Hread & ->)|(err & _ & _ & ->)]; [|discriminate Hex].
  exists content. split; [exact Hread|].
  intros T. apply hash_strict_eq_some. exact (Hhash T).
Qed.

(** X9. Exit status 0 of the verification command is a guarantee about the
    files: the run had a workspace and expected hashes (from the file of
    the offline mode, or from the registration on chain), all three
    documents of the workspace were read, every document for which a hash
    is expected has exactly that hash, and so has the composite when one is
    expected.  A document that was changed or removed after its hash was
    recorded therefore never leaves the status at 0. *)
Theorem verify_exit_0_is_sound (w : world) (opts : verify_opts) :
  verify_cli w opts = 0 ->
  exists ws id expected snap,
    merge_config w opts = Ret (VStr ws, id) /\
    expected_hashes w opts id = Ret expected /\
    hashIdentityFiles w ws = Ret snap /\
    (forall f, In f IDENTITY_FILES ->
       exists content,
         readFile w (path_join w ws f) = Ok content /\
         (truthy (get_prop_opt expected f) = true ->
          get_prop_opt expected f = VStr (keccak256 content))) /\
    (truthy (get_prop_opt expected (str "_composite")) = true ->
     get_prop_opt expected (str "_composite") = VStr (ce_hash (hr_composite snap))).
Proof.
  intros H0. pose proof (verify_class_complete w opts) as C. rewrite H0 in C.
  inversion C as [ws id snap expected r M T S E V B| | | | | | | | | | ].
  destruct ws as [| | | | |ws| | |]; try discriminate S.
  cbn [hashIdentityFiles_of verifyIdentityFiles_of] in S, V.
  assert (N1 : expected <> VUndef).
  { intros ->. rewrite (verifyIdentityFiles_no_object _ _ _ snap) in V by auto.
    discriminate. }
  assert (N2 : expected <> VNull).
  { intros ->. rewrite (verifyIdentityFiles_no_object _ _ _ snap) in V by auto.
    discriminate. }
  exists ws, id, expected, snap. repeat (split; [assumption|]).
  destruct (hashIdentityFiles_inv _ _ _ S) as (e1 & e2 & e3 & R1 & R2 & R3 & ->).
  rewrite (verifyIdentityFiles_eq _ _ _ _ _ _ _ S N1 N2) in V.
  injection V as <-. cbn [vr_verified] in B.
  apply andb_true_iff in B. destruct B as [B Bc].
  apply andb_true_iff in B. destruct B as [B B3].
  apply andb_true_iff in B. destruct B as [B1 B2].
  split.
  - intros f Hf. apply IDENTITY_FILES_cases in Hf.
    destruct Hf as [->|[->| ->]];
      [exact (verified_document _ _ _ _ _ R1 B1)
      |exact (verified_document _ _ _ _ _ R2 B2)
      |exact (verified_document _ _ _ _ _ R3 B3)].
  - intros Tc. cbn [hr_composite ce_hash] in *. unfold composite_result_of in Bc.
    rewrite Tc in Bc.
    destruct (get_prop_opt expected (str "_composite")) as [| | | | |s| | |];
      cbn [str_strict_eq composite_status passes] in Bc; try discriminate Bc.
    destruct (jsstring_eqb _ s) eqn:Eq; cbn [composite_status passes] in Bc;
      [|discriminate Bc].
    apply jsstring_eqb_eq in Eq. congruence.
Qed.

Lemma verify_exit_0_is_sound_witness :
  exists ws id expected snap,
    merge_config (sample_world three_documents (uri_of registered_documents))
      (on_chain (str "/ws") 42) = Ret (VStr ws, id) /\
    expected_hashes (sample_world three_documents (uri_of registered_documents))
      (on_chain (str "/ws") 42) id = Ret expected /\
    hashIdentityFiles (sample_world three_documents (uri_of registered_documents)) ws
      = Ret snap /\
    (forall f, In f IDENTITY_FILES ->
       exists content,
         readFile (sample_world three_documents (uri_of registered_documents))
           (path_join (sample_world three_documents (uri_of registered_documents)) ws f)
           = Ok content /\
         (truthy (get_prop_opt expected f) = true ->
          get_prop_opt expected f = VStr (keccak256 content))) /\
    (truthy (get_prop_opt expected (str "_composite")) = true ->
     get_prop_opt expected (str "_composite") = VStr (ce_hash (hr_composite snap))).
Proof.
  apply (verify_exit_0_is_sound
           (sample_world three_documents (uri_of registered_documents))
           (on_chain (str "/ws") 42)).
  vm_compute. reflexivity.
Defined.

(* ------------------------------------------------------------------ *)
(** ** Offline verification *)

(** X10. In offline mode (--offline with a file of expected hashes) the
    verification command reads neither the chain nor the network: its exit
    status is the same whatever stands behind the environment, the file
    system and the clock being the same. *)
Theorem offline_verification_needs_no_chain (w chain : world) (opts : verify_opts) :
  offline_mode opts = true ->
  verify_cli (with_chain w chain) opts = verify_cli w opts.
Proof.
  intros Hoff. unfold verify_cli, VerifyIdentity.main.
  assert (M : merge_config (with_chain w chain) opts = merge_config w opts)
    by reflexivity.
  rewrite M. destruct (merge_config w opts) as [[ws id]|e|c]; cbn [bind fst snd];
    try reflexivity.
  destruct (negb (truthy ws)); [reflexivity|].
  assert (S : hashIdentityFiles_of (with_chain w chain) ws = hashIdentityFiles_of w ws).
  { destruct ws; cbn [hashIdentityFiles_of]; try reflexivity. }
  rewrite S. destruct (hashIdentityFiles_of w ws); cbn [bind]; try reflexivity.
  assert (E : expected_hashes (with_chain w chain) opts id = expected_hashes w opts id).
  { unfold expected_hashes. rewrite Hoff. reflexivity. }
  rewrite E. destruct (expected_hashes w opts id) as [expected| |]; cbn [bind];
    [|reflexivity|reflexivity].
  assert (V : verifyIdentityFiles_of (with_chain w chain) ws expected =
              verifyIdentityFiles_of w ws expected)
    by (destruct ws; reflexivity).
  rewrite V. reflexivity.
Qed.

Lemma offline_verification_needs_no_chain_witness :
  verify_cli
    (with_chain (sample_world three_documents (Err network_error))
                (sample_world [] (Ok [])))
    (mkVerifyOpts (VStr (str "/ws")) VNull VNull true (VStr (str "/ws/SOUL.md"))
                  false false false)
  = verify_cli (sample_world three_documents (Err network_error))
      (mkVerifyOpts (VStr (str "/ws")) VNull VNull true (VStr (str "/ws/SOUL.md"))
                    false false false).
Proof.
  apply (offline_verification_needs_no_chain
           (sample_world three_documents (Err network_error))
           (sample_world [] (Ok []))
           (mkVerifyOpts (VStr (str "/ws")) VNull VNull true (VStr (str "/ws/SOUL.md"))
                         false false false)).
  reflexivity.
Defined.

(* ------------------------------------------------------------------ *)
(** ** From the registration to the verification *)

Lemma buildRegistration_hashed (w : world) (config reg : jsval) (p : jsstring) :
  buildRegistration w config = Ret reg ->
  get_prop_opt config (str "workspacePath") = VStr p -> p <> [] ->
  exists h, hashIdentityFiles w p = Ret h.
Proof.
  intros B Hp Hne. unfold buildRegistration in B. rewrite Hp in B.
  destruct p as [|c p]; [contradiction|]. cbn [truthy] in B.
  destruct (hashIdentityFiles w (c :: p)) as [h|e|x]; [eauto| |];
    destruct config; cbn [bind] in B; discriminate.
Qed.

Lemma classification_registered (w : world) (ws f : jsstring) (e : file_entry) :
  read_entry w ws f = Ret e ->
  passes (classification e (js_or (opt_str (fe_hash e)) VNull)) = fe_exists e.
Proof.
  intros H. apply read_entry_inv in H.
  destruct H as [(content & _ & ->)|(err & _ & _ & ->)]; [|reflexivity].
  unfold classification. cbn [fe_exists fe_hash negb opt_str].
  destruct (keccak256_cons content) as (a & h & E). rewrite E.
  cbn [js_or truthy negb hash_strict_eq str_strict_eq].
  rewrite jsstring_eqb_refl. reflexivity.
Qed.

Lemma read_entry_exists (w : world) (ws f : jsstring) (e : file_entry) :
  read_entry w ws f = Ret e ->
  fe_exists e = match readFile w (path_join w ws f) with
                | Ok _ => true
                | Err _ => false
                end.
Proof.
  intros H. apply read_entry_inv in H.
  destruct H as [(content & -> & ->)|(err & -> & _ & ->)]; reflexivity.
Qed.

(** X11. Registering and verifying fit together.  A registration built
    from a configuration, published as a data URI and answered by the chain
    as the token URI of the agent, makes the verification of the same,
    unchanged workspace end with status 0 when its three documents exist;
    when one of them is missing, at registration and now, the status is
    1. *)
Theorem registered_workspace_verifies (w w1 : world) (opts : verify_opts)
    (config reg : jsval) (ws uri : jsstring) (id : Z) (owner : jsstring) :
  (forall a b, path_join w1 a b = path_join w a b) ->
  (forall p, readFile w1 p = readFile w p) ->
  get_prop_opt config (str "workspacePath") = VStr ws -> ws <> [] ->
  buildRegistration w1 config = Ret reg ->
  json_value reg = true ->
  toBase64DataURI reg = Ret uri ->
  truthy (vo_config opts) = false ->
  vo_workspace opts = VStr ws ->
  offline_mode opts = false ->
  truthy (vo_agentId opts) = true ->
  BigInt w (vo_agentId opts) = Ret id ->
  ownerOf w id = Ok owner -> tokenURI w id = Ok uri ->
  verify_cli w opts = if complete w ws then 0 else 1.
Proof.
  intros Hj Hf Hp Hne B J U Hc Hw Hoff Hid Hbig Ho Hu.
  destruct (buildRegistration_hashed _ _ _ _ B Hp Hne) as [h Hh1].
  assert (Hh : hashIdentityFiles w ws = Ret h)
    by (rewrite <- (hashIdentityFiles_same_files w w1 ws Hj Hf); exact Hh1).
  assert (Tws : truthy (VStr ws) = true) by (destruct ws; [contradiction|reflexivity]).
  pose proof (buildRegistration_identityFiles w1 config reg ws h B Hp Tws Hh1) as Hfiles.
  destruct (JSON_parse_stringify reg J) as (c & t & Ht & Hwf & Hparse).
  assert (Hfetch : fetchRegistrationFile w uri = Ret reg).
  { assert (uri = str "data:application/json;base64,"
                    ++ base64_encode (utf8_encode (c :: t))) as ->
      by (unfold toBase64DataURI in U; rewrite Ht in U; congruence).
    rewrite (fetch_data_uri w c t Hwf), Hparse. reflexivity. }
  assert (L : lookupAgent w (vo_agentId opts) =
              Ret (mkAgent (vo_agentId opts) owner uri
                     (match getAgentWallet w id with
                      | Ok a => Some a
                      | Err _ => None
                      end) reg)).
  { unfold lookupAgent. rewrite Hbig. cbn [bind]. rewrite Ho, Hu. cbn [lift bind].
    rewrite Hfetch. reflexivity. }
  assert (Treg : truthy reg = true).
  { destruct reg; try discriminate Hfiles; reflexivity. }
  destruct (hashIdentityFiles_inv _ _ _ Hh) as (e1 & e2 & e3 & R1 & R2 & R3 & Hsnap).
  unfold verify_cli, VerifyIdentity.main, merge_config. rewrite Hc. cbn [bind fst snd].
  rewrite Hw, Tws. cbn [negb hashIdentityFiles_of]. rewrite Hh. cbn [bind].
  unfold expected_hashes. rewrite Hoff, Hid, expected_from_chain_eq, L.
  cbn [ca_registration]. rewrite Treg, Hfiles. cbn [truthy bind verifyIdentityFiles_of].
  subst h.
  rewrite (verifyIdentityFiles_eq _ _ _ _ _ _ _ Hh) by discriminate.
  cbn [bind vr_verified exit_status].
  change (get_prop_opt (VObj ?props) (str "SOUL.md"))
    with (js_or (opt_str (fe_hash e1)) VNull).
  change (get_prop_opt (VObj ?props) (str "USER.md"))
    with (js_or (opt_str (fe_hash e2)) VNull).
  change (get_prop_opt (VObj ?props) (str "IDENTITY.md"))
    with (js_or (opt_str (fe_hash e3)) VNull).
  change (get_prop_opt (VObj ?props) (str "_composite"))
    with (js_or (VStr (keccak256 (utf8_encode (contribution e1 ++ contribution e2
                                               ++ contribution e3)))) VNull).
  cbn [ce_hash].
  rewrite (classification_registered _ _ _ _ R1), (classification_registered _ _ _ _ R2),
    (classification_registered _ _ _ _ R3).
  destruct (keccak256_cons (utf8_encode (contribution e1 ++ contribution e2
                                         ++ contribution e3))) as (a & k & Ek).
  rewrite Ek. cbn [js_or truthy]. rewrite composite_self, andb_true_r.
  unfold complete, IDENTITY_FILES. cbn [forallb].
  rewrite <- (read_entry_exists _ _ _ _ R1), <- (read_entry_exists _ _ _ _ R2),
    <- (read_entry_exists _ _ _ _ R3), andb_true_r, andb_assoc.
  reflexivity.
Qed.

Lemma registered_workspace_verifies_witness :
  let w1 := update_world (VNum 42) (Err network_error) in
  let registration := returned VNull (buildRegistration w1 (config_agent (VNum 42))) in
  verify_cli (update_world (VNum 42) (uri_of registration)) (on_chain (str "/ws") 42) = 0.
Proof.
  intros w1 registration.
  apply (registered_workspace_verifies
           (update_world (VNum 42) (uri_of registration)) w1 (on_chain (str "/ws") 42)
           (config_agent (VNum 42)) registration (str "/ws")
           (returned [] (toBase64DataURI registration)) 42
           (str "0x1111111111111111111111111111111111111111"));
    [intros; reflexivity|intros; reflexivity|reflexivity|discriminate
    |vm_compute; reflexivity ..].
Defined.

(* ------------------------------------------------------------------ *)
(** ** The registration document is JSON *)

Lemma lookup_json (props : list (jsstring * jsval)) (k : jsstring) (v : jsval) :
  forallb (fun kv => forallb code_unit (fst kv) && json_value (snd kv)) props = true ->
  lookup k props = Some v -> json_value v = true.
Proof.
  induction props as [|[k0 v0] props IH]; cbn [forallb lookup fst snd];
    [discriminate|].
  intros H. apply andb_true_iff in H. destruct H as [H0 H].
  apply andb_true_iff in H0. destruct H0 as [_ Hv].
  destruct (jsstring_eqb k k0); [intros [= <-]; exact Hv|apply IH; exact H].
Qed.

Lemma get_prop_opt_json (config : jsval) (k : jsstring) :
  json_value config = true ->
  get_prop_opt config k = VUndef \/ json_value (get_prop_opt config k) = true.
Proof.
  intros J. destruct config as [| | | | | | |props|x]; cbn [get_prop_opt]; auto.
  cbn [json_value] in J. apply andb_true_iff in J. destruct J as [J _].
  destruct (lookup k props) as [v|] eqn:L; [right|left; reflexivity].
  exact (lookup_json _ _ _ J L).
Qed.

Lemma field_json (config : jsval) (k : string) (d : jsval) :
  json_value config = true -> json_value d = true ->
  json_value (field config k d) = true.
Proof.
  intros J Jd. unfold field.
  destruct (get_prop_opt_json config (str k) J) as [-> |H]; [exact Jd|].
  destruct (get_prop_opt config (str k)); (exact Jd || exact H).
Qed.

Lemma code_units_ascii (s : jsstring) :
  Forall (fun c => 0 <= c < 128) s -> forallb code_unit s = true.
Proof.
  intros H. apply forallb_forall. intros c Hc.
  rewrite Forall_forall in H. specialize (H c Hc).
  unfold code_unit, in_range. apply andb_true_iff. split; apply Z.leb_le; lia.
Qed.

Lemma join_code_units (sep : jsstring) (parts : list jsstring) :
  forallb code_unit sep = true ->
  Forall (fun p => forallb code_unit p = true) parts ->
  forallb code_unit (join sep parts) = true.
Proof.
  intros Hsep H. induction H as [|p parts Hp _ IH]; [reflexivity|].
  destruct parts as [|q parts]; [exact Hp|].
  rewrite join_cons2, !forallb_app, Hp, Hsep. exact IH.
Qed.

Lemma to_string_code_units (v : jsval) :
  json_value v = true -> forallb code_unit (to_string v) = true.
Proof.
  induction v as [| |b|n| |s|items IH|props _|x] using jsval_nested_ind;
    cbn [json_value to_string]; try discriminate; try reflexivity.
  - intros _. destruct b; reflexivity.
  - intros _. apply code_units_ascii, decimal_ascii.
  - auto.
  - intros J. apply join_code_units; [reflexivity|].
    apply Forall_map. rewrite Forall_forall in *. intros i Hi.
    rewrite forallb_forall in J. specialize (J i Hi). specialize (IH i Hi J).
    destruct i; (reflexivity || exact IH).
Qed.

Lemma string_chars_json_bounded (n : nat) :
  forall s, (length s <= n)%nat -> forallb code_unit s = true ->
  forallb json_value (string_chars s) = true.
Proof.
  induction n as [|n IH]; intros s Hlen H.
  - destruct s; [reflexivity|cbn [length] in Hlen; lia].
  - destruct s as [|c rest]; [reflexivity|].
    cbn [forallb length] in H, Hlen. apply andb_true_iff in H. destruct H as [Hc H].
    cbn [string_chars]. destruct (is_high_surrogate c).
    + destruct rest as [|d rest']; [cbn; rewrite Hc; reflexivity|].
      cbn [forallb length] in H, Hlen. apply andb_true_iff in H. destruct H as [Hd H'].
      destruct (is_low_surrogate d).
      * cbn [forallb json_value]. rewrite Hc, Hd. cbn [andb].
        apply IH; [lia|exact H'].
      * cbn [forallb json_value]. rewrite Hc. cbn [andb].
        apply IH; [cbn [length]; lia|cbn [forallb]; rewrite Hd; exact H'].
    + cbn [forallb json_value]. rewrite Hc. cbn [andb]. apply IH; [lia|exact H].
Qed.

Lemma spread_json (v : jsval) (items : list jsval) :
  json_value v = true -> spread v = Ret items -> forallb json_value items = true.
Proof.
  destruct v; cbn [spread json_value]; try discriminate.
  - intros J [= <-]. apply (string_chars_json_bounded (length s)); [lia|exact J].
  - intros J [= <-]. exact J.
Qed.

Lemma keccak256_code_units (data : buffer) :
  forallb code_unit (keccak256 data) = true.
Proof.
  unfold keccak256. rewrite forallb_app. apply andb_true_iff. split; [reflexivity|].
  pose proof (hex_of_bytes_lower _ (squeeze32_bytes
    (Keccak.absorb (length (map Z_of_byte data ++ Keccak.pad 6 (length data)))
       (List.repeat 0 25) (map Z_of_byte data ++ Keccak.pad 6 (length data))))) as H.
  apply forallb_forall. intros c Hc. rewrite forallb_forall in H.
  specialize (H c Hc). unfold is_lower_hex, code_unit, in_range in *.
  apply orb_true_iff in H. destruct H as [H|H]; apply andb_true_iff in H;
    destruct H as [H1 H2]; apply Z.leb_le in H1, H2;
    apply andb_true_iff; split; apply Z.leb_le; lia.
Qed.

Lemma entry_hash_json (w : world) (ws f : jsstring) (e : file_entry) :
  read_entry w ws f = Ret e ->
  json_value (js_or (opt_str (fe_hash e)) VNull) = true.
Proof.
  intros H. apply read_entry_inv in H.
  destruct H as [(content & _ & ->)|(err & _ & _ & ->)]; [|reflexivity].
  cbn [fe_hash opt_str]. destruct (keccak256_cons content) as (a & h & E).
  unfold js_or. rewrite E. cbn [truthy]. rewrite <- E.
  cbn [json_value]. apply keccak256_code_units.
Qed.

Lemma json_singleton (v : jsval) :
  json_value v = true -> json_value (VArr [v]) = true.
Proof. intros H. cbn [json_value forallb]. rewrite H. reflexivity. Qed.

Lemma json_object (props : list (jsstring * jsval)) :
  Forall (fun kv => forallb code_unit (fst kv) = true /\ json_value (snd kv) = true)
         props ->
  nodup_keys (map fst props) = true ->
  json_value (VObj props) = true.
Proof.
  intros H N. cbn [json_value]. rewrite N, andb_true_r.
  apply forallb_forall. intros kv Hkv. rewrite Forall_forall in H.
  destruct (H kv Hkv) as [-> ->]. reflexivity.
Qed.

(** X12. A registration built from a configuration that came out of a JSON
    file and names the agent (name, description and owner address) is a
    JSON value, its own fields included: the hashes and the two dates, the
    chain reference written from the configured chain and registry.
    Hence its data URI resolves back to the very document, in any
    environment. *)
Theorem built_registration_is_json (w : world) (config reg : jsval) :
  json_value config = true ->
  (forall k, In k [str "name"; str "description"; str "ownerAddress"] ->
     get_prop_opt config k <> VUndef) ->
  forallb code_unit (hash_date w) = true ->
  forallb code_unit (generated_at w) = true ->
  buildRegistration w config = Ret reg ->
  json_value reg = true /\
  forall chain, exists uri,
    toBase64DataURI reg = Ret uri /\ fetchRegistrationFile chain uri = Ret reg.
Proof.
  intros Jc Hreq Hd Hg B.
  assert (Hprop : forall k, In k [str "name"; str "description"; str "ownerAddress"] ->
            json_value (get_prop_opt config k) = true).
  { intros k Hk. destruct (get_prop_opt_json config k Jc) as [E|E]; [|exact E].
    exfalso. exact (Hreq k Hk E). }
  assert (Jreg : json_value reg = true).
  { unfold buildRegistration in B.
    assert (Hbody :
      (identityHashes <-
         (if truthy (get_prop_opt config (str "workspacePath")) then
            match get_prop_opt config (str "workspacePath") with
            | VStr p => h <- hashIdentityFiles w p ;; Ret (Some h)
            | _ => Throw (type_error "The path argument must be of type string")
            end
          else Ret None) ;;
       services' <- spread (field config "services" (VArr [])) ;;
       Ret (VObj
        [ (str "type", VStr (str "https://eips.ethereum.org/EIPS/eip-8004#registration-v1"));
          (str "name", get_prop_opt config (str "name"));
          (str "description", get_prop_opt config (str "description"));
          (str "image", field config "image" (VStr []));
          (str "services", VArr services');
          (str "x402Support", VBool true);
          (str "active", VBool true);
          (str "registrations",
             if truthy (field config "agentId" VNull) then
               VArr [VObj [ (str "agentId", field config "agentId" VNull);
                            (str "agentRegistry",
                               VStr (str "eip155:"
                                     ++ to_string (field config "chainId" (VStr (str "8453")))
                                     ++ str ":"
                                     ++ to_string (field config "identityRegistry"
                                                     (VStr DEFAULT_REGISTRY)))) ]]
             else VArr []);
          (str "supportedTrust",
             field config "supportedTrust" (VArr [VStr (str "reputation")]));
          (str "soulbound",
             field config "soulbound"
               (VObj [(str "locked", VBool true);
                      (str "standard", VStr (str "ERC-5192"))]));
          (str "identityFiles",
             match identityHashes with
             | Some h =>
                 VObj [ (str "SOUL.md", hash_or_null h (str "SOUL.md"));
                        (str "USER.md", hash_or_null h (str "USER.md"));
                        (str "IDENTITY.md", hash_or_null h (str "IDENTITY.md"));
                        (str "_composite",
                           js_or (VStr (ce_hash (hr_composite h))) VNull);
                        (str "_algorithm", VStr (str "keccak256"));
                        (str "_hashDate", VStr (hash_date w)) ]
             | None => VNull
             end);
          (str "owner",
             VObj [ (str "address", get_prop_opt config (str "ownerAddress"));
                    (str "chain",
                       VStr (str "eip155:"
                             ++ to_string (field config "chainId" (VStr (str "8453"))))) ]);
          (str "_generatedAt", VStr (generated_at w));
          (str "_generator",
             VStr (str "soulbound-identity/registration-builder v1.0.0")) ]))
      = Ret reg).
    { destruct config; try discriminate; exact B. }
    clear B.
    assert (Jchain : forallb code_unit
                       (to_string (field config "chainId" (VStr (str "8453")))) = true)
      by (apply to_string_code_units, field_json; [exact Jc|reflexivity]).
    assert (Jregistry : forallb code_unit
                          (to_string (field config "identityRegistry"
                                        (VStr DEFAULT_REGISTRY))) = true)
      by (apply to_string_code_units, field_json; [exact Jc|reflexivity]).
    destruct (if truthy (get_prop_opt config (str "workspacePath")) then _ else _)
      as [identityHashes|e|x] eqn:IH; cbn [bind] in Hbody; try discriminate.
    destruct (spread (field config "services" (VArr []))) as [services'|e|x] eqn:SP;
      cbn [bind] in Hbody; try discriminate.
    injection Hbody as <-.
    apply json_object; [|reflexivity].
    repeat (apply Forall_cons; [cbn [fst snd]; split; [reflexivity|]|]);
      try apply Forall_nil.
    - reflexivity.
    - apply Hprop. cbn. auto.
    - apply Hprop. cbn. auto.
    - apply field_json; [exact Jc|reflexivity].
    - cbn [json_value]. apply (spread_json _ _ (field_json config "services" (VArr []) Jc eq_refl) SP).
    - reflexivity.
    - reflexivity.
    - destruct (truthy (field config "agentId" VNull)); [|reflexivity].
      apply json_singleton. apply json_object; [|reflexivity].
      repeat (apply Forall_cons; [cbn [fst snd]; split; [reflexivity|]|]);
        try apply Forall_nil.
      + apply field_json; [exact Jc|reflexivity].
      + change (json_value (VStr ?s)) with (forallb code_unit s).
        cbn [forallb app]. rewrite forallb_app, Jchain. cbn [forallb].
        rewrite Jregistry. reflexivity.
    - apply field_json; [exact Jc|reflexivity].
    - apply field_json; [exact Jc|reflexivity].
    - destruct identityHashes as [h|]; [|reflexivity].
      destruct (truthy (get_prop_opt config (str "workspacePath"))); [|discriminate IH].
      destruct (get_prop_opt config (str "workspacePath")); try discriminate IH.
      destruct (hashIdentityFiles w s) as [h'| |] eqn:Hh; cbn [bind] in IH;
        try discriminate IH.
      injection IH as <-.
      destruct (hashIdentityFiles_inv _ _ _ Hh) as (e1 & e2 & e3 & R1 & R2 & R3 & ->).
      apply json_object; [|reflexivity].
      repeat (apply Forall_cons; [cbn [fst snd]; split; [reflexivity|]|]);
        try apply Forall_nil.
      + exact (entry_hash_json _ _ _ _ R1).
      + exact (entry_hash_json _ _ _ _ R2).
      + exact (entry_hash_json _ _ _ _ R3).
      + cbn [hr_composite ce_hash].
        destruct (keccak256_cons (utf8_encode (contribution e1 ++ contribution e2
                                               ++ contribution e3))) as (a & k & Ek).
        unfold js_or. rewrite Ek. cbn [truthy]. rewrite <- Ek.
        apply keccak256_code_units.
      + reflexivity.
      + exact Hd.
    - apply json_object; [|reflexivity].
      repeat (apply Forall_cons; [cbn [fst snd]; split; [reflexivity|]|]);
        try apply Forall_nil.
      + apply Hprop. cbn. auto.
      + change (json_value (VStr ?s)) with (forallb code_unit s).
        cbn [forallb app]. rewrite Jchain. reflexivity.
    - exact Hg.
    - reflexivity. }
  split; [exact Jreg|].
  intros chain.
  destruct (JSON_parse_stringify reg Jreg) as (c & t & Ht & Hwf & Hparse).
  exists (str "data:application/json;base64," ++ base64_encode (utf8_encode (c :: t))).
  split.
  - unfold toBase64DataURI. rewrite Ht. reflexivity.
  - rewrite (fetch_data_uri chain c t Hwf), Hparse. reflexivity.
Qed.

Lemma built_registration_is_json_witness :
  json_value
    (returned VUndef
       (buildRegistration (update_world (VNum 42) (Err network_error))
          (config_agent (VNum 42)))) = true.
Proof.
  destruct (buildRegistration (update_world (VNum 42) (Err network_error))
              (config_agent (VNum 42))) as [reg|e|c] eqn:B.
  - cbn [returned].
    apply (built_registration_is_json (update_world (VNum 42) (Err network_error))
             (config_agent (VNum 42)) reg); try reflexivity; [|exact B].
    intros k Hk. cbn in Hk. destruct Hk as [<-|[<-|[<-|[]]]]; discriminate.
  - exfalso. revert B. vm_compute. discriminate.
  - exfalso. revert B. vm_compute. discriminate.
Defined.

(* ------------------------------------------------------------------ *)
(** ** The update command: what it writes *)

Lemma includes_replace_first (s pattern replacement : jsstring) :
  includes s pattern = false -> replace_first s pattern replacement = s.
Proof.
  induction s as [|c s IH]; cbn [includes replace_first]; intros H;
    apply orb_false_iff in H; destruct H as [H1 H2]; rewrite H1; [reflexivity|].
  rewrite (IH H2). reflexivity.
Qed.

Lemma writes_cret {A : Type} (P : jsstring -> Prop) (a : A) : writes_within P (cret a).
Proof. intros log H. exact H. Qed.

Lemma writes_run_outcome {A : Type} (P : jsstring -> Prop) (o : outcome A) :
  writes_within P (run_outcome o).
Proof. intros log H. exact H. Qed.

Lemma writes_cexit {A : Type} (P : jsstring -> Prop) (c : Z) :
  writes_within P (@cexit A c).
Proof. intros log H. exact H. Qed.

Lemma writes_cthrow {A : Type} (P : jsstring -> Prop) (e : js_error) :
  writes_within P (@cthrow A e).
Proof. intros log H. exact H. Qed.

Lemma writes_emit (P : jsstring -> Prop) (e : event) :
  (forall p document, e = Wrote p document -> P p) -> writes_within P (emit e).
Proof.
  intros He log H p d Hin. cbn [emit fst] in Hin. apply in_app_or in Hin.
  destruct Hin as [Hin|[Hin|[]]]; [exact (H p d Hin)|exact (He p d Hin)].
Qed.

Lemma writes_cbind {A B : Type} (P : jsstring -> Prop) (m : cmd A) (k : A -> cmd B) :
  writes_within P m -> (forall a, writes_within P (k a)) ->
  writes_within P (cbind m k).
Proof.
  intros Hm Hk log H. specialize (Hm log H). unfold cbind.
  destruct (m log) as [log' [a|e|c]]; cbn [fst] in *; [apply Hk|..]; exact Hm.
Qed.

Lemma writes_ctry {A : Type} (P : jsstring -> Prop) (body : cmd A)
    (handler : js_error -> cmd A) :
  writes_within P body -> (forall e, writes_within P (handler e)) ->
  writes_within P (ctry body handler).
Proof.
  intros Hb Hh log H. specialize (Hb log H). unfold ctry.
  destruct (body log) as [log' [a|e|c]]; cbn [fst] in *; [|apply Hh|]; exact Hb.
Qed.

Lemma writes_write_json (P : jsstring -> Prop) (w : world) (p : jsstring) (d : jsval) :
  P p -> writes_within P (write_json w p d).
Proof.
  intros Hp. unfold write_json. apply writes_cbind; [apply writes_run_outcome|].
  intros _. apply writes_emit. intros p' d' [= <- _]. exact Hp.
Qed.

Lemma writes_check_chain (P : jsstring -> Prop) (w : world) (agentId : jsval)
    (newHashes : hash_results) :
  writes_within P (check_chain w agentId newHashes).
Proof.
  unfold check_chain. destruct (truthy agentId).
  - apply writes_ctry.
    + apply writes_cbind; [apply writes_run_outcome|]. intros agent.
      destruct (truthy _).
      * destruct (fold_left _ _ _).
        -- apply writes_cbind; [apply writes_emit; discriminate|].
           intros _. apply writes_cexit.
        -- apply writes_cbind; [apply writes_emit; discriminate|].
           intros _. apply writes_cret.
      * apply writes_cbind; [apply writes_emit; discriminate|].
        intros _. apply writes_cret.
    + intros e. apply writes_cbind; [apply writes_emit; discriminate|].
      intros _. apply writes_cret.
  - apply writes_cbind; [apply writes_emit; discriminate|]. intros _. apply writes_cret.
Qed.

Lemma writes_main (w : world) (opts : update_opts) :
  writes_within
    (fun p => uo_dryRun opts = true /\
              (p = registration_path (to_string (uo_config opts)) \/
               p = expected_hashes_path (to_string (uo_config opts))))
    (UpdateIdentity.main w opts).
Proof.
  unfold UpdateIdentity.main. destruct (negb (truthy (uo_config opts))).
  { apply writes_cbind; [apply writes_emit; discriminate|]. intros _. apply writes_cexit. }
  apply writes_cbind; [apply writes_run_outcome|]. intros raw.
  apply writes_cbind; [apply writes_run_outcome|]. intros config.
  apply writes_cbind; [apply writes_run_outcome|]. intros wsv.
  apply writes_cbind; [apply writes_run_outcome|]. intros newHashes.
  apply writes_cbind; [apply writes_check_chain|]. intros changes.
  unfold publish.
  apply writes_cbind; [apply writes_run_outcome|]. intros reg.
  apply writes_cbind;
    [destruct (uo_ipfs opts); [apply writes_emit; discriminate|apply writes_cret]|].
  intros _.
  apply writes_cbind; [apply writes_run_outcome|]. intros uri.
  apply writes_cbind; [apply writes_run_outcome|]. intros cost.
  apply writes_cbind; [apply writes_emit; discriminate|]. intros _.
  apply writes_cbind;
    [unfold build_transaction; destruct (truthy _);
     [apply writes_run_outcome|apply writes_cret]|].
  intros tx.
  apply writes_cbind; [apply writes_emit; discriminate|]. intros _.
  unfold deliver. destruct (uo_dryRun opts).
  - apply writes_cbind; [apply writes_emit; discriminate|]. intros _.
    apply writes_cbind; [apply writes_write_json; auto|]. intros _.
    apply writes_cbind; [apply writes_write_json; auto|]. intros _.
    apply writes_cexit.
  - destruct (truthy (uo_output opts)); [apply writes_cthrow|].
    destruct (uo_sign opts).
    + apply writes_cbind; [apply writes_emit; discriminate|]. intros _.
      apply writes_cexit.
    + apply writes_cbind; [apply writes_emit; discriminate|]. intros _.
      apply writes_cret.
Qed.

(** X13. The update command writes files in a dry run only, and then only
    the two files named after the configuration file: the first ".json" of
    its path replaced by "-registration.json" and by
    "-expected-hashes.json".  When the path of the configuration file
    contains no ".json" both names are that path itself: the dry run then
    writes over the configuration file. *)
Theorem update_writes_only_in_dry_run (w : world) (opts : update_opts)
    (p : jsstring) (document : jsval) :
  In (Wrote p document) (fst (update_cli w opts)) ->
  uo_dryRun opts = true /\
  (p = registration_path (to_string (uo_config opts)) \/
   p = expected_hashes_path (to_string (uo_config opts))) /\
  (includes (to_string (uo_config opts)) (str ".json") = false ->
   p = to_string (uo_config opts)).
Proof.
  intros Hin.
  assert (H : writes_only
                (fun p => uo_dryRun opts = true /\
                          (p = registration_path (to_string (uo_config opts)) \/
                           p = expected_hashes_path (to_string (uo_config opts))))
                (fst (UpdateIdentity.main w opts []))).
  { apply writes_main. intros p' d' []. }
  destruct (H p document Hin) as [Hdry Hpath].
  split; [exact Hdry|]. split; [exact Hpath|].
  intros Hinc. unfold registration_path, expected_hashes_path in Hpath.
  rewrite !(includes_replace_first _ _ _ Hinc) in Hpath. destruct Hpath; assumption.
Qed.

Lemma update_writes_only_in_dry_run_witness :
  let registration :=
    returned VNull (buildRegistration (update_world (VNum 0) (Err network_error))
                      (config_agent (VNum 0))) in
  uo_dryRun dry_run = true /\
  (str "/cfg-registration.json" = registration_path (str "/cfg.json") \/
   str "/cfg-registration.json" = expected_hashes_path (str "/cfg.json")) /\
  (includes (str "/cfg.json") (str ".json") = false ->
   str "/cfg-registration.json" = str "/cfg.json").
Proof.
  intros registration.
  apply (update_writes_only_in_dry_run (update_world (VNum 0) (Err network_error))
           dry_run (str "/cfg-registration.json") registration).
  vm_compute. repeat (first [left; reflexivity|right]).
Defined.

(* ------------------------------------------------------------------ *)
(** ** The update command: how it ends *)

Lemma update_main_unfold (w : world) (opts : update_opts) (log : list event) :
  UpdateIdentity.main w opts log =
  if negb (truthy (uo_config opts)) then (log ++ [LogUsage], Exit 1)
  else
    match read_text w (uo_config opts) with
    | Ret raw =>
        match JSON_parse raw with
        | Ret config =>
            match get_prop config (str "workspacePath") with
            | Ret wsv =>
                match hashIdentityFiles_of w wsv with
                | Ret newHashes =>
                    cbind (check_chain w (get_prop_opt config (str "agentId")) newHashes)
                          (fun _ => publish w opts config newHashes) log
                | Throw e => (log, Throw e)
                | Exit c => (log, Exit c)
                end
            | Throw e => (log, Throw e)
            | Exit c => (log, Exit c)
            end
        | Throw e => (log, Throw e)
        | Exit c => (log, Exit c)
        end
    | Throw e => (log, Throw e)
    | Exit c => (log, Exit c)
    end.
Proof.
  unfold UpdateIdentity.main. destruct (negb (truthy (uo_config opts))); [reflexivity|].
  unfold cbind at 1, run_outcome at 1.
  destruct (read_text w (uo_config opts)) as [raw| |]; [|reflexivity|reflexivity].
  unfold cbind at 1, run_outcome at 1.
  destruct (JSON_parse raw) as [config| |]; [|reflexivity|reflexivity].
  unfold cbind at 1, run_outcome at 1.
  destruct (get_prop config (str "workspacePath")) as [wsv| |]; [|reflexivity|reflexivity].
  unfold cbind at 1, run_outcome at 1.
  destruct (hashIdentityFiles_of w wsv) as [newHashes| |]; reflexivity.
Qed.

Lemma check_chain_cases (w : world) (agentId : jsval) (newHashes : hash_results)
    (log : list event) :
  check_chain w agentId newHashes log = (log ++ [LogNoUpdateNeeded], Exit 0) \/
  exists log' changes, check_chain w agentId newHashes log = (log', Ret changes).
Proof.
  destruct (truthy agentId) eqn:Hid.
  2:{ right. rewrite (check_chain_unregistered _ _ _ _ Hid). eauto. }
  destruct (lookupAgent w agentId) as [agent|e|c] eqn:L.
  - destruct (truthy (get_prop_opt (ca_registration agent) (str "identityFiles")))
      eqn:T.
    + rewrite (check_chain_registered _ _ _ _ _ Hid L T).
      destruct (fold_left _ _ _); [left; reflexivity|right; eauto].
    + right. unfold check_chain. rewrite Hid.
      unfold ctry, cbind at 1, run_outcome. rewrite L, T.
      eexists. eexists. reflexivity.
  - right. unfold check_chain. rewrite Hid.
    unfold ctry, cbind at 1, run_outcome. rewrite L.
    eexists. eexists. reflexivity.
  - exfalso. exact (no_exit_lookupAgent w agentId c L).
Qed.

Lemma no_exit_buildRegistration (w : world) (config : jsval) :
  no_exit (buildRegistration w config).
Proof.
  intros c. unfold buildRegistration.
  assert (H : forall (k : option hash_results -> outcome jsval),
            (forall h, no_exit (k h)) ->
            no_exit
              (identityHashes <-
                 (if truthy (get_prop_opt config (str "workspacePath")) then
                    match get_prop_opt config (str "workspacePath") with
                    | VStr p => h <- hashIdentityFiles w p ;; Ret (Some h)
                    | _ => Throw (type_error "The path argument must be of type string")
                    end
                  else Ret None) ;; k identityHashes)).
  { intros k Hk. apply no_exit_bind; [|exact Hk].
    destruct (truthy _); [|apply no_exit_ret].
    destruct (get_prop_opt config (str "workspacePath")); try apply no_exit_throw.
    apply no_exit_bind; [intros x; apply hashIdentityFiles_no_exit|].
    intros h. apply no_exit_ret. }
  destruct config; try discriminate; apply H; intros h;
    (apply no_exit_bind;
     [unfold spread; destruct (field _ _ _); discriminate
     |intros s; apply no_exit_ret]).
Qed.

Lemma publish_ends (w : world) (opts : update_opts) (config : jsval)
    (newHashes : hash_results) (log : list event) :
  match snd (publish w opts config newHashes log) with
  | Ret _ =>
      uo_dryRun opts = false /\ truthy (uo_output opts) = false /\ uo_sign opts = false
  | Throw _ => True
  | Exit c =>
      (c = 0 /\ uo_dryRun opts = true) \/
      (c = 1 /\ uo_dryRun opts = false /\ truthy (uo_output opts) = false /\
       uo_sign opts = true)
  end.
Proof.
  unfold publish.
  unfold cbind at 1, run_outcome at 1.
  destruct (buildRegistration w config) as [reg|e|c] eqn:B; cbn [snd]; [|exact I|].
  2:{ exfalso. exact (no_exit_buildRegistration w config c B). }
  unfold cbind at 1.
  destruct ((if uo_ipfs opts then emit LogIpfsNotImplemented else cret tt) log)
    as [log1 [u| |]] eqn:E1;
    [|destruct (uo_ipfs opts); discriminate E1|destruct (uo_ipfs opts); discriminate E1].
  unfold cbind at 1, run_outcome at 1.
  destruct (toBase64DataURI reg) as [uri|e|c] eqn:U; cbn [snd]; [|exact I|].
  2:{ unfold toBase64DataURI in U. destruct (stringify reg); discriminate. }
  unfold cbind at 1, run_outcome at 1.
  destruct (estimateOnChainCost reg) as [cost|e|c] eqn:C; cbn [snd]; [|exact I|].
  2:{ unfold estimateOnChainCost in C. rewrite U in C. cbn [bind] in C.
      destruct (stringify reg); discriminate. }
  unfold cbind at 1, emit at 1.
  unfold cbind at 1.
  destruct (build_transaction w (get_prop_opt config (str "agentId")) uri
              (log1 ++ [LogCost cost])) as [log2 [tx|e|c]] eqn:T; cbn [snd]; [|exact I|].
  2:{ unfold build_transaction in T. destruct (truthy _); [|discriminate T].
      unfold run_outcome in T. injection T as _ T.
      exfalso. exact (no_exit_buildUpdateURITx _ _ _ _ T). }
  unfold cbind at 1, emit at 1.
  unfold deliver. destruct (uo_dryRun opts).
  - unfold cbind at 1, emit at 1. unfold write_json.
    unfold cbind at 1. unfold cbind at 1, run_outcome at 1.
    destruct (writeFile w _); cbn [lift snd]; [|exact I].
    unfold emit at 1. unfold cbind at 1. unfold cbind at 1, run_outcome at 1.
    destruct (writeFile w _); cbn [lift snd]; [|exact I].
    unfold emit at 1. cbn [cbind cexit snd]. left. auto.
  - destruct (truthy (uo_output opts)); [exact I|].
    destruct (uo_sign opts); cbn; auto.
Qed.

Lemma cbind_eq {A B : Type} (m : cmd A) (k : A -> cmd B) (log : list event) :
  cbind m k log =
  match m log with
  | (log', Ret a) => k a log'
  | (log', Throw e) => (log', Throw e)
  | (log', Exit c) => (log', Exit c)
  end.
Proof. reflexivity. Qed.

Lemma update_cli_cases (w : world) (opts : update_opts) :
  update_cli w opts = ([LogUsage], 1) \/
  update_cli w opts = ([LogNoUpdateNeeded], 0) \/
  (exists e, snd (UpdateIdentity.main w opts []) = Throw e) \/
  exists config newHashes log,
    UpdateIdentity.main w opts [] = publish w opts config newHashes log.
Proof.
  unfold update_cli. rewrite update_main_unfold.
  destruct (negb (truthy (uo_config opts))); [left; reflexivity|].
  destruct (read_text w (uo_config opts)) as [raw|e|c] eqn:R.
  2:{ right. right. left. eexists. reflexivity. }
  2:{ exfalso. exact (no_exit_read_text _ _ _ R). }
  destruct (JSON_parse raw) as [config|e|c] eqn:P.
  2:{ right. right. left. eexists. reflexivity. }
  2:{ exfalso. exact (no_exit_JSON_parse _ _ P). }
  destruct (get_prop config (str "workspacePath")) as [wsv|e|c] eqn:G.
  2:{ right. right. left. eexists. reflexivity. }
  2:{ exfalso. exact (no_exit_get_prop _ _ _ G). }
  destruct (hashIdentityFiles_of w wsv) as [newHashes|e|c] eqn:H.
  2:{ right. right. left. eexists. reflexivity. }
  2:{ exfalso. exact (no_exit_hashIdentityFiles_of _ _ _ H). }
  rewrite cbind_eq.
  destruct (check_chain_cases w (get_prop_opt config (str "agentId")) newHashes [])
    as [E|(log' & changes & E)]; rewrite E.
  - right. left. reflexivity.
  - right. right. right. exists config, newHashes, log'. reflexivity.
Qed.

(** X14. The exit status of the update command is 0, 1 or 3, in every
    environment and for every combination of options: 1 for the usage note
    and for --sign, 3 for whatever is thrown, 0 otherwise. *)
Theorem update_exit_status_is_0_1_or_3 (w : world) (opts : update_opts) :
  snd (update_cli w opts) = 0 \/ snd (update_cli w opts) = 1 \/
  snd (update_cli w opts) = 3.
Proof.
  destruct (update_cli_cases w opts) as [E|[E|[[e E]|(config & newHashes & log & E)]]].
  - rewrite E. auto.
  - rewrite E. auto.
  - unfold update_cli. cbn [snd]. rewrite E. auto.
  - unfold update_cli. cbn [snd]. rewrite E.
    pose proof (publish_ends w opts config newHashes log) as H.
    destruct (snd (publish w opts config newHashes log)) as [u|e|c];
      cbn [exit_status]; auto.
    destruct H as [[-> _]|[-> _]]; auto.
Qed.

(** X15. --output never saves the transaction.  Without --dry-run and with
    an output file, a run that gets as far as the transaction ends with an
    error (the script reads a constant it does not import) and status 3;
    the only other ends are the usage note (status 1) and the report that
    no update is needed (status 0). *)
Theorem update_output_is_never_written (w : world) (opts : update_opts) :
  uo_dryRun opts = false -> truthy (uo_output opts) = true ->
  (update_cli w opts = ([LogUsage], 1) \/
   update_cli w opts = ([LogNoUpdateNeeded], 0) \/
   snd (update_cli w opts) = 3) /\
  writes_only (fun _ => False) (fst (update_cli w opts)).
Proof.
  intros Hdry Hout. split.
  - destruct (update_cli_cases w opts)
      as [E|[E|[[e E]|(config & newHashes & log & E)]]]; auto.
    + right. right. unfold update_cli. cbn [snd]. rewrite E. reflexivity.
    + right. right. unfold update_cli. cbn [snd]. rewrite E.
      pose proof (publish_ends w opts config newHashes log) as H.
      destruct (snd (publish w opts config newHashes log)) as [u|e|c];
        cbn [exit_status]; [|reflexivity|].
      * destruct H as (_ & H & _). congruence.
      * destruct H as [[_ H]|(_ & _ & H & _)]; congruence.
  - intros p d Hin.
    assert (H : writes_only
                  (fun p => uo_dryRun opts = true /\
                            (p = registration_path (to_string (uo_config opts)) \/
                             p = expected_hashes_path (to_string (uo_config opts))))
                  (fst (UpdateIdentity.main w opts []))).
    { apply writes_main. intros p' d' []. }
    destruct (H p d Hin) as [Hd _]. congruence.
Qed.

Lemma update_output_is_never_written_witness :
  snd (update_cli (update_world (VNum 0) (Err network_error)) to_file) = 3.
Proof.
  destruct (update_output_is_never_written
              (update_world (VNum 0) (Err network_error)) to_file eq_refl eq_refl)
    as [[E|[E|E]] _].
  - exfalso. revert E. vm_compute. discriminate.
  - exfalso. revert E. vm_compute. discriminate.
  - exact E.
Defined.

(* ------------------------------------------------------------------ *)
(** ** The update command when the chain cannot be read *)



(* ------------------------------------------------------------------ *)
(** ** The update command before the first registration *)

Lemma publish_without_agent (w chain : world) (opts : update_opts) (config : jsval)
    (newHashes : hash_results) (log : list event) :
  truthy (get_prop_opt config (str "agentId")) = false ->
  publish (with_chain w chain) opts config newHashes log =
  publish w opts config newHashes log.
Proof.
  intros T. unfold publish, build_transaction. rewrite T. reflexivity.
Qed.

(** X17. With a configuration that has no agent identifier (or a falsy
    one) the update command reads neither the chain nor the network: what
    it prints, what it writes and its exit status are the same whatever
    stands behind the environment. *)
Theorem update_without_agent_needs_no_chain (w chain : world) (opts : update_opts) :
  (forall raw config,
     read_text w (uo_config opts) = Ret raw -> JSON_parse raw = Ret config ->
     truthy (get_prop_opt config (str "agentId")) = false) ->
  update_cli (with_chain w chain) opts = update_cli w opts.
Proof.
  intros Hno. unfold update_cli. rewrite !update_main_unfold.
  destruct (negb (truthy (uo_config opts))); [reflexivity|].
  change (read_text (with_chain w chain) (uo_config opts))
    with (read_text w (uo_config opts)).
  destruct (read_text w (uo_config opts)) as [raw| |] eqn:R; try reflexivity.
  destruct (JSON_parse raw) as [config| |] eqn:P; try reflexivity.
  specialize (Hno raw config eq_refl P).
  destruct (get_prop config (str "workspacePath")) as [wsv| |]; try reflexivity.
  assert (S : hashIdentityFiles_of (with_chain w chain) wsv = hashIdentityFiles_of w wsv)
    by (destruct wsv; reflexivity).
  rewrite S. destruct (hashIdentityFiles_of w wsv) as [newHashes| |]; try reflexivity.
  rewrite !cbind_eq, !(check_chain_unregistered _ _ _ _ Hno).
  rewrite (publish_without_agent _ _ _ _ _ _ Hno). reflexivity.
Qed.

Lemma update_without_agent_needs_no_chain_witness :
  update_cli
    (with_chain (update_world (VNum 0) (Err network_error)) (sample_world [] (Ok [])))
    dry_run
  = update_cli (update_world (VNum 0) (Err network_error)) dry_run.
Proof.
  apply (update_without_agent_needs_no_chain
           (update_world (VNum 0) (Err network_error)) (sample_world [] (Ok [])) dry_run).
  intros raw config R P.
  assert (E : JSON_parse (returned [] (read_text (update_world (VNum 0) (Err network_error))
                                         (uo_config dry_run)))
              = Ret (config_agent (VNum 0))) by (vm_compute; reflexivity).
  rewrite R in E. cbn [returned] in E. rewrite P in E. injection E as ->. reflexivity.
Defined.

(* ------------------------------------------------------------------ *)
(** ** The hasher on its command line *)

Lemma sbind_eq {E A B : Type} (m : script E A) (k : A -> script E B) (out : list E) :
  sbind m k out =
  match m out with
  | (out', Ret a) => k a out'
  | (out', Throw e) => (out', Throw e)
  | (out', Exit c) => (out', Exit c)
  end.
Proof. reflexivity. Qed.

Lemma hash_main_returns (w : world) (cwd : jsstring) (argv : list jsstring)
    (r : hash_results) :
  hashIdentityFiles w (HashIdentityCli.workspace_argument cwd argv) = Ret r ->
  HashIdentityCli.main w cwd argv [] =
  (HashIdentityCli.Banner
     :: HashIdentityCli.Workspace (HashIdentityCli.workspace_argument cwd argv)
     :: flat_map (HashIdentityCli.entry_lines r) IDENTITY_FILES
     ++ [HashIdentityCli.CompositeHash (ce_hash (hr_composite r))], Ret r).
Proof.
  intros H. unfold HashIdentityCli.main.
  rewrite !sbind_eq. unfold say at 1. rewrite !sbind_eq. unfold say at 1.
  rewrite !sbind_eq. unfold call at 1. rewrite H.
  destruct (hashIdentityFiles_inv _ _ _ H) as (e1 & e2 & e3 & _ & _ & _ & ->).
  destruct e1 as [h1 s1 [|] p1], e2 as [h2 s2 [|] p2], e3 as [h3 s3 [|] p3];
    reflexivity.
Qed.

(** X18. The hasher prints and never fails: its exit status is 0 whatever
    happens, a failing read included, which is only printed.  The
    workspace is the first argument, or the current directory when there is
    none or it is empty.  When a read fails nothing of the documents is
    printed, not even the hashes of those read before; otherwise every
    document is reported, found with its hash or not found, and the
    composite comes last. *)
Theorem hash_identity_reports (w : world) (cwd : jsstring) (argv : list jsstring) :
  snd (HashIdentityCli.hash_identity w cwd argv) = 0 /\
  (forall e,
     hashIdentityFiles w (HashIdentityCli.workspace_argument cwd argv) = Throw e ->
     fst (HashIdentityCli.hash_identity w cwd argv) =
     [HashIdentityCli.Banner;
      HashIdentityCli.Workspace (HashIdentityCli.workspace_argument cwd argv);
      HashIdentityCli.Rejected e]) /\
  (forall r,
     hashIdentityFiles w (HashIdentityCli.workspace_argument cwd argv) = Ret r ->
     exists lines,
       fst (HashIdentityCli.hash_identity w cwd argv) =
       HashIdentityCli.Banner
         :: HashIdentityCli.Workspace (HashIdentityCli.workspace_argument cwd argv)
         :: lines ++ [HashIdentityCli.CompositeHash (ce_hash (hr_composite r))] /\
       forall f e, In f IDENTITY_FILES -> lookup f (hr_files r) = Some e ->
         if fe_exists e
         then In (HashIdentityCli.Found f) lines /\
              In (HashIdentityCli.HashOf (fe_hash e)) lines
         else In (HashIdentityCli.NotFound f) lines).
Proof.
  assert (Hthrow : forall e,
            hashIdentityFiles w (HashIdentityCli.workspace_argument cwd argv) = Throw e ->
            HashIdentityCli.main w cwd argv [] =
            ([HashIdentityCli.Banner;
              HashIdentityCli.Workspace (HashIdentityCli.workspace_argument cwd argv)],
             Throw e)).
  { intros e H. unfold HashIdentityCli.main.
    rewrite !sbind_eq. unfold say at 1. rewrite !sbind_eq. unfold say at 1.
    rewrite !sbind_eq. unfold call at 1. rewrite H. reflexivity. }
  unfold HashIdentityCli.hash_identity, catch_console_error.
  destruct (hashIdentityFiles w (HashIdentityCli.workspace_argument cwd argv))
    as [r|e|c] eqn:H.
  - rewrite (hash_main_returns _ _ _ _ H). cbn [fst snd].
    split; [reflexivity|]. split; [discriminate|].
    intros r' [= <-]. eexists. split; [reflexivity|].
    intros f e Hf He.
    assert (Hl : forall l, In l (HashIdentityCli.entry_lines r f) ->
              In l (flat_map (HashIdentityCli.entry_lines r) IDENTITY_FILES)).
    { intros l Hl. apply in_flat_map. exists f. split; assumption. }
    unfold HashIdentityCli.entry_lines in Hl. rewrite He in Hl.
    destruct (fe_exists e); [split|]; apply Hl; cbn; auto.
  - rewrite (Hthrow e eq_refl). cbn [fst snd].
    split; [reflexivity|]. split; [intros e' [= <-]; reflexivity|discriminate].
  - exfalso. exact (hashIdentityFiles_no_exit w _ c H).
Qed.

(* ------------------------------------------------------------------ *)
(** ** The builder on its command line *)

Lemma builder_main_cases (w : world) (a : jsstring) (rest : list jsstring) :
  truthy (VStr a) = true ->
  exists out o,
    RegistrationBuilderCli.main w (a :: rest) [] = (out, o) /\
    no_exit o /\
    forall p d, In (RegistrationBuilderCli.Wrote p d) out ->
      p = registration_path a /\
      exists raw config,
        read_text w (VStr a) = Ret raw /\ JSON_parse raw = Ret config /\
        buildRegistration w config = Ret d.
Proof.
  intros T. unfold RegistrationBuilderCli.main. rewrite T. cbn [negb].
  rewrite sbind_eq. unfold call at 1.
  destruct (read_text w (VStr a)) as [raw|e|c] eqn:R.
  2:{ eexists. eexists. split; [reflexivity|]. split; [apply no_exit_throw|intros p d []]. }
  2:{ exfalso. exact (no_exit_read_text _ _ _ R). }
  rewrite sbind_eq. unfold call at 1.
  destruct (JSON_parse raw) as [config|e|c] eqn:P.
  2:{ eexists. eexists. split; [reflexivity|]. split; [apply no_exit_throw|intros p d []]. }
  2:{ exfalso. exact (no_exit_JSON_parse _ _ P). }
  rewrite sbind_eq. unfold call at 1.
  destruct (get_prop config (str "name")) as [name|e|c] eqn:G.
  2:{ eexists. eexists. split; [reflexivity|]. split; [apply no_exit_throw|intros p d []]. }
  2:{ exfalso. exact (no_exit_get_prop _ _ _ G). }
  rewrite sbind_eq. unfold say at 1.
  rewrite sbind_eq. unfold call at 1.
  destruct (buildRegistration w config) as [reg|e|c] eqn:B.
  2:{ eexists. eexists. split; [reflexivity|]. split; [apply no_exit_throw|].
      intros p d [Hin|[]]. discriminate Hin. }
  2:{ exfalso. exact (no_exit_buildRegistration _ _ _ B). }
  assert (Hw : forall out : list RegistrationBuilderCli.line,
            (forall p d, In (RegistrationBuilderCli.Wrote p d) out ->
               (RegistrationBuilderCli.Wrote p d
                = RegistrationBuilderCli.Wrote (registration_path a) reg)) ->
            forall p d, In (RegistrationBuilderCli.Wrote p d) out ->
              p = registration_path a /\
              exists raw0 config,
                @Ret jsstring raw = Ret raw0 /\ JSON_parse raw0 = Ret config /\
                buildRegistration w config = Ret d).
  { intros out Hout p d Hin. specialize (Hout p d Hin). injection Hout as -> ->.
    split; [reflexivity|]. eauto. }
  rewrite sbind_eq. unfold RegistrationBuilderCli.write_json.
  rewrite sbind_eq. unfold call at 1.
  fold (registration_path a).
  destruct (writeFile w (registration_path a)) as [u|e]; cbn [lift].
  2:{ eexists. eexists. split; [reflexivity|]. split; [apply no_exit_throw|].
      intros p d [Hin|[]]. discriminate Hin. }
  unfold say at 1.
  rewrite sbind_eq. unfold say at 1.
  rewrite sbind_eq. unfold call at 1.
  destruct (toBase64DataURI reg) as [uri|e|c] eqn:U.
  3:{ unfold toBase64DataURI in U. destruct (stringify reg); discriminate. }
  2:{ unfold estimateOnChainCost. rewrite U. cbn [bind].
      eexists. eexists. split; [reflexivity|]. split; [apply no_exit_throw|].
      apply Hw. intros p d Hin. cbn in Hin.
      repeat (destruct Hin as [Hin|Hin]; [first [discriminate Hin|symmetry; exact Hin]|]).
      destruct Hin. }
  destruct (estimate_returns _ _ U) as [cost C]. rewrite C.
  rewrite sbind_eq. unfold say at 1.
  rewrite sbind_eq. unfold call at 1.
  rewrite sbind_eq. unfold say at 1.
  eexists. eexists. split; [reflexivity|]. split; [apply no_exit_ret|].
  apply Hw. intros p d Hin. cbn in Hin.
  repeat (destruct Hin as [Hin|Hin]; [first [discriminate Hin|symmetry; exact Hin]|]).
  destruct Hin.
Qed.

(** X19. The builder on its command line.  Without a configuration path it
    prints its usage and exits with status 1; with one its exit status is
    0 even when it fails, the failure being only printed.  It writes at
    most the registration it built from the configuration, to the path of
    the configuration with its first ".json" replaced by
    "-registration.json"; when that path contains no ".json" it writes over
    the configuration file. *)
Theorem registration_builder_run (w : world) (argv : list jsstring) :
  (match argv with
   | [] => RegistrationBuilderCli.registration_builder w argv
           = ([RegistrationBuilderCli.Usage], 1)
   | a :: _ =>
       if truthy (VStr a)
       then snd (RegistrationBuilderCli.registration_builder w argv) = 0
       else RegistrationBuilderCli.registration_builder w argv
            = ([RegistrationBuilderCli.Usage], 1)
   end) /\
  (forall p d,
     In (RegistrationBuilderCli.Wrote p d)
        (fst (RegistrationBuilderCli.registration_builder w argv)) ->
     exists a rest raw config,
       argv = a :: rest /\
       p = registration_path a /\
       (includes a (str ".json") = false -> p = a) /\
       read_text w (VStr a) = Ret raw /\ JSON_parse raw = Ret config /\
       buildRegistration w config = Ret d).
Proof.
  destruct argv as [|a rest].
  { split; [reflexivity|]. intros p d Hin. cbn in Hin.
    destruct Hin as [Hin|[]]. discriminate Hin. }
  destruct (truthy (VStr a)) eqn:T.
  2:{ assert (E : RegistrationBuilderCli.registration_builder w (a :: rest)
                  = ([RegistrationBuilderCli.Usage], 1)).
      { unfold RegistrationBuilderCli.registration_builder, RegistrationBuilderCli.main.
        rewrite T. reflexivity. }
      split; [exact E|]. rewrite E. intros p d [Hin|[]]. discriminate Hin. }
  destruct (builder_main_cases w a rest T) as (out & o & M & Hno & Hw).
  unfold RegistrationBuilderCli.registration_builder, catch_console_error. rewrite M.
  destruct o as [reg|e|c]; cbn [fst snd].
  - split; [reflexivity|]. intros p d Hin.
    destruct (Hw p d Hin) as (-> & raw & config & R & P & B).
    exists a, rest, raw, config. repeat (split; [reflexivity || assumption|]).
    split; [|auto]. intros Hinc. apply includes_replace_first. exact Hinc.
  - split; [reflexivity|]. intros p d Hin. apply in_app_or in Hin.
    destruct Hin as [Hin|[Hin|[]]]; [|discriminate Hin].
    destruct (Hw p d Hin) as (-> & raw & config & R & P & B).
    exists a, rest, raw, config. repeat (split; [reflexivity || assumption|]).
    split; [|auto]. intros Hinc. apply includes_replace_first. exact Hinc.
  - exfalso. exact (Hno c eq_refl).
Qed.

Lemma registration_builder_run_witness :
  exists a rest raw config,
    [str "/cfg.json"] = a :: rest /\
    str "/cfg-registration.json" = registration_path a /\
    (includes a (str ".json") = false -> str "/cfg-registration.json" = a) /\
    read_text (update_world (VNum 0) (Err network_error)) (VStr a) = Ret raw /\
    JSON_parse raw = Ret config /\
    buildRegistration (update_world (VNum 0) (Err network_error)) config =
    Ret (returned VNull (buildRegistration (update_world (VNum 0) (Err network_error))
                           (config_agent (VNum 0)))).
Proof.
  apply (proj2 (registration_builder_run (update_world (VNum 0) (Err network_error))
                  [str "/cfg.json"])).
  vm_compute. repeat (first [left; reflexivity|right]).
Defined.

(* ------------------------------------------------------------------ *)
(** ** The chain client and an agent identifier that is no integer *)

(** X20. An agent identifier that has no BigInt ([undefined], [null],
    [NaN], or a text that is no integer) fails every operation of the chain
    client with the error of the conversion, before anything is read from
    the chain, with one exception: [getMetadata] catches it and answers
    [null]. *)
Theorem agent_id_without_BigInt (w : world) (c : ChainClientAccounts.chain_reads)
    (agentId : jsval) (e : js_error) :
  BigInt w agentId = Throw e ->
  lookupAgent w agentId = Throw e /\
  (forall salt, ChainClientAccounts.getTBAAddress w c agentId salt = Throw e) /\
  ChainClientAccounts.tbaExists w c agentId = Throw e /\
  (forall key, ChainClientAccounts.getMetadata w c agentId key = Ret VNull) /\
  (forall uri, buildUpdateURITx w agentId uri = Throw e) /\
  (forall salt, ChainClientAccounts.buildCreateTBATx w agentId salt = Throw e) /\
  (forall key value, ChainClientAccounts.buildSetMetadataTx w agentId key value
                     = Throw e).
Proof.
  intros H.
  split; [unfold lookupAgent; rewrite H; reflexivity|].
  split; [intros salt; unfold ChainClientAccounts.getTBAAddress; rewrite H; reflexivity|].
  split; [unfold ChainClientAccounts.tbaExists, ChainClientAccounts.getTBAAddress;
          rewrite H; reflexivity|].
  split; [intros key; unfold ChainClientAccounts.getMetadata; rewrite H; reflexivity|].
  split; [intros uri; unfold buildUpdateURITx; rewrite H; reflexivity|].
  split; [intros salt; unfold ChainClientAccounts.buildCreateTBATx; rewrite H;
          reflexivity|].
  intros key value. unfold ChainClientAccounts.buildSetMetadataTx. rewrite H.
  reflexivity.
Qed.

Lemma agent_id_without_BigInt_witness :
  ChainClientAccounts.getMetadata (sample_world [] (Ok [])) bare_chain VNaN (str "soul")
  = Ret VNull /\
  lookupAgent (sample_world [] (Ok [])) VNaN
  = Throw (type_error "Cannot convert to a BigInt").
Proof.
  destruct (agent_id_without_BigInt (sample_world [] (Ok [])) bare_chain VNaN
              (type_error "Cannot convert to a BigInt") eq_refl)
    as (H1 & _ & _ & H4 & _).
  split; [apply H4|exact H1].
Defined.

(** X21. What [tbaExists] answers: the address is the account the registry
    computes for the agent with the all-zero salt, and [exists] is truthy
    exactly when there is code at that address other than "0x".  Without
    code the flag is the falsy answer itself, [undefined] for instance, and
    not [false]. *)
Theorem tbaExists_flag (w : world) (c : ChainClientAccounts.chain_reads)
    (agentId : jsval) (t : ChainClientAccounts.tba_state) :
  ChainClientAccounts.tbaExists w c agentId = Ret t ->
  exists id code,
    BigInt w agentId = Ret id /\
    ChainClientAccounts.account c ChainClientAccounts.TBA_IMPLEMENTATION
      (str "0x0000000000000000000000000000000000000000000000000000000000000000")
      8453 IDENTITY_REGISTRY id = Ok (ChainClientAccounts.tba_address t) /\
    ChainClientAccounts.getCode c (ChainClientAccounts.tba_address t) = Ok code /\
    (truthy (ChainClientAccounts.tba_exists t) = true <->
     truthy code = true /\ code <> VStr (str "0x")) /\
    (truthy code = false -> ChainClientAccounts.tba_exists t = code).
Proof.
  unfold ChainClientAccounts.tbaExists, ChainClientAccounts.getTBAAddress.
  destruct (BigInt w agentId) as [id| |]; cbn [bind]; try discriminate.
  change (ChainClientAccounts.salt_or_default None)
    with (str "0x0000000000000000000000000000000000000000000000000000000000000000").
  change ChainClientAccounts.CHAIN_ID with 8453.
  destruct (ChainClientAccounts.account c _ _ _ _ id) as [address|] eqn:A;
    cbn [lift bind]; try discriminate.
  destruct (ChainClientAccounts.getCode c address) as [code|] eqn:G;
    cbn [lift bind]; try discriminate.
  intros [= <-]. cbn [ChainClientAccounts.tba_address ChainClientAccounts.tba_exists].
  exists id, code. repeat (split; [reflexivity || assumption|]).
  unfold ChainClientAccounts.has_code. destruct (truthy code) eqn:T.
  - split; [|discriminate]. cbn [truthy]. split.
    + intros H. split; [reflexivity|]. intros ->. discriminate H.
    + intros [_ H]. destruct code; try reflexivity.
      cbn [str_strict_eq]. destruct (jsstring_eqb (str "0x") s) eqn:Eq; [|reflexivity].
      apply jsstring_eqb_eq in Eq. subst s. contradiction.
  - split; [|reflexivity]. rewrite T. split; [discriminate|intros [H _]; discriminate].
Qed.

Lemma tbaExists_flag_witness :
  exists t,
    ChainClientAccounts.tbaExists (sample_world [] (Ok [])) bare_chain (VNum 7) = Ret t /\
    ChainClientAccounts.tba_exists t = VUndef.
Proof.
  destruct (ChainClientAccounts.tbaExists (sample_world [] (Ok [])) bare_chain (VNum 7))
    as [t| |] eqn:E; [|discriminate E|discriminate E].
  exists t. split; [reflexivity|].
  destruct (tbaExists_flag _ _ _ _ E) as (id & code & _ & _ & G & _ & H).
  injection E as <-. cbn in G. injection G as <-. apply H. reflexivity.
Defined.

Lemma hash_identity_reports_witness :
  fst (HashIdentityCli.hash_identity (sample_world unreadable_user (Err network_error))
         (str "/home") [str "/ws"]) =
  [HashIdentityCli.Banner; HashIdentityCli.Workspace (str "/ws");
   HashIdentityCli.Rejected EACCES].
Proof.
  apply (proj1 (proj2 (hash_identity_reports
                         (sample_world unreadable_user (Err network_error))
                         (str "/home") [str "/ws"]))).
  vm_compute. reflexivity.
Defined.

(* ------------------------------------------------------------------ *)
(** ** The arguments of the verification command *)

Lemma not_a_flag (a : jsstring) (long short : string) :
  startsWith a (str "-") = false ->
  startsWith (str long) (str "-") = true ->
  startsWith (str short) (str "-") = true ->
  VerifyIdentity.is_flag a long short = false.
Proof.
  intros Ha Hl Hs. unfold VerifyIdentity.is_flag.
  assert (E : forall f, startsWith f (str "-") = true -> jsstring_eqb a f = false).
  { intros f Hf. apply jsstring_eqb_neq. intros ->. congruence. }
  rewrite (E _ Hl), (E _ Hs). reflexivity.
Qed.

(** X22. The first argument of the verification command, when it does not
    start with "-", is the workspace: the options are those of the same
    command line with "--workspace" in front of it. *)
Theorem positional_argument_is_the_workspace (a : jsstring) (rest : list jsstring) :
  startsWith a (str "-") = false ->
  VerifyIdentity.parseArgs (a :: rest) =
  VerifyIdentity.parseArgs (str "--workspace" :: a :: rest).
Proof.
  intros Ha. unfold VerifyIdentity.parseArgs.
  change (VerifyIdentity.parse_from (str "--workspace" :: a :: rest)
            VerifyIdentity.initial_opts)
    with (VerifyIdentity.parse_from rest
            (VerifyIdentity.with_value (str "--workspace") (VStr a)
               VerifyIdentity.initial_opts)).
  cbn [VerifyIdentity.parse_from].
  unfold VerifyIdentity.takes_value, VerifyIdentity.without_value.
  rewrite !(not_a_flag a _ _ Ha) by reflexivity.
  cbn [orb]. rewrite Ha. reflexivity.
Qed.

Lemma positional_argument_is_the_workspace_witness :
  VerifyIdentity.parseArgs [str "/ws"; str "--agent-id"; str "42"] =
  VerifyIdentity.parseArgs [str "--workspace"; str "/ws"; str "--agent-id"; str "42"].
Proof.
  apply (positional_argument_is_the_workspace (str "/ws") [str "--agent-id"; str "42"]).
  reflexivity.
Defined.

Lemma with_value_keeps_expected (a : jsstring) (v : jsval) (o : verify_opts) :
  VerifyIdentity.takes_value a = true ->
  a <> str "--expected-hashes" ->
  vo_expectedHashes (VerifyIdentity.with_value a v o) = vo_expectedHashes o.
Proof.
  intros Ht Hne. unfold VerifyIdentity.takes_value in Ht.
  unfold VerifyIdentity.with_value.
  destruct (VerifyIdentity.is_flag a "--workspace" "-w"); [reflexivity|].
  destruct (VerifyIdentity.is_flag a "--agent-id" "-a"); [reflexivity|].
  destruct (VerifyIdentity.is_flag a "--config" "-c"); [reflexivity|].
  exfalso. cbn [orb] in Ht. unfold VerifyIdentity.is_flag in Ht.
  rewrite orb_diag in Ht. apply jsstring_eqb_eq in Ht. contradiction.
Qed.

Lemma without_value_keeps_expected (a : jsstring) (o : verify_opts) :
  vo_expectedHashes (VerifyIdentity.without_value a o) = vo_expectedHashes o.
Proof.
  unfold VerifyIdentity.without_value.
  repeat match goal with
         | |- context [if ?b then _ else _] => destruct b; try reflexivity
         end.
Qed.

Lemma parse_keeps_expected (n : nat) :
  forall argv o, (length argv <= n)%nat ->
  ~ In (str "--expected-hashes") argv ->
  vo_expectedHashes (VerifyIdentity.parse_from argv o) = vo_expectedHashes o.
Proof.
  induction n as [|n IH]; intros argv o Hlen Hnot.
  - destruct argv; [reflexivity|cbn [length] in Hlen; lia].
  - destruct argv as [|a rest]; [reflexivity|].
    cbn [VerifyIdentity.parse_from]. cbn [length] in Hlen.
    assert (Ha : a <> str "--expected-hashes")
      by (intros ->; apply Hnot; left; reflexivity).
    destruct (VerifyIdentity.takes_value a) eqn:T.
    + destruct rest as [|v rest'].
      * apply with_value_keeps_expected; assumption.
      * rewrite IH.
        -- apply with_value_keeps_expected; assumption.
        -- cbn [length] in Hlen. lia.
        -- intros Hin. apply Hnot. right. right. exact Hin.
    + rewrite IH.
      * apply without_value_keeps_expected.
      * lia.
      * intros Hin. apply Hnot. right. exact Hin.
Qed.

(** X23. --offline takes effect only together with --expected-hashes: on a
    command line without "--expected-hashes" no file of expected hashes is
    set and the run is not in offline mode, so the expected hashes are
    asked from the chain (or the run ends with status 2 or 3 before
    that). *)
Theorem offline_needs_expected_hashes (w : world) (argv : list jsstring) :
  ~ In (str "--expected-hashes") argv ->
  vo_expectedHashes (VerifyIdentity.parseArgs argv) = VNull /\
  offline_mode (VerifyIdentity.parseArgs argv) = false /\
  forall id,
    expected_hashes w (VerifyIdentity.parseArgs argv) id =
    if truthy id then expected_from_chain w id else Exit 2.
Proof.
  intros Hnot.
  assert (E : vo_expectedHashes (VerifyIdentity.parseArgs argv) = VNull)
    by (unfold VerifyIdentity.parseArgs;
        rewrite (parse_keeps_expected (length argv)); auto).
  assert (O : offline_mode (VerifyIdentity.parseArgs argv) = false)
    by (unfold offline_mode; rewrite E; apply andb_false_r).
  split; [exact E|]. split; [exact O|].
  intros id. unfold expected_hashes. rewrite O. reflexivity.
Qed.

Lemma offline_needs_expected_hashes_witness :
  verify_identity (sample_world three_documents (Err network_error))
    [str "/ws"; str "--offline"] = 2.
Proof.
  destruct (offline_needs_expected_hashes
              (sample_world three_documents (Err network_error))
              [str "/ws"; str "--offline"]) as (_ & _ & H).
  - cbn. intros [E|[E|[]]]; discriminate E.
  - unfold verify_identity, verify_cli, VerifyIdentity.main.
    change (merge_config _ (VerifyIdentity.parseArgs [str "/ws"; str "--offline"]))
      with (@Ret (jsval * jsval) (VStr (str "/ws"), VNull)).
    cbn [bind fst snd truthy negb str map list_ascii_of_string].
    rewrite H.
    destruct (hashIdentityFiles_of _ _) as [snap| |] eqn:S.
    + reflexivity.
    + exfalso. revert S. vm_compute. discriminate.
    + exfalso. revert S. vm_compute. discriminate.
Defined.

(* ------------------------------------------------------------------ *)
(** ** The agent identifier on the command line *)

Lemma digit_of_10 (c : Z) :
  digit_of 10 c = if is_digit c then Some (c - 48) else None.
Proof.
  unfold digit_of, is_digit, in_range.
  destruct (Z.leb_spec 48 c), (Z.leb_spec c 57); cbn [andb];
    try (destruct (Z.ltb_spec (c - 48) 10); [reflexivity|lia]);
    destruct (Z.leb_spec 97 c), (Z.leb_spec c 122); cbn [andb];
    try (destruct (Z.ltb_spec (c - 87) 10); [lia|reflexivity]);
    destruct (Z.leb_spec 65 c), (Z.leb_spec c 90); cbn [andb];
    try (destruct (Z.ltb_spec (c - 55) 10); [lia|reflexivity]);
    reflexivity.
Qed.

Lemma radix_digits_10 (s : jsstring) (a : Z) :
  radix_digits 10 s (Some a) = Some (fst (parse_digits s a)).
Proof.
  revert a. induction s as [|c s IH]; intros a; [reflexivity|].
  cbn [radix_digits parse_digits]. rewrite digit_of_10.
  destruct (is_digit c); [apply IH|reflexivity].
Qed.

Lemma parse_digits_no_digit (tail : jsstring) (n : Z) :
  match tail with [] => True | c :: _ => is_digit c = false end ->
  parse_digits tail n = (n, tail).
Proof.
  destruct tail as [|c tail]; [reflexivity|]. intros H. cbn [parse_digits].
  rewrite H. reflexivity.
Qed.

Lemma parseInt_leading_digit (d : Z) (r : jsstring) :
  49 <= d <= 57 ->
  parseInt (VStr (d :: r)) =
  match radix_digits 10 r (Some (d - 48)) with
  | Some n => number_of false n 1
  | None => VNaN
  end.
Proof.
  intros H.
  assert (E : d = 49 \/ d = 50 \/ d = 51 \/ d = 52 \/ d = 53 \/ d = 54 \/
              d = 55 \/ d = 56 \/ d = 57) by lia.
  destruct E as [->|[->|[->|[->|[->|[->|[->|[->| ->]]]]]]]]; reflexivity.
Qed.

(** X24. The agent identifier of the command line is read with [parseInt]:
    a positive integer in decimal is taken as that number, and so is a text
    that merely begins with one, whatever follows the digits. *)
Theorem agent_id_argument_is_read_leniently (flag : jsstring) (n : Z)
    (tail : jsstring) :
  flag = str "--agent-id" \/ flag = str "-a" ->
  0 < n < 2 ^ 53 ->
  match tail with [] => True | c :: _ => is_digit c = false end ->
  vo_agentId (VerifyIdentity.parseArgs [flag; decimal n ++ tail]) = VNum n.
Proof.
  intros Hflag Hn Htail.
  assert (E : vo_agentId (VerifyIdentity.parseArgs [flag; decimal n ++ tail])
              = parseInt (VStr (decimal n ++ tail)))
    by (destruct Hflag as [-> | ->]; reflexivity).
  rewrite E. unfold decimal. destruct (Z.ltb_spec n 0); [lia|].
  destruct (digits_spec n ltac:(lia)) as (d & ds & -> & Hall & Hhead & Hparse).
  destruct (Z.eqb_spec n 0); [lia|].
  assert (Hd : 49 <= d <= 57) by (inversion Hall; lia).
  cbn [app]. rewrite (parseInt_leading_digit d _ Hd), radix_digits_10, Hparse.
  rewrite (parse_digits_no_digit _ _ Htail). cbn [fst].
  apply (number_of_safe false n). lia.
Qed.

Lemma agent_id_argument_is_read_leniently_witness :
  vo_agentId (VerifyIdentity.parseArgs [str "--agent-id"; str "42abc"]) = VNum 42.
Proof.
  apply (agent_id_argument_is_read_leniently (str "--agent-id") 42 (str "abc")).
  - left. reflexivity.
  - lia.
  - reflexivity.
Defined.

(* ------------------------------------------------------------------ *)
(** ** When a registration can be built *)




(* ------------------------------------------------------------------ *)
(** ** The exit codes of the verification command, by cause *)




(** *** The registration of an agent *)





(** *** The inputs of a run *)





(** *** What the verification finds *)





(** *** The expected hashes *)








(** *** The causes and the branches of [main] *)







